(** * Coin Tapper: tap to earn, redeem, withdrawal history, payout function

    A shallow embedding of the redemption flow of the Coin Tapper
    application and of its stand-alone PayPal payout HTTP function.

    - [JS]       strings as UTF-16 code units, white space, [trim], and the
                 regular expressions needed for [emailRegex];
    - [Store]    the managed document store the application talks to;
    - [App]      [App.tsx]: [loadUserStats], [updateCoins], [updateWithdrawal];
    - [Tap]      [TapToEarn.tsx]: [handleTap];
    - [Redeem]   [RedeemCoins.tsx]: the tier table, [handleRedeem],
                 [canAfford], [getProgressPercentage];
    - [History]  [WithdrawalHistory.tsx]: [loadWithdrawals];
    - [Page]     the page with handlers that run one at a time;
    - [Async]    the handlers of [App.tsx] as they overlap: calls in
                 flight, the store's answers, and what each handler has
                 captured from its render;
    - [Payout]   the payout HTTP function handed to [serve].

    Conventions.  JavaScript numbers that hold coin counts, whole-dollar
    amounts and millisecond timestamps are integers ([Z], [N]); the one
    place where the source divides, [getProgressPercentage], is modelled
    over [Q] with an explicit rounding function.  Calls to the outside
    world (document store, clock, gateway) get their answers from an
    explicit environment argument, so that every definition is a total,
    executable function. *)

From Stdlib Require Import List ZArith NArith QArith Qminmax Bool String Ascii Lia.
From Stdlib Require Import Sorting.Sorted Sorting.Permutation DecimalString.
Import ListNotations.

Set Implicit Arguments.

(* ===================================================================== *)
(** * JavaScript strings and regular expressions                          *)
(* ===================================================================== *)

Module JS.

(** A string is a sequence of UTF-16 code units. *)
Definition jsstring := list N.

(** An ASCII literal of the source. *)
Definition lit (s : string) : jsstring :=
  map N_of_ascii (list_ascii_of_string s).

Definition jsstring_eqb (a b : jsstring) : bool :=
  if list_eq_dec N.eq_dec a b then true else false.

(** The decimal rendering of a non-negative integer, as a template literal
    [`${n}`] produces it. *)
Definition decimal (n : N) : jsstring :=
  lit (NilZero.string_of_uint (N.to_uint n)).

(** ECMAScript WhiteSpace and LineTerminator code points: the characters
    matched by [\s] and stripped by [String.prototype.trim]. *)
Definition isWhiteSpace (c : N) : bool :=
  (((9 <=? c) && (c <=? 13))           (* TAB LF VT FF CR *)
  || (c =? 32)                         (* SP *)
  || (c =? 160)                        (* NBSP *)
  || (c =? 5760)                       (* U+1680 *)
  || ((8192 <=? c) && (c <=? 8202))    (* U+2000 .. U+200A *)
  || (c =? 8232) || (c =? 8233)        (* LS PS *)
  || (c =? 8239) || (c =? 8287)        (* U+202F U+205F *)
  || (c =? 12288)                      (* U+3000 *)
  || (c =? 65279))%N.                  (* U+FEFF *)

Fixpoint trimStart (s : jsstring) : jsstring :=
  match s with
  | c :: s' => if isWhiteSpace c then trimStart s' else s
  | [] => []
  end.

Definition trimEnd (s : jsstring) : jsstring := rev (trimStart (rev s)).

Definition trim (s : jsstring) : jsstring := trimEnd (trimStart s).

(** Truthiness of a string: only the empty string is falsy. *)
Definition truthy_string (s : jsstring) : bool :=
  match s with [] => false | _ :: _ => true end.

(** ** Regular expressions over code units, matched by derivatives *)

Inductive regex : Type :=
| Void : regex
| Eps : regex
| Class : (N -> bool) -> regex
| Seq : regex -> regex -> regex
| Alt : regex -> regex -> regex
| Star : regex -> regex.

(** [r+] *)
Definition Plus (r : regex) : regex := Seq r (Star r).

Fixpoint nullable (r : regex) : bool :=
  match r with
  | Void => false
  | Eps => true
  | Class _ => false
  | Seq a b => nullable a && nullable b
  | Alt a b => nullable a || nullable b
  | Star _ => true
  end.

Fixpoint deriv (c : N) (r : regex) : regex :=
  match r with
  | Void => Void
  | Eps => Void
  | Class p => if p c then Eps else Void
  | Seq a b =>
      if nullable a
      then Alt (Seq (deriv c a) b) (deriv c b)
      else Seq (deriv c a) b
  | Alt a b => Alt (deriv c a) (deriv c b)
  | Star a => Seq (deriv c a) (Star a)
  end.

(** [/^r$/.test(s)]: the whole string matches [r]. *)
Fixpoint matches (r : regex) (s : jsstring) : bool :=
  match s with
  | [] => nullable r
  | c :: s' => matches (deriv c r) s'
  end.

(** The language of a regular expression, declaratively. *)
Inductive lang : regex -> jsstring -> Prop :=
| lang_eps : lang Eps []
| lang_class : forall (p : N -> bool) c, p c = true -> lang (Class p) [c]
| lang_seq : forall a b s t, lang a s -> lang b t -> lang (Seq a b) (s ++ t)
| lang_alt_l : forall a b s, lang a s -> lang (Alt a b) s
| lang_alt_r : forall a b s, lang b s -> lang (Alt a b) s
| lang_star_nil : forall a, lang (Star a) []
| lang_star_cons : forall a c s t,
    lang a (c :: s) -> lang (Star a) t -> lang (Star a) (c :: s ++ t).

(** [[^\s@]]: any code unit that is neither white space nor ['@'] (64). *)
Definition notSpaceAt (c : N) : bool :=
  negb (isWhiteSpace c) && negb (c =? 64)%N.

Definition isChar (k : N) (c : N) : bool := (c =? k)%N.

(** [const emailRegex = /^[^\s@]+@[^\s@]+\.[^\s@]+$/] *)
Definition emailRegex : regex :=
  Seq (Plus (Class notSpaceAt))
      (Seq (Class (isChar 64%N))
           (Seq (Plus (Class notSpaceAt))
                (Seq (Class (isChar 46%N))
                     (Plus (Class notSpaceAt))))).

Definition emailRegex_test (s : jsstring) : bool := matches emailRegex s.

End JS.

Import JS.

(** The outcome of an awaited call: a value, or a thrown error with its
    message. *)
Inductive Attempt (A : Type) : Type :=
| Ok : A -> Attempt A
| Throw : jsstring -> Attempt A.

Arguments Ok {A} _.
Arguments Throw {A} _.

(* ===================================================================== *)
(** * The document store                                                  *)
(* ===================================================================== *)

(** [interface UserStats] of [App.tsx]. *)
Module UserStats.
Record t : Type := mk {
  id : jsstring;
  userId : jsstring;
  totalCoins : Z;
  totalWithdrawn : Z;
  createdAt : N;
  updatedAt : N
}.
End UserStats.

(** [interface Withdrawal] of [WithdrawalHistory.tsx], with the [batchId]
    that [updateWithdrawal] stores.  Time stamps are kept as milliseconds;
    ISO strings of one time zone order the same way. *)
Module Withdrawal.
Record t : Type := mk {
  id : jsstring;
  userId : jsstring;
  amount : Z;
  coinsSpent : Z;
  paypalEmail : jsstring;
  status : jsstring;
  batchId : jsstring;
  createdAt : N
}.
End Withdrawal.

Module Store.

Record DB : Type := mkDB {
  userStats : list UserStats.t;
  withdrawals : list Withdrawal.t
}.

(** The partial record handed to [userStats.update]. *)
Record StatsPatch : Type := mkPatch {
  p_totalCoins : option Z;
  p_totalWithdrawn : option Z;
  p_updatedAt : option N
}.

Definition apply_patch (p : StatsPatch) (r : UserStats.t) : UserStats.t :=
  UserStats.mk (UserStats.id r) (UserStats.userId r)
    (match p_totalCoins p with Some c => c | None => UserStats.totalCoins r end)
    (match p_totalWithdrawn p with
     | Some a => a
     | None => UserStats.totalWithdrawn r
     end)
    (UserStats.createdAt r)
    (match p_updatedAt p with Some u => u | None => UserStats.updatedAt r end).

(** Modelled from the spec: the document store is an external collaborator
    ("create(record), list(filter, order, limit), update(id, partialRecord)
    for two record kinds"); [update] rewrites the records with the given id. *)
Definition userStats_update (d : DB) (i : jsstring) (p : StatsPatch) : DB :=
  mkDB (map (fun r => if jsstring_eqb (UserStats.id r) i
                      then apply_patch p r else r)
            (userStats d))
       (withdrawals d).

(** Modelled from the spec: [create] appends one record. *)
Definition userStats_create (d : DB) (r : UserStats.t) : DB :=
  mkDB (userStats d ++ [r]) (withdrawals d).

(** Modelled from the spec: [create] appends one record. *)
Definition withdrawals_create (d : DB) (r : Withdrawal.t) : DB :=
  mkDB (userStats d) (withdrawals d ++ [r]).

(** Modelled from the spec: [list({ where: { userId }, limit })]. *)
Definition userStats_list (d : DB) (u : jsstring) (limit : nat)
  : list UserStats.t :=
  firstn limit
    (filter (fun r => jsstring_eqb (UserStats.userId r) u) (userStats d)).

(** Insertion of a record into a list that is ordered by [createdAt],
    newest first. *)
Fixpoint insert_desc (x : Withdrawal.t) (l : list Withdrawal.t)
  : list Withdrawal.t :=
  match l with
  | [] => [x]
  | y :: l' =>
      if (Withdrawal.createdAt y <=? Withdrawal.createdAt x)%N
      then x :: l
      else y :: insert_desc x l'
  end.

Fixpoint sort_desc (l : list Withdrawal.t) : list Withdrawal.t :=
  match l with
  | [] => []
  | x :: l' => insert_desc x (sort_desc l')
  end.

(** Modelled from the spec:
    [list({ where: { userId }, orderBy: { createdAt: 'desc' }, limit })]:
    the records of the user, newest first, cut after [limit] records. *)
Definition withdrawals_list (d : DB) (u : jsstring) (limit : nat)
  : list Withdrawal.t :=
  firstn limit
    (sort_desc
       (filter (fun r => jsstring_eqb (Withdrawal.userId r) u)
               (withdrawals d))).

End Store.

(* ===================================================================== *)
(** * App.tsx                                                             *)
(* ===================================================================== *)

Module App.

Record User : Type := mkUser { id : jsstring }.

(** What the page does that is visible from outside the React state. *)
Inductive Event : Type :=
| Delay (ms : N)                                (* setTimeout *)
| ConsoleError (what : jsstring)                (* console.error *)
| Toast (title : jsstring) (destructive : bool). (* toast({...}) *)

(** The React state of [App] ([user], [loading], [userStats]) together
    with the store behind [blink.db] and the events emitted so far. *)
Record World : Type := mkWorld {
  user : option User;
  loading : bool;
  userStats : option UserStats.t;
  db : Store.DB;
  log : list Event
}.

Definition set_userStats (s : option UserStats.t) (w : World) : World :=
  mkWorld (user w) (loading w) s (db w) (log w).

Definition set_db (d : Store.DB) (w : World) : World :=
  mkWorld (user w) (loading w) (userStats w) d (log w).

Definition emit (e : Event) (w : World) : World :=
  mkWorld (user w) (loading w) (userStats w) (db w) (log w ++ [e]).

(** [user?.id]: [None] stands for a falsy value ([null] user or [""]). *)
Definition user_id (w : World) : option jsstring :=
  match user w with
  | Some u => if truthy_string (id u) then Some (id u) else None
  | None => None
  end.

(** [onAuthStateChanged((state) => { setUser(state.user);
    setLoading(state.isLoading) })] *)
Definition onAuthStateChanged (u : option User) (isLoading : bool)
  (w : World) : World :=
  mkWorld u isLoading (userStats w) (db w) (log w).

(** The store's answers during [loadUserStats]. *)
Record LoadEnv : Type := mkLoadEnv {
  list_ok : bool;                 (* [userStats.list] resolves *)
  created : option (jsstring * N) (* [userStats.create] resolves with this
                                     id and time stamp, or rejects *)
}.

Definition loadUserStats (e : LoadEnv) (w : World) : World :=
  match user_id w with
  | None => w
  | Some uid =>
      if list_ok e then
        match Store.userStats_list (db w) uid 1 with
        | [] =>
            match created e with
            | Some (i, t) =>
                let newStats := UserStats.mk i uid 0 0 t t in
                set_userStats (Some newStats)
                  (set_db (Store.userStats_create (db w) newStats) w)
            | None => emit (ConsoleError (lit "Error loading user stats:")) w
            end
        | s0 :: _ => set_userStats (Some s0) w
        end
      else emit (ConsoleError (lit "Error loading user stats:")) w
  end.

(** The store's answer and the clock during [updateCoins]. *)
Record CoinsEnv : Type := mkCoinsEnv {
  coins_update_ok : bool;
  coins_now : N
}.

Definition updateCoins (e : CoinsEnv) (newCoinCount : Z) (w : World)
  : World :=
  match user_id w, userStats w with
  | Some _, Some us =>
      if coins_update_ok e then
        let d := Store.userStats_update (db w) (UserStats.id us)
                   (Store.mkPatch (Some newCoinCount) None
                                  (Some (coins_now e))) in
        set_userStats
          (Some (UserStats.mk (UserStats.id us) (UserStats.userId us)
                   newCoinCount (UserStats.totalWithdrawn us)
                   (UserStats.createdAt us) (UserStats.updatedAt us)))
          (set_db d w)
      else emit (ConsoleError (lit "Error updating coins:")) w
  | _, _ => w
  end.

(** The store's answers and the clock during [updateWithdrawal]. *)
Record WithdrawEnv : Type := mkWithdrawEnv {
  create_id : option jsstring;  (* [withdrawals.create] resolves with this
                                   record id, or rejects *)
  update_ok : bool;             (* [userStats.update] resolves *)
  now_batch : N;                (* [Date.now()] of the batch id *)
  now_created : N;              (* [new Date()] of [createdAt] *)
  now_updated : N               (* [new Date()] of [updatedAt] *)
}.

Definition updateWithdrawal (e : WithdrawEnv)
  (amount coinsSpent : Z) (paypalEmail : jsstring) (w : World)
  : bool * World :=
  match user_id w, userStats w with
  | Some uid, Some us =>
      (* DEMO MODE: the payout is a two second pause *)
      let w1 := emit (Delay 2000) w in
      match create_id e with
      | None =>
          (false, emit (ConsoleError (lit "Error processing withdrawal:")) w1)
      | Some wid =>
          let record :=
            Withdrawal.mk wid uid amount coinsSpent paypalEmail
              (lit "completed") (lit "DEMO_" ++ decimal (now_batch e))
              (now_created e) in
          let w2 := set_db (Store.withdrawals_create (db w1) record) w1 in
          let newCoinCount := (UserStats.totalCoins us - coinsSpent)%Z in
          let newTotalWithdrawn := (UserStats.totalWithdrawn us + amount)%Z in
          if update_ok e then
            let d := Store.userStats_update (db w2) (UserStats.id us)
                       (Store.mkPatch (Some newCoinCount)
                          (Some newTotalWithdrawn) (Some (now_updated e))) in
            (true,
             set_userStats
               (Some (UserStats.mk (UserStats.id us) (UserStats.userId us)
                        newCoinCount newTotalWithdrawn
                        (UserStats.createdAt us) (UserStats.updatedAt us)))
               (set_db d w2))
          else
            (false,
             emit (ConsoleError (lit "Error processing withdrawal:")) w2)
      end
  | _, _ => (false, w)
  end.

(** [userStats?.totalCoins || 0], the [coins] prop of both tabs. *)
Definition coinsProp (w : World) : Z :=
  match userStats w with
  | Some us =>
      if (UserStats.totalCoins us =? 0)%Z then 0%Z
      else UserStats.totalCoins us
  | None => 0%Z
  end.

(** [userStats?.totalWithdrawn || 0], the prop of the history tab. *)
Definition totalWithdrawnProp (w : World) : Z :=
  match userStats w with
  | Some us =>
      if (UserStats.totalWithdrawn us =? 0)%Z then 0%Z
      else UserStats.totalWithdrawn us
  | None => 0%Z
  end.

End App.

(* ===================================================================== *)
(** * TapToEarn.tsx                                                       *)
(* ===================================================================== *)

Module Tap.

(** [handleTap]: [const newCoins = coins + 100; onCoinsUpdate(newCoins)].
    The rest of the handler (press animation, floating coins, pulse ring,
    vibration) touches neither the balance nor the store. *)
Definition handleTap (coins : Z) (onCoinsUpdate : Z -> App.World -> App.World)
  : App.World -> App.World :=
  let newCoins := (coins + 100)%Z in
  onCoinsUpdate newCoins.

End Tap.

(* ===================================================================== *)
(** * RedeemCoins.tsx                                                     *)
(* ===================================================================== *)

Module Redeem.

(** [interface RedeemTier] *)
Record RedeemTier : Type := mkTier {
  coins : Z;
  amount : Z;
  label : jsstring;
  popular : bool
}.

Definition redeemTiers : list RedeemTier :=
  [ mkTier 5000 1 (lit "$1") false;
    mkTier 10000 5 (lit "$5") true;
    mkTier 100000 20 (lit "$20") false;
    mkTier 1000000 100 (lit "$100") false ].

(** The component state: [selectedTier], [paypalEmail], [isProcessing],
    [isDialogOpen]. *)
Record State : Type := mkState {
  selectedTier : option RedeemTier;
  paypalEmail : jsstring;
  isProcessing : bool;
  isDialogOpen : bool
}.

Definition initial : State := mkState None [] false false.

Definition setIsProcessing (b : bool) (c : State) : State :=
  mkState (selectedTier c) (paypalEmail c) b (isDialogOpen c).

Definition setSelectedTier (t : option RedeemTier) (c : State) : State :=
  mkState t (paypalEmail c) (isProcessing c) (isDialogOpen c).

Definition setPaypalEmail (s : jsstring) (c : State) : State :=
  mkState (selectedTier c) s (isProcessing c) (isDialogOpen c).

Definition setIsDialogOpen (b : bool) (c : State) : State :=
  mkState (selectedTier c) (paypalEmail c) (isProcessing c) b.

(** The [onWithdrawal] prop: a promise of a boolean, which may reject. *)
Definition OnWithdrawal : Type :=
  Z -> Z -> jsstring -> App.World -> Attempt bool * App.World.

Definition toast (title : jsstring) (destructive : bool) (w : App.World)
  : App.World :=
  App.emit (App.Toast title destructive) w.

Definition handleRedeem (coins_ : Z) (onWithdrawal : OnWithdrawal)
  (c : State) (w : App.World) : State * App.World :=
  match selectedTier c with
  | None => (c, toast (lit "Missing Information") true w)
  | Some tier =>
      if negb (truthy_string (trim (paypalEmail c))) then
        (c, toast (lit "Missing Information") true w)
      else if (coins_ <? coins tier)%Z then
        (c, toast (lit "Insufficient Coins") true w)
      else
        let c1 := setIsProcessing true c in
        let w1 := toast (lit "Processing Withdrawal...") false w in
        let (success, w2) :=
          onWithdrawal (amount tier) (coins tier) (paypalEmail c) w1 in
        let (c2, w3) :=
          match success with
          | Ok true =>
              (setSelectedTier None
                 (setPaypalEmail [] (setIsDialogOpen false c1)),
               (* the title as the file has it: it starts with the code
                  units U+00F0 U+0178 U+017D U+2030 *)
               toast
                 ([240; 376; 381; 8240]%N ++ lit " Withdrawal Successful!")
                 false w2)
          | Ok false => (c1, toast (lit "Withdrawal Failed") true w2)
          | Throw _ =>
              (c1, toast (lit "Error") true
                     (App.emit (App.ConsoleError (lit "Withdrawal error:"))
                               w2))
          end in
        (setIsProcessing false c2, w3)
  end.

(** [const canAfford = (tierCoins) => coins >= tierCoins] *)
Definition canAfford (coins_ tierCoins : Z) : bool :=
  (coins_ >=? tierCoins)%Z.

(** [Math.min((coins / tierCoins) * 100, 100)] for a non-zero divisor.
    [rnd] is the rounding of a double operation to its result; the integer
    operands and the constant [100] are exact. *)
Definition getProgressPercentage (rnd : Q -> Q) (coins_ tierCoins : Z) : Q :=
  Qmin (rnd (rnd (inject_Z coins_ / inject_Z tierCoins) * 100)) 100.

(** The specification's affordability function, in its words:
    [affordable(balance, tierCoinCost) = balance >= tierCoinCost]. *)
Definition spec_affordable (balance tierCoinCost : Z) : Prop :=
  (balance >= tierCoinCost)%Z.

(** The specification's progress metric, in its words:
    [min(balance / tierCoinCost, 1.0)]. *)
Definition spec_progress (rnd : Q -> Q) (balance tierCoinCost : Z) : Q :=
  Qmin (rnd (inject_Z balance / inject_Z tierCoinCost)) 1.

(** The [RedeemCoins] element as [App] renders it:
    [coins={userStats?.totalCoins || 0}], [onWithdrawal={updateWithdrawal}]. *)
Definition redeem (e : App.WithdrawEnv) (c : State) (w : App.World)
  : State * App.World :=
  handleRedeem (App.coinsProp w)
    (fun a cs em w' =>
       let (b, w'') := App.updateWithdrawal e a cs em w' in (Ok b, w''))
    c w.

End Redeem.

(* ===================================================================== *)
(** * WithdrawalHistory.tsx                                               *)
(* ===================================================================== *)

Module History.

(** The component state: [withdrawals] and [loading]. *)
Record State : Type := mkState {
  withdrawals : list Withdrawal.t;
  loading : bool
}.

Definition initial : State := mkState [] true.

(** [loadWithdrawals]; [list_ok] tells whether the store's [list]
    resolves.  An error is logged and leaves [withdrawals] as they were;
    [finally] clears [loading]. *)
Definition loadWithdrawals (list_ok : bool) (d : Store.DB) (userId : jsstring)
  (st : State) : State :=
  if list_ok then
    let data := Store.withdrawals_list d userId 50 in
    mkState data false
  else mkState (withdrawals st) false.

(** The number shown in the "Withdrawals" card and in "Showing n
    withdrawals": [withdrawals.length]. *)
Definition displayedCount (st : State) : nat :=
  List.length (withdrawals st).

End History.

(* ===================================================================== *)
(** * The page as a transition system                                     *)
(* ===================================================================== *)

(** Here every handler runs from its call to its end before anything else
    happens; module [Async] below lets handlers overlap. *)
Module Page.

Record Sys : Type := mkSys {
  world : App.World;
  redeemTab : Redeem.State
}.

(** What a user or the platform can make the page do. *)
Inductive Op : Type :=
| AuthChanged (u : option App.User) (isLoading : bool)
| LoadStats (e : App.LoadEnv)
| TapCoin (e : App.CoinsEnv)
| SelectTier (t : Redeem.RedeemTier)
| TypeEmail (s : jsstring)
| OpenDialog (b : bool)
| ConfirmRedeem (e : App.WithdrawEnv).

Definition step (o : Op) (s : Sys) : Sys :=
  match o with
  | AuthChanged u l =>
      mkSys (App.onAuthStateChanged u l (world s)) (redeemTab s)
  | LoadStats e => mkSys (App.loadUserStats e (world s)) (redeemTab s)
  | TapCoin e =>
      mkSys (Tap.handleTap (App.coinsProp (world s)) (App.updateCoins e)
               (world s))
            (redeemTab s)
  | SelectTier t =>
      mkSys (world s) (Redeem.setSelectedTier (Some t) (redeemTab s))
  | TypeEmail em => mkSys (world s) (Redeem.setPaypalEmail em (redeemTab s))
  | OpenDialog b => mkSys (world s) (Redeem.setIsDialogOpen b (redeemTab s))
  | ConfirmRedeem e =>
      let (c, w) := Redeem.redeem e (redeemTab s) (world s) in mkSys w c
  end.

Definition run (ops : list Op) (s : Sys) : Sys :=
  fold_left (fun acc o => step o acc) ops s.

(** The balance the page holds and every balance in the store are
    non-negative. *)
Definition world_nonneg (w : App.World) : Prop :=
  (forall us, App.userStats w = Some us -> (0 <= UserStats.totalCoins us)%Z)
  /\ Forall (fun r => (0 <= UserStats.totalCoins r)%Z)
            (Store.userStats (App.db w)).

Definition balance_nonneg (s : Sys) : Prop := world_nonneg (world s).

End Page.

(* ===================================================================== *)
(** * App.tsx: handlers that overlap                                      *)
(* ===================================================================== *)

(** [loadUserStats], [updateCoins] and [updateWithdrawal] are [async]: a
    call runs up to its first [await] and goes on when the awaited call is
    answered, and other handlers run in between.  What a handler reads from
    [user] and [userStats] is what the render that created it has seen,
    whatever the state is when it goes on; a handler is called from the
    latest render.  The store executes a call at some moment between the
    call and the arrival of its answer. *)
Module Async.

Import App.

(** A call in flight: the awaited call, what the rest of the handler has
    captured, and the answer of the store once it is given ([None]: the
    store has not executed the call yet). *)
Inductive Task : Type :=
| StatsList (uid : jsstring)
    (answer : option (option (list UserStats.t)))
    (* loadUserStats, at [userStats.list] *)
| StatsCreate (uid : jsstring) (answer : option (option UserStats.t))
    (* loadUserStats, at [userStats.create] *)
| CoinsUpdate (us : UserStats.t) (newCoinCount : Z) (updatedAt : N)
    (answer : option bool)
    (* updateCoins, at [userStats.update] *)
| Pause (uid : jsstring) (us : UserStats.t) (amount coinsSpent : Z)
    (paypalEmail : jsstring)
    (* updateWithdrawal, at the two second timer *)
| RecordCreate (uid : jsstring) (us : UserStats.t) (amount coinsSpent : Z)
    (paypalEmail : jsstring) (batch createdAt : N) (answer : option bool)
    (* updateWithdrawal, at [withdrawals.create] *)
| StatsUpdate (us : UserStats.t) (newCoinCount newTotalWithdrawn : Z)
    (updatedAt : N) (answer : option bool)
    (* updateWithdrawal, at [userStats.update] *)
| Finished.

(** The page and the calls it has made, oldest first.  A call keeps its
    position; when its handler has returned it is [Finished]. *)
Record Sys : Type := mkSys {
  world : World;
  pending : list Task
}.

Definition spawn (t : Task) (s : Sys) : Sys :=
  mkSys (world s) (pending s ++ [t]).

(** [loadUserStats] up to [await blink.db.userStats.list(...)]. *)
Definition loadUserStats (s : Sys) : Sys :=
  match user_id (world s) with
  | None => s
  | Some uid => spawn (StatsList uid None) s
  end.

(** [updateCoins] up to [await blink.db.userStats.update(...)]; [now] is
    the [new Date()] of the patch. *)
Definition updateCoins (newCoinCount : Z) (now : N) (s : Sys) : Sys :=
  match user_id (world s), userStats (world s) with
  | Some _, Some us => spawn (CoinsUpdate us newCoinCount now None) s
  | _, _ => s
  end.

(** [handleTap] of [TapToEarn], with [coins] and [onCoinsUpdate] as [App]
    renders them: [onCoinsUpdate(coins + 100)]. *)
Definition handleTap (now : N) (s : Sys) : Sys :=
  let newCoins := (coinsProp (world s) + 100)%Z in
  updateCoins newCoins now s.

(** [updateWithdrawal] up to [await new Promise(resolve =>
    setTimeout(resolve, 2000))]. *)
Definition updateWithdrawal (amount coinsSpent : Z) (paypalEmail : jsstring)
  (s : Sys) : Sys :=
  match user_id (world s), userStats (world s) with
  | Some uid, Some us =>
      mkSys (emit (Delay 2000) (world s))
            (pending s ++ [Pause uid us amount coinsSpent paypalEmail])
  | _, _ => s
  end.

(** How the store reacts to a call: it rejects it, it executes it, or it
    executes a [create] and gives the record this id and time stamp. *)
Inductive Reaction : Type :=
| Rejects
| Resolves
| Creates (id : jsstring) (t : N).

(** The store executes the call of a task, or rejects it.  A reaction
    that does not fit the call, and a task that awaits no answer, leave
    everything as it is. *)
Definition execute (r : Reaction) (t : Task) (d : Store.DB)
  : Store.DB * Task :=
  match t with
  | StatsList uid None =>
      match r with
      | Resolves =>
          (d, StatsList uid (Some (Some (Store.userStats_list d uid 1))))
      | Rejects => (d, StatsList uid (Some None))
      | Creates _ _ => (d, t)
      end
  | StatsCreate uid None =>
      match r with
      | Creates i ts =>
          let newStats := UserStats.mk i uid 0 0 ts ts in
          (Store.userStats_create d newStats,
           StatsCreate uid (Some (Some newStats)))
      | Rejects => (d, StatsCreate uid (Some None))
      | Resolves => (d, t)
      end
  | CoinsUpdate us newCoinCount u None =>
      match r with
      | Resolves =>
          (Store.userStats_update d (UserStats.id us)
             (Store.mkPatch (Some newCoinCount) None (Some u)),
           CoinsUpdate us newCoinCount u (Some true))
      | Rejects => (d, CoinsUpdate us newCoinCount u (Some false))
      | Creates _ _ => (d, t)
      end
  | RecordCreate uid us amount coinsSpent paypalEmail batch c None =>
      match r with
      | Creates i _ =>
          (Store.withdrawals_create d
             (Withdrawal.mk i uid amount coinsSpent paypalEmail
                (lit "completed") (lit "DEMO_" ++ decimal batch) c),
           RecordCreate uid us amount coinsSpent paypalEmail batch c
             (Some true))
      | Rejects =>
          (d, RecordCreate uid us amount coinsSpent paypalEmail batch c
                (Some false))
      | Resolves => (d, t)
      end
  | StatsUpdate us newCoinCount newTotalWithdrawn u None =>
      match r with
      | Resolves =>
          (Store.userStats_update d (UserStats.id us)
             (Store.mkPatch (Some newCoinCount) (Some newTotalWithdrawn)
                (Some u)),
           StatsUpdate us newCoinCount newTotalWithdrawn u (Some true))
      | Rejects =>
          (d, StatsUpdate us newCoinCount newTotalWithdrawn u (Some false))
      | Creates _ _ => (d, t)
      end
  | _ => (d, t)
  end.

(** The timer of [updateWithdrawal] fires: the handler calls
    [withdrawals.create], with [Date.now()] in the batch id and
    [new Date()] as [createdAt]. *)
Definition elapse (now_batch now_created : N) (t : Task) : Task :=
  match t with
  | Pause uid us amount coinsSpent paypalEmail =>
      RecordCreate uid us amount coinsSpent paypalEmail now_batch now_created
        None
  | _ => t
  end.

(** The answer has arrived and the handler goes on, up to its next
    [await] or to its end; [now] is the [new Date()] it may read.  A task
    without an answer stays as it is. *)
Definition resume (now : N) (t : Task) (w : World) : World * Task :=
  match t with
  | StatsList uid (Some (Some [])) => (w, StatsCreate uid None)
  | StatsList uid (Some (Some (s0 :: _))) =>
      (set_userStats (Some s0) w, Finished)
  | StatsList uid (Some None) =>
      (emit (ConsoleError (lit "Error loading user stats:")) w, Finished)
  | StatsCreate uid (Some (Some newStats)) =>
      (set_userStats (Some newStats) w, Finished)
  | StatsCreate uid (Some None) =>
      (emit (ConsoleError (lit "Error loading user stats:")) w, Finished)
  | CoinsUpdate us newCoinCount _ (Some true) =>
      (set_userStats
         (Some (UserStats.mk (UserStats.id us) (UserStats.userId us)
                  newCoinCount (UserStats.totalWithdrawn us)
                  (UserStats.createdAt us) (UserStats.updatedAt us)))
         w,
       Finished)
  | CoinsUpdate _ _ _ (Some false) =>
      (emit (ConsoleError (lit "Error updating coins:")) w, Finished)
  | RecordCreate _ us amount coinsSpent _ _ _ (Some true) =>
      let newCoinCount := (UserStats.totalCoins us - coinsSpent)%Z in
      let newTotalWithdrawn := (UserStats.totalWithdrawn us + amount)%Z in
      (w, StatsUpdate us newCoinCount newTotalWithdrawn now None)
  | RecordCreate _ _ _ _ _ _ _ (Some false) =>
      (emit (ConsoleError (lit "Error processing withdrawal:")) w, Finished)
  | StatsUpdate us newCoinCount newTotalWithdrawn _ (Some true) =>
      (set_userStats
         (Some (UserStats.mk (UserStats.id us) (UserStats.userId us)
                  newCoinCount newTotalWithdrawn
                  (UserStats.createdAt us) (UserStats.updatedAt us)))
         w,
       Finished)
  | StatsUpdate _ _ _ _ (Some false) =>
      (emit (ConsoleError (lit "Error processing withdrawal:")) w, Finished)
  | _ => (w, t)
  end.

(** [replace i t l]: [l] with [t] at position [i]. *)
Fixpoint replace (i : nat) (t : Task) (l : list Task) : list Task :=
  match l, i with
  | [], _ => []
  | _ :: l', O => t :: l'
  | x :: l', S i' => x :: replace i' t l'
  end.

(** What can happen next: the platform reports a sign-in or sign-out, the
    page calls a handler, the store executes or rejects the call of the
    task at position [i], the timer of that task fires, or its answer
    arrives and its handler goes on. *)
Inductive Op : Type :=
| AuthChanged (u : option User) (isLoading : bool)
| Call_loadUserStats
| Call_updateCoins (newCoinCount : Z) (now : N)
| Call_handleTap (now : N)
| Call_updateWithdrawal (amount coinsSpent : Z) (paypalEmail : jsstring)
| Served (i : nat) (r : Reaction)
| TimerFires (i : nat) (now_batch now_created : N)
| Resumed (i : nat) (now : N).

Definition step (o : Op) (s : Sys) : Sys :=
  match o with
  | AuthChanged u l => mkSys (onAuthStateChanged u l (world s)) (pending s)
  | Call_loadUserStats => loadUserStats s
  | Call_updateCoins n now => updateCoins n now s
  | Call_handleTap now => handleTap now s
  | Call_updateWithdrawal a cs em => updateWithdrawal a cs em s
  | Served i r =>
      match nth_error (pending s) i with
      | Some t =>
          let (d, t') := execute r t (db (world s)) in
          mkSys (set_db d (world s)) (replace i t' (pending s))
      | None => s
      end
  | TimerFires i b c =>
      match nth_error (pending s) i with
      | Some t => mkSys (world s) (replace i (elapse b c t) (pending s))
      | None => s
      end
  | Resumed i now =>
      match nth_error (pending s) i with
      | Some t =>
          let (w, t') := resume now t (world s) in
          mkSys w (replace i t' (pending s))
      | None => s
      end
  end.

Definition run (ops : list Op) (s : Sys) : Sys :=
  fold_left (fun acc o => step o acc) ops s.

(** ** Calls in flight *)

Definition finished (t : Task) : bool :=
  match t with Finished => true | _ => false end.

Definition is_load (t : Task) : bool :=
  match t with
  | StatsList _ _ => true
  | StatsCreate _ _ => true
  | _ => false
  end.

(** The number of handlers that have been called and have not returned. *)
Definition in_flight (s : Sys) : nat :=
  List.length (filter (fun t => negb (finished t)) (pending s)).

(** The number of calls of [loadUserStats] that have not returned. *)
Definition loads_in_flight (s : Sys) : nat :=
  List.length (filter is_load (pending s)).

(** [p] holds in every state of the run of [ops] from [s], the first and
    the last included. *)
Fixpoint always (p : Sys -> bool) (ops : list Op) (s : Sys) : bool :=
  match ops with
  | [] => p s
  | o :: ops' => p s && always p ops' (step o s)
  end.

(** ** Handlers that run alone *)

(** One call of each handler with nothing in between, as the task at
    position [k], with the store's answers and the clock of [e]. *)
Definition load_alone (e : LoadEnv) (k : nat) : list Op :=
  [ Call_loadUserStats;
    Served k (if list_ok e then Resolves else Rejects);
    Resumed k 0;
    Served k (match created e with
              | Some (i, t) => Creates i t
              | None => Rejects
              end);
    Resumed k 0 ].

Definition coins_alone (e : CoinsEnv) (newCoinCount : Z) (k : nat)
  : list Op :=
  [ Call_updateCoins newCoinCount (coins_now e);
    Served k (if coins_update_ok e then Resolves else Rejects);
    Resumed k 0 ].

Definition tap_alone (e : CoinsEnv) (k : nat) : list Op :=
  [ Call_handleTap (coins_now e);
    Served k (if coins_update_ok e then Resolves else Rejects);
    Resumed k 0 ].

Definition withdrawal_alone (e : WithdrawEnv) (amount coinsSpent : Z)
  (paypalEmail : jsstring) (k : nat) : list Op :=
  [ Call_updateWithdrawal amount coinsSpent paypalEmail;
    TimerFires k (now_batch e) (now_created e);
    Served k (match create_id e with
              | Some i => Creates i (now_created e)
              | None => Rejects
              end);
    Resumed k (now_updated e);
    Served k (if update_ok e then Resolves else Rejects);
    Resumed k 0 ].

(** Taps one after the other, each answered before the next is made; the
    first is the task at position [k]. *)
Fixpoint taps_in_turn (envs : list CoinsEnv) (k : nat) : list Op :=
  match envs with
  | [] => []
  | e :: envs' => tap_alone e k ++ taps_in_turn envs' (S k)
  end.

End Async.

(* ===================================================================== *)
(** * The payout HTTP function                                            *)
(* ===================================================================== *)

Module Payout.

(** ** Values *)

(** What [JSON.parse] can produce, plus [undefined] for an absent
    property.  Numbers are rationals. *)
#[warnings="-register-all"] Inductive jsval : Type :=
| VUndef : jsval
| VNull : jsval
| VBool : bool -> jsval
| VNum : Q -> jsval
| VStr : jsstring -> jsval
| VArr : list jsval -> jsval
| VObj : list (jsstring * jsval) -> jsval.

(** ToBoolean: [undefined], [null], [false], [0] and [""] are falsy. *)
Definition truthy (v : jsval) : bool :=
  match v with
  | VUndef => false
  | VNull => false
  | VBool b => b
  | VNum q => negb (Qnum q =? 0)%Z
  | VStr s => truthy_string s
  | VArr _ => true
  | VObj _ => true
  end.

Fixpoint lookup (k : jsstring) (fs : list (jsstring * jsval)) : jsval :=
  match fs with
  | [] => VUndef
  | (k', v) :: fs' => if jsstring_eqb k' k then v else lookup k fs'
  end.

(** ** The runtime and the outside world *)

Inductive FetchBody : Type :=
| TextBody : jsstring -> FetchBody
| JsonBody : jsval -> FetchBody.      (* [JSON.stringify(value)] *)

Record FetchRequest : Type := mkFetch {
  url : jsstring;
  fetch_method : jsstring;
  fetch_headers : list (jsstring * jsstring);
  fetch_body : FetchBody
}.

(** A response of the gateway: its status line, and what reading its body
    ([await response.text()]) gives, the text or the error of the read. *)
Record FetchResponse : Type := mkFetchResponse {
  fetch_status : N;
  text : Attempt jsstring
}.

(** [response.ok]: the status is in the range 200-299. *)
Definition ok (r : FetchResponse) : bool :=
  ((200 <=? fetch_status r) && (fetch_status r <=? 299))%N.

(** Everything the handler gets from Deno and from the network.  None of
    it is code of the repository, so it is a parameter. *)
Record Runtime : Type := mkRuntime {
  env_get : jsstring -> option jsstring;   (* [Deno.env.get] *)
  fetch : nat -> FetchRequest -> Attempt FetchResponse;
                                           (* answer to the n-th [fetch] *)
  Date_now : nat -> N;                     (* n-th reading of the clock *)
  btoa : jsstring -> Attempt jsstring;
  JSON_parse : jsstring -> Attempt jsval;  (* parsing in [response.json()] *)
  ToString_other : jsval -> Attempt jsstring;
                                           (* ToString of a non-string *)
  toLocaleString : jsval -> Attempt jsstring;  (* [v.toLocaleString()] *)
  toString_method : jsval -> Attempt jsstring; (* [v.toString()] *)
  type_error : jsstring       (* message of the TypeError of a property
                                 read on [null] or [undefined] *)
}.

(** ToString, as applied by template literals and by [RegExp.test]. *)
Definition ToString (rt : Runtime) (v : jsval) : Attempt jsstring :=
  match v with
  | VStr s => Ok s
  | _ => ToString_other rt v
  end.

(** [await response.json()]: read the body, then parse it. *)
Definition response_json (rt : Runtime) (r : FetchResponse) : Attempt jsval :=
  match text r with
  | Ok b => JSON_parse rt b
  | Throw message => Throw message
  end.

(** [v.k] *)
Definition get (rt : Runtime) (v : jsval) (k : jsstring) : Attempt jsval :=
  match v with
  | VUndef => Throw (type_error rt)
  | VNull => Throw (type_error rt)
  | VObj fs => Ok (lookup k fs)
  | _ => Ok VUndef
  end.

(** ** Requests and responses of the function *)

Record Request : Type := mkRequest {
  method : jsstring;
  json : Attempt jsval     (* what [await req.json()] gives *)
}.

Record Response : Type := mkResponse {
  status : N;
  headers : list (jsstring * jsstring);
  body : option jsval      (* [None] for a [null] body, otherwise the value
                              handed to [JSON.stringify] *)
}.

(** [new Response(body, { status, headers })]; the status defaults to 200. *)
Definition new_Response (b : option jsval) (st : option N)
  (h : list (jsstring * jsstring)) : Response :=
  mkResponse (match st with Some n => n | None => 200%N end) h b.

(** ** A monad for state and exceptions *)

Record St : Type := mkSt {
  calls : list (FetchRequest * Attempt FetchResponse); (* outbound calls *)
  console : list (jsstring * jsstring);                (* [console.error] *)
  ticks : nat                                          (* clock readings *)
}.

Definition St0 : St := mkSt [] [] 0.

Definition M (A : Type) : Type := St -> Attempt A * St.

Definition ret {A} (a : A) : M A := fun s => (Ok a, s).

Definition bind {A B} (m : M A) (k : A -> M B) : M B :=
  fun s =>
    match m s with
    | (Ok a, s') => k a s'
    | (Throw e, s') => (Throw e, s')
    end.

Definition lift {A} (a : Attempt A) : M A := fun s => (a, s).

(** [try { m } catch (error) { h error }] *)
Definition try_catch {A} (m : M A) (h : jsstring -> M A) : M A :=
  fun s =>
    match m s with
    | (Ok a, s') => (Ok a, s')
    | (Throw e, s') => h e s'
    end.

Definition do_fetch (rt : Runtime) (rq : FetchRequest) : M FetchResponse :=
  fun s =>
    let a := fetch rt (List.length (calls s)) rq in
    (a, mkSt (calls s ++ [(rq, a)]) (console s) (ticks s)).

Definition console_error (what detail : jsstring) : M unit :=
  fun s => (Ok tt, mkSt (calls s) (console s ++ [(what, detail)]) (ticks s)).

Definition now (rt : Runtime) : M N :=
  fun s => (Ok (Date_now rt (ticks s)),
            mkSt (calls s) (console s) (S (ticks s))).

Declare Scope js_scope.
Delimit Scope js_scope with js.

Notation "x <- m ;; k" := (bind m (fun x => k))
  (at level 100, m at next level, right associativity) : js_scope.
Notation "m ;;; k" := (bind m (fun _ => k))
  (at level 100, right associativity) : js_scope.

(** ** The handler *)

Definition baseUrl : jsstring := lit "https://api-m.sandbox.paypal.com".

Definition token_url : jsstring := baseUrl ++ lit "/v1/oauth2/token".

Definition payouts_url : jsstring := baseUrl ++ lit "/v1/payments/payouts".

Definition json_headers : list (jsstring * jsstring) :=
  [ (lit "Content-Type", lit "application/json");
    (lit "Access-Control-Allow-Origin", lit "*") ].

(** [new Response(JSON.stringify({ error: msg }), { status, headers })] *)
Definition error_response (st : N) (msg : jsstring) : Response :=
  new_Response (Some (VObj [(lit "error", VStr msg)])) (Some st) json_headers.

Definition serve (rt : Runtime) (req : Request) : M Response :=
  (* Handle CORS *)
  if jsstring_eqb (method req) (lit "OPTIONS") then
    ret (new_Response None None
           [ (lit "Access-Control-Allow-Origin", lit "*");
             (lit "Access-Control-Allow-Methods", lit "POST, OPTIONS");
             (lit "Access-Control-Allow-Headers",
              lit "Content-Type, Authorization") ])
  else if negb (jsstring_eqb (method req) (lit "POST")) then
    ret (error_response 405 (lit "Method not allowed"))
  else
    try_catch
      (parsed <- lift (json req) ;;
       email <- lift (get rt parsed (lit "email")) ;;
       amount <- lift (get rt parsed (lit "amount")) ;;
       coins <- lift (get rt parsed (lit "coins")) ;;
       userId <- lift (get rt parsed (lit "userId")) ;;
       (* Validate input *)
       if negb (truthy email) || negb (truthy amount)
          || negb (truthy coins) || negb (truthy userId)
       then ret (error_response 400 (lit "Missing required fields"))
       else
       (* Validate email format *)
       subject <- lift (ToString rt email) ;;
       if negb (emailRegex_test subject)
       then ret (error_response 400 (lit "Invalid email format"))
       else
       (* Get PayPal credentials from environment *)
       match env_get rt (lit "PAYPAL_CLIENT_ID"),
             env_get rt (lit "PAYPAL_CLIENT_SECRET") with
       | Some clientId, Some clientSecret =>
         if negb (truthy_string clientId) || negb (truthy_string clientSecret)
         then ret (error_response 500 (lit "PayPal credentials not configured"))
         else
         (* Step 1: Get PayPal access token *)
         basic <- lift (btoa rt (clientId ++ lit ":" ++ clientSecret)) ;;
         tokenResponse <-
           do_fetch rt
             (mkFetch token_url (lit "POST")
                [ (lit "Accept", lit "application/json");
                  (lit "Accept-Language", lit "en_US");
                  (lit "Authorization", lit "Basic " ++ basic);
                  (lit "Content-Type",
                   lit "application/x-www-form-urlencoded") ]
                (TextBody (lit "grant_type=client_credentials"))) ;;
         if negb (ok tokenResponse) then
           errorText <- lift (text tokenResponse) ;;
           console_error (lit "PayPal token error:") errorText ;;;
           ret (error_response 500 (lit "Failed to authenticate with PayPal"))
         else
         tokenData <- lift (response_json rt tokenResponse) ;;
         (* Step 2: Create payout *)
         t1 <- now rt ;;
         userId1 <- lift (ToString rt userId) ;;
         coins1 <- lift (toLocaleString rt coins) ;;
         amount1 <- lift (ToString rt amount) ;;
         amount2 <- lift (toString_method rt amount) ;;
         coins2 <- lift (toLocaleString rt coins) ;;
         t2 <- now rt ;;
         userId2 <- lift (ToString rt userId) ;;
         let payoutData :=
           VObj
             [ (lit "sender_batch_header",
                VObj
                  [ (lit "sender_batch_id",
                     VStr (lit "batch_" ++ decimal t1 ++ lit "_" ++ userId1));
                    (lit "email_subject",
                     VStr (lit "You have a payout from Coin Tapper!"));
                    (lit "email_message",
                     VStr (lit "Congratulations! You've successfully redeemed "
                           ++ coins1 ++ lit " coins for $" ++ amount1
                           ++ lit ".")) ]);
               (lit "items",
                VArr
                  [ VObj
                      [ (lit "recipient_type", VStr (lit "EMAIL"));
                        (lit "amount",
                         VObj [ (lit "value", VStr amount2);
                                (lit "currency", VStr (lit "USD")) ]);
                        (lit "receiver", email);
                        (lit "note",
                         VStr (lit "Coin Tapper payout: " ++ coins2
                               ++ lit " coins redeemed"));
                        (lit "sender_item_id",
                         VStr (lit "item_" ++ decimal t2 ++ lit "_"
                               ++ userId2)) ] ]) ] in
         access_token <- lift (get rt tokenData (lit "access_token")) ;;
         bearer <- lift (ToString rt access_token) ;;
         payoutResponse <-
           do_fetch rt
             (mkFetch payouts_url (lit "POST")
                [ (lit "Content-Type", lit "application/json");
                  (lit "Authorization", lit "Bearer " ++ bearer) ]
                (JsonBody payoutData)) ;;
         if negb (ok payoutResponse) then
           errorText <- lift (text payoutResponse) ;;
           console_error (lit "PayPal payout error:") errorText ;;;
           ret (error_response 500 (lit "Failed to process payout"))
         else
         payoutResult <- lift (response_json rt payoutResponse) ;;
         batch_header <- lift (get rt payoutResult (lit "batch_header")) ;;
         payout_batch_id <- lift (get rt batch_header (lit "payout_batch_id")) ;;
         batch_header' <- lift (get rt payoutResult (lit "batch_header")) ;;
         batch_status <- lift (get rt batch_header' (lit "batch_status")) ;;
         amount3 <- lift (ToString rt amount) ;;
         email3 <- lift (ToString rt email) ;;
         ret (new_Response
                (Some (VObj
                   [ (lit "success", VBool true);
                     (lit "batchId", payout_batch_id);
                     (lit "status", batch_status);
                     (lit "message",
                      VStr (lit "$" ++ amount3 ++ lit " has been sent to "
                            ++ email3
                            ++ lit ". It may take a few minutes to appear in your PayPal account.")) ]))
                None json_headers)
       | _, _ =>
         ret (error_response 500 (lit "PayPal credentials not configured"))
       end)%js
      (fun error =>
         console_error (lit "Payout function error:") error ;;;
         ret (new_Response
                (Some (VObj [ (lit "error", VStr (lit "Internal server error"));
                              (lit "details", VStr error) ]))
                (Some 500%N) json_headers))%js.

(** The handler run on a fresh invocation. *)
Definition handle (rt : Runtime) (req : Request) : Attempt Response * St :=
  serve rt req St0.

End Payout.

(* ===================================================================== *)
(** * TapToEarn.tsx: what [handleTap] does to the component itself        *)
(* ===================================================================== *)

Module TapView.

(** [interface FloatingCoin] *)
Record FloatingCoin : Type := mkCoin {
  id : N;
  x : Q;
  y : Q
}.

(** The component state: [isPressed], [floatingCoins], [pulseRings]. *)
Record State : Type := mkState {
  isPressed : bool;
  floatingCoins : list FloatingCoin;
  pulseRings : list N
}.

Definition initial : State := mkState false [] [].

(** The clock, the random numbers and the browser during one tap. *)
Record TapEnv : Type := mkTapEnv {
  Date_now : nat -> N;        (* n-th reading of [Date.now()] *)
  Math_random : nat -> Q;     (* n-th value of [Math.random()] *)
  vibrate_supported : bool    (* ['vibrate' in navigator] *)
}.

(** The three callbacks that [handleTap] hands to [setTimeout]. *)
Inductive Callback : Type :=
| Release                                         (* setIsPressed(false) *)
| CleanUpCoins (newFloatingCoins : list FloatingCoin)
| CleanUpRing (ringId : N).

Definition fire (cb : Callback) (st : State) : State :=
  match cb with
  | Release => mkState false (floatingCoins st) (pulseRings st)
  | CleanUpCoins newFloatingCoins =>
      mkState (isPressed st)
        (filter (fun coin =>
                   negb (existsb (fun nc => (id nc =? id coin)%N)
                                 newFloatingCoins))
                (floatingCoins st))
        (pulseRings st)
  | CleanUpRing ringId =>
      mkState (isPressed st) (floatingCoins st)
        (filter (fun i => negb (i =? ringId)%N) (pulseRings st))
  end.

(** The loop [for (let i = 0; i < 5; i++) newFloatingCoins.push({...})].
    [rnd] rounds a double operation, as in [getProgressPercentage]. *)
Definition newFloatingCoins (rnd : Q -> Q) (e : TapEnv) : list FloatingCoin :=
  map (fun i =>
         mkCoin (Date_now e i + N.of_nat i)
                (rnd (rnd (Math_random e (2 * i) * 200) - 100))
                (rnd (rnd (Math_random e (2 * i + 1) * 50) - 25)))
      (seq 0 5).

Record Effects : Type := mkEffects {
  view : State;
  timers : list (N * Callback);   (* delay in milliseconds, callback *)
  vibration : option N            (* [navigator.vibrate(50)] *)
}.

(** [handleTap] after [onCoinsUpdate(newCoins)]. *)
Definition handleTap_view (rnd : Q -> Q) (e : TapEnv) (st : State) : Effects :=
  let coins := newFloatingCoins rnd e in
  let ringId := Date_now e 5 in
  mkEffects
    (mkState true (floatingCoins st ++ coins) (pulseRings st ++ [ringId]))
    [ (150%N, Release);
      (1000%N, CleanUpCoins coins);
      (600%N, CleanUpRing ringId) ]
    (if vibrate_supported e then Some 50%N else None).

(** The component over time: taps, and timers that fire. *)
Inductive Op : Type :=
| DoTap (e : TapEnv)
| Fire (cb : Callback).

Definition step (rnd : Q -> Q) (o : Op) (st : State) : State :=
  match o with
  | DoTap e => view (handleTap_view rnd e st)
  | Fire cb => fire cb st
  end.

Definition run (rnd : Q -> Q) (ops : list Op) (st : State) : State :=
  fold_left (fun acc o => step rnd o acc) ops st.

(** Every timer registered by a tap of the run fires later in the run. *)
Fixpoint timers_fire (rnd : Q -> Q) (ops : list Op) : Prop :=
  match ops with
  | [] => True
  | DoTap e :: rest =>
      (forall d cb, In (d, cb) (timers (handleTap_view rnd e initial)) ->
                    In (Fire cb) rest)
      /\ timers_fire rnd rest
  | Fire _ :: rest => timers_fire rnd rest
  end.

End TapView.

(* ===================================================================== *)
(** * RedeemCoins.tsx: what the tier cards render                         *)
(* ===================================================================== *)

Module RedeemView.

Import Redeem.

(** [open={isDialogOpen && selectedTier?.coins === tier.coins}] *)
Definition dialogOpen (c : State) (tier : RedeemTier) : bool :=
  isDialogOpen c
  && match selectedTier c with
     | Some s => (coins s =? coins tier)%Z
     | None => false
     end.

(** The tier button: [disabled={!affordable}]. *)
Definition tierDisabled (coins_ : Z) (tier : RedeemTier) : bool :=
  negb (canAfford coins_ (coins tier)).

(** The confirm button: [disabled={isProcessing || !paypalEmail.trim()}]. *)
Definition confirmDisabled (c : State) : bool :=
  isProcessing c || negb (truthy_string (trim (paypalEmail c))).

(** [progress >= 100], the condition of the label 'Ready to redeem!'. *)
Definition readyToRedeem (rnd : Q -> Q) (coins_ : Z) (tier : RedeemTier)
  : bool :=
  Qle_bool 100 (getProgressPercentage rnd coins_ (coins tier)).

End RedeemView.

(* ===================================================================== *)
(** * Concrete data                                                       *)
(* ===================================================================== *)

Module Examples.

Definition alice : App.User := App.mkUser (lit "user_1").

Definition stats (balance withdrawn : Z) : UserStats.t :=
  UserStats.mk (lit "stats_1") (lit "user_1") balance withdrawn 1000 1000.

(** Alice, signed in, with her statistics loaded and stored. *)
Definition world (balance withdrawn : Z) : App.World :=
  App.mkWorld (Some alice) false (Some (stats balance withdrawn))
    (Store.mkDB [stats balance withdrawn] []) [].

Definition tier1 : Redeem.RedeemTier := Redeem.mkTier 5000 1 (lit "$1") false.

Definition tier5 : Redeem.RedeemTier := Redeem.mkTier 10000 5 (lit "$5") true.

(** The confirmation dialog of tier [t], with [email] typed in. *)
Definition dialog (t : Redeem.RedeemTier) (email : string) : Redeem.State :=
  Redeem.mkState (Some t) (lit email) false true.

(** Both store calls of [updateWithdrawal] resolve. *)
Definition store_ok : App.WithdrawEnv :=
  App.mkWithdrawEnv (Some (lit "wd_1")) true 2000 2001 2002.

(** [withdrawals.create] resolves, then [userStats.update] rejects. *)
Definition update_rejects : App.WithdrawEnv :=
  App.mkWithdrawEnv (Some (lit "wd_1")) false 2000 2001 2002.

(** A session: a tap, then the $1 tier with an email, confirmed. *)
Definition page : Page.Sys := Page.mkSys (world 4900 0) Redeem.initial.

Definition session : list Page.Op :=
  [ Page.TapCoin (App.mkCoinsEnv true 1500);
    Page.SelectTier tier1;
    Page.OpenDialog true;
    Page.TypeEmail (lit "a@b.com");
    Page.ConfirmRedeem store_ok ].

(** ** The payout function *)

(** A configured runtime whose gateway answers the n-th call with
    [answers n]. *)
Definition runtime (answers : nat -> Attempt Payout.FetchResponse)
  : Payout.Runtime :=
  Payout.mkRuntime
    (fun _ => Some (lit "credential"))
    (fun n _ => answers n)
    (fun n => (1700 + N.of_nat n)%N)
    (fun s => Ok s)
    (fun _ => Ok (Payout.VObj [(lit "access_token", Payout.VStr (lit "A21"))]))
    (fun _ => Ok (lit "5"))
    (fun _ => Ok (lit "10,000"))
    (fun _ => Ok (lit "5"))
    (lit "Cannot read properties of null").

(** The token endpoint answers 401. *)
Definition token_refused : Payout.Runtime :=
  runtime (fun _ =>
             Ok (Payout.mkFetchResponse 401 (Ok (lit "invalid_client")))).

(** The token endpoint answers 200, the payouts endpoint 422. *)
Definition payout_refused : Payout.Runtime :=
  runtime (fun n =>
             match n with
             | O => Ok (Payout.mkFetchResponse 200 (Ok (lit "token")))
             | S _ =>
                 Ok (Payout.mkFetchResponse 422
                       (Ok (lit "INSUFFICIENT_FUNDS")))
             end).

Definition payout_body (amount coins : Q) : Payout.jsval :=
  Payout.VObj
    [ (lit "email", Payout.VStr (lit "a@b.com"));
      (lit "amount", Payout.VNum amount);
      (lit "coins", Payout.VNum coins);
      (lit "userId", Payout.VStr (lit "user_1")) ].

Definition post (v : Payout.jsval) : Payout.Request :=
  Payout.mkRequest (lit "POST") (Ok v).

Definition preflight : Payout.Request :=
  Payout.mkRequest (lit "OPTIONS") (Throw (lit "Unexpected end of JSON input")).

(** ** The history tab *)

(** The n-th withdrawal of Alice, created at time [n]. *)
Definition withdrawal (n : nat) : Withdrawal.t :=
  Withdrawal.mk (lit "wd") (lit "user_1") 1 5000 (lit "a@b.com")
    (lit "completed") (lit "DEMO") (N.of_nat n).

(** Fifty-one withdrawals of Alice, oldest first, and one of Bob. *)
Definition busy_store : Store.DB :=
  Store.mkDB []
    (Withdrawal.mk (lit "wd") (lit "user_2") 1 5000 (lit "b@c.org")
       (lit "completed") (lit "DEMO") 99
     :: map withdrawal (seq 0 51)).

End Examples.

(* ===================================================================== *)
(** * Vocabulary of the statements                                        *)
(* ===================================================================== *)

Module Props.

Import App.

(** The record that [updateWithdrawal] hands to [withdrawals.create]. *)
Definition completed_record (e : WithdrawEnv) (wid uid : jsstring)
  (amount coinsSpent : Z) (paypalEmail : jsstring) : Withdrawal.t :=
  Withdrawal.mk wid uid amount coinsSpent paypalEmail (lit "completed")
    (lit "DEMO_" ++ decimal (now_batch e)) (now_created e).

(** What a resolved [userStats.update] of [updateWithdrawal] does to one
    stored record. *)
Definition settled (us : UserStats.t) (amount coinsSpent : Z) (t : N)
  (r r' : UserStats.t) : Prop :=
  if jsstring_eqb (UserStats.id r) (UserStats.id us)
  then UserStats.totalCoins r' = (UserStats.totalCoins us - coinsSpent)%Z
       /\ UserStats.totalWithdrawn r'
          = (UserStats.totalWithdrawn us + amount)%Z
       /\ UserStats.updatedAt r' = t
       /\ UserStats.id r' = UserStats.id r
       /\ UserStats.userId r' = UserStats.userId r
  else r' = r.

(** [newer x y]: [x] was created no earlier than [y]. *)
Definition newer (x y : Withdrawal.t) : Prop :=
  (Withdrawal.createdAt y <= Withdrawal.createdAt x)%N.

(** The withdrawal records of a user, in store order. *)
Definition of_user (u : jsstring) (d : Store.DB) : list Withdrawal.t :=
  filter (fun r => jsstring_eqb (Withdrawal.userId r) u) (Store.withdrawals d).

End Props.

(* ===================================================================== *)
(** * More vocabulary of the statements                                 *)
(* ===================================================================== *)

Module MoreProps.

Import App.

(** The statistics records of a user, in store order. *)
Definition stats_of (u : jsstring) (d : Store.DB) : list UserStats.t :=
  filter (fun r => jsstring_eqb (UserStats.userId r) u) (Store.userStats d).

(** No user has two statistics records. *)
Definition one_per_user (d : Store.DB) : Prop :=
  forall u, (List.length (stats_of u d) <= 1)%nat.

(** The figures the page holds are those of a stored record with the
    same id. *)
Definition backed (w : World) : Prop :=
  forall us,
    userStats w = Some us ->
    exists r,
      In r (Store.userStats (db w))
      /\ UserStats.id r = UserStats.id us
      /\ UserStats.totalCoins r = UserStats.totalCoins us
      /\ UserStats.totalWithdrawn r = UserStats.totalWithdrawn us.

(** The number of taps of a list whose store update resolves. *)
Definition stored_taps (envs : list CoinsEnv) : Z :=
  Z.of_nat (List.length (filter coins_update_ok envs)).

Definition is_confirm (o : Page.Op) : bool :=
  match o with Page.ConfirmRedeem _ => true | _ => false end.

End MoreProps.

Module AsyncProps.

Import App MoreProps Async.

(** What a load in flight relies on: from the empty answer of [list] to
    the execution of [create], its user has no record. *)
Definition load_inv (d : Store.DB) (t : Task) : Prop :=
  match t with
  | StatsList uid (Some (Some [])) => stats_of uid d = []
  | StatsCreate uid None => stats_of uid d = []
  | _ => True
  end.

(** No user has two records, and every load in flight can rely on what
    it has seen. *)
Definition loads_sound (s : Sys) : Prop :=
  one_per_user (db (world s))
  /\ Forall (load_inv (db (world s))) (pending s).

(** The store has a record with this id and these figures. *)
Definition stored (d : Store.DB) (i : jsstring) (c wd : Z) : Prop :=
  exists r,
    In r (Store.userStats d)
    /\ UserStats.id r = i
    /\ UserStats.totalCoins r = c
    /\ UserStats.totalWithdrawn r = wd.

(** What holds while a handler is in flight alone: until the store has
    executed its update the page is as the handler has seen it, and
    afterwards the store has the figures that the handler is about to
    show. *)
Definition task_inv (w : World) (t : Task) : Prop :=
  match t with
  | Finished => True
  | StatsList _ (Some (Some l)) =>
      backed w
      /\ forall s0, hd_error l = Some s0 -> In s0 (Store.userStats (db w))
  | StatsList _ _ => backed w
  | StatsCreate _ (Some (Some r)) =>
      backed w /\ In r (Store.userStats (db w))
  | StatsCreate _ _ => backed w
  | CoinsUpdate us n _ (Some true) =>
      stored (db w) (UserStats.id us) n (UserStats.totalWithdrawn us)
  | CoinsUpdate us _ _ _ => backed w /\ userStats w = Some us
  | Pause _ us _ _ _ => backed w /\ userStats w = Some us
  | RecordCreate _ us _ _ _ _ _ _ => backed w /\ userStats w = Some us
  | StatsUpdate us nc nw _ (Some true) =>
      stored (db w) (UserStats.id us) nc nw
  | StatsUpdate us _ _ _ _ => backed w /\ userStats w = Some us
  end.

(** The page is backed by the store whenever no handler is in flight. *)
Definition quiet_backed (s : Sys) : Prop :=
  (in_flight s = 0%nat -> backed (world s))
  /\ Forall (task_inv (world s)) (pending s).

(** [{ ...us, totalCoins: n }] *)
Definition with_coins (n : Z) (us : UserStats.t) : UserStats.t :=
  UserStats.mk (UserStats.id us) (UserStats.userId us) n
    (UserStats.totalWithdrawn us) (UserStats.createdAt us)
    (UserStats.updatedAt us).

End AsyncProps.

Module PayoutProps.

Import Payout.

(** The response of the [catch] block. *)
Definition internal_error (message : jsstring) : Response :=
  new_Response
    (Some (VObj [ (lit "error", VStr (lit "Internal server error"));
                  (lit "details", VStr message) ]))
    (Some 500%N) json_headers.

(** The four fields the handler reads from the parsed body. *)
Record Fields : Type := mkFields {
  f_email : jsval;
  f_amount : jsval;
  f_coins : jsval;
  f_userId : jsval
}.

(** The body is not [null], and these are its four fields. *)
Definition has_fields (rt : Runtime) (parsed : jsval) (f : Fields) : Prop :=
  get rt parsed (lit "email") = Ok (f_email f)
  /\ get rt parsed (lit "amount") = Ok (f_amount f)
  /\ get rt parsed (lit "coins") = Ok (f_coins f)
  /\ get rt parsed (lit "userId") = Ok (f_userId f).

(** A configured credential: set, and not the empty string. *)
Definition configured (rt : Runtime) (name : jsstring) : Prop :=
  exists value, env_get rt name = Some value /\ value <> [].

(** What the handler checks before it contacts the gateway. *)
Definition validated (rt : Runtime) (req : Request) (f : Fields) : Prop :=
  method req = lit "POST"
  /\ (exists parsed, json req = Ok parsed /\ has_fields rt parsed f)
  /\ truthy (f_email f) = true /\ truthy (f_amount f) = true
  /\ truthy (f_coins f) = true /\ truthy (f_userId f) = true
  /\ (exists subject,
        ToString rt (f_email f) = Ok subject
        /\ emailRegex_test subject = true)
  /\ configured rt (lit "PAYPAL_CLIENT_ID")
  /\ configured rt (lit "PAYPAL_CLIENT_SECRET").

(** A JSON value that is neither [null] nor an object. *)
Definition not_an_object (v : jsval) : Prop :=
  match v with
  | VBool _ => True
  | VNum _ => True
  | VStr _ => True
  | VArr _ => True
  | _ => False
  end.

(** The token call: client-credentials grant with basic authentication
    built from the two configured credentials. *)
Definition token_call (rt : Runtime) (rq : FetchRequest) : Prop :=
  url rq = token_url
  /\ fetch_method rq = lit "POST"
  /\ fetch_body rq = TextBody (lit "grant_type=client_credentials")
  /\ exists clientId clientSecret basic,
       env_get rt (lit "PAYPAL_CLIENT_ID") = Some clientId
       /\ env_get rt (lit "PAYPAL_CLIENT_SECRET") = Some clientSecret
       /\ btoa rt (clientId ++ lit ":" ++ clientSecret) = Ok basic
       /\ In (lit "Authorization", lit "Basic " ++ basic) (fetch_headers rq).

(** The payout call that follows the token response [r0]: its only
    credential is the bearer token read from that response. *)
Definition payout_call (rt : Runtime) (r0 : FetchResponse)
  (rq : FetchRequest) : Prop :=
  url rq = payouts_url
  /\ fetch_method rq = lit "POST"
  /\ exists tokenData access_token bearer,
       response_json rt r0 = Ok tokenData
       /\ get rt tokenData (lit "access_token") = Ok access_token
       /\ ToString rt access_token = Ok bearer
       /\ fetch_headers rq
          = [ (lit "Content-Type", lit "application/json");
              (lit "Authorization", lit "Bearer " ++ bearer) ].

(** The single item of a payout batch. *)
Definition payout_item (receiver : jsval) (value note itemId : jsstring)
  : jsval :=
  VObj [ (lit "recipient_type", VStr (lit "EMAIL"));
         (lit "amount",
          VObj [ (lit "value", VStr value);
                 (lit "currency", VStr (lit "USD")) ]);
         (lit "receiver", receiver);
         (lit "note", VStr note);
         (lit "sender_item_id", VStr itemId) ].

End PayoutProps.

(* ===================================================================== *)
(** * More concrete data                                                *)
(* ===================================================================== *)

Module MoreExamples.

Import Examples.

(** Both gateway calls are answered with 200; every body parses to an
    object with an access token and a batch header. *)
Definition paid : Payout.Runtime :=
  Payout.mkRuntime
    (fun _ => Some (lit "credential"))
    (fun _ _ => Ok (Payout.mkFetchResponse 200 (Ok (lit "body"))))
    (fun n => (1700 + N.of_nat n)%N)
    (fun s => Ok s)
    (fun _ =>
       Ok (Payout.VObj
             [ (lit "access_token", Payout.VStr (lit "A21"));
               (lit "batch_header",
                Payout.VObj
                  [ (lit "payout_batch_id", Payout.VStr (lit "BATCH7"));
                    (lit "batch_status", Payout.VStr (lit "PENDING")) ]) ]))
    (fun _ => Ok (lit "5"))
    (fun _ => Ok (lit "10,000"))
    (fun _ => Ok (lit "5"))
    (lit "Cannot read properties of null").

(** The network is down: every [fetch] throws. *)
Definition offline : Payout.Runtime :=
  runtime (fun _ => Throw (lit "connection refused")).

(** The token endpoint answers 401 and the read of the body fails. *)
Definition token_unreadable : Payout.Runtime :=
  runtime (fun _ =>
             Ok (Payout.mkFetchResponse 401
                   (Throw (lit "body stream closed")))).

(** No credential is set. *)
Definition unconfigured : Payout.Runtime :=
  Payout.mkRuntime
    (fun _ => None)
    (fun _ _ => Throw (lit "connection refused"))
    (fun n => N.of_nat n)
    (fun s => Ok s)
    (fun _ => Throw (lit "Unexpected token"))
    (fun _ => Ok (lit "5"))
    (fun _ => Ok (lit "10,000"))
    (fun _ => Ok (lit "5"))
    (lit "Cannot read properties of null").

Definition notanemail_fields : list (jsstring * Payout.jsval) :=
  [ (lit "email", Payout.VStr (lit "notanemail"));
    (lit "amount", Payout.VNum 5);
    (lit "coins", Payout.VNum 10000);
    (lit "userId", Payout.VStr (lit "user_1")) ].

Definition payout_fields : PayoutProps.Fields :=
  PayoutProps.mkFields (Payout.VStr (lit "a@b.com")) (Payout.VNum 5)
    (Payout.VNum 10000) (Payout.VStr (lit "user_1")).

(** Alice, signed in, before her statistics are loaded; the store is
    empty. *)
Definition newcomer : App.World :=
  App.mkWorld (Some alice) false None (Store.mkDB [] []) [].

Definition first_load : App.LoadEnv :=
  App.mkLoadEnv true (Some (lit "stats_1", 3000%N)).

(** Three taps; the store rejects the update of the second. *)
Definition three_taps : list App.CoinsEnv :=
  [ App.mkCoinsEnv true 1; App.mkCoinsEnv false 2; App.mkCoinsEnv true 3 ].

(** Alice with 10,000 coins and one earlier withdrawal, created at 7. *)
Definition returning : App.World :=
  App.mkWorld (Some alice) false (Some (stats 10000 1))
    (Store.mkDB [stats 10000 1] [withdrawal 7]) [].

(** Alice's first visit: her statistics are loaded, which creates her
    record, and then she taps once; the first handler has returned when
    the second is called. *)
Definition first_visit : list Async.Op :=
  Async.load_alone first_load 0
  ++ Async.tap_alone (App.mkCoinsEnv true 1500) 1.

(** A tap, and when it is answered a withdrawal of $1 for 5000 coins. *)
Definition in_turn : list Async.Op :=
  Async.tap_alone (App.mkCoinsEnv true 1500) 0
  ++ Async.withdrawal_alone Examples.store_ok 1 5000 (lit "a@b.com") 1.

(** A tap at time [t], with every random number one half. *)
Definition tap_at (t : N) : TapView.TapEnv :=
  TapView.mkTapEnv (fun _ => t) (fun _ => 1 # 2) true.

(** Two taps within the same millisecond, then their timers. *)
Definition double_tap : list TapView.Op :=
  [ TapView.DoTap (tap_at 7);
    TapView.DoTap (tap_at 7);
    TapView.Fire (TapView.CleanUpRing 7);
    TapView.Fire TapView.Release;
    TapView.Fire
      (TapView.CleanUpCoins (TapView.newFloatingCoins (fun q => q) (tap_at 7))) ].

End MoreExamples.

(* ===================================================================== *)
(** * Statements and proofs                                               *)
(* ===================================================================== *)

(** ** Facts about strings and the matcher *)

Lemma nullable_lang (r : regex) : nullable r = true <-> lang r [].
Proof.
  induction r; simpl; split; intro H.
  - discriminate.
  - inversion H.
  - constructor.
  - reflexivity.
  - discriminate.
  - inversion H.
  - apply andb_true_iff in H as [Ha Hb].
    change (@nil N) with (@nil N ++ @nil N). constructor; tauto.
  - inversion H as [| | a b s t Hs Ht E | | | |]; subst.
    destruct s; [| discriminate]. destruct t; [| discriminate].
    apply andb_true_iff; split; tauto.
  - apply orb_true_iff in H as [Ha | Hb].
    + apply lang_alt_l; tauto.
    + apply lang_alt_r; tauto.
  - inversion H; subst; apply orb_true_iff; tauto.
  - constructor.
  - reflexivity.
Qed.

Lemma deriv_sound (r : regex) :
  forall c s, lang (deriv c r) s -> lang r (c :: s).
Proof.
  induction r; simpl; intros c s H.
  - inversion H.
  - inversion H.
  - destruct (b c) eqn:E; inversion H; subst. now constructor.
  - destruct (nullable r1) eqn:E.
    + inversion H; subst.
      * match goal with
        | [ H1 : lang (Seq _ _) _ |- _ ] => inversion H1; subst
        end.
        change (c :: s0 ++ t) with ((c :: s0) ++ t).
        constructor; auto.
      * change (c :: s) with ([] ++ c :: s).
        constructor; auto. now apply nullable_lang.
    + inversion H; subst.
      change (c :: s0 ++ t) with ((c :: s0) ++ t).
      constructor; auto.
  - inversion H; subst; [apply lang_alt_l | apply lang_alt_r]; auto.
  - inversion H; subst. apply lang_star_cons; auto.
Qed.

Lemma deriv_complete (r : regex) :
  forall u, lang r u -> forall c s, u = c :: s -> lang (deriv c r) s.
Proof.
  intros u H. induction H; intros c0 s0 E; simpl.
  - discriminate.
  - injection E as -> <-. rewrite H. constructor.
  - destruct s as [| x s].
    + simpl in E. subst t.
      assert (Hn : nullable a = true) by now apply nullable_lang.
      rewrite Hn. apply lang_alt_r. now apply IHlang2.
    + simpl in E. injection E as -> <-.
      assert (Hd : lang (Seq (deriv c0 a) b) (s ++ t))
        by (constructor; auto).
      destruct (nullable a); [now apply lang_alt_l | exact Hd].
  - apply lang_alt_l. auto.
  - apply lang_alt_r. auto.
  - discriminate.
  - injection E as -> <-. constructor; auto.
Qed.

(** The derivative matcher decides the declarative language. *)
Lemma matches_lang (s : jsstring) :
  forall r, matches r s = true <-> lang r s.
Proof.
  induction s as [| c s IH]; intro r; simpl.
  - apply nullable_lang.
  - rewrite IH. split.
    + apply deriv_sound.
    + intro H. now apply (deriv_complete H).
Qed.

Example emailRegex_accepts : emailRegex_test (lit "a@b.com") = true.
Proof. reflexivity. Qed.

Example emailRegex_rejects :
  map emailRegex_test
    [ lit "notanemail"; lit ""; lit "a@b"; lit "a@@b.com"; lit "a b@c.de";
      lit "@b.com"; lit "a@.com"; lit "a@b." ]
  = [ false; false; false; false; false; false; false; false ].
Proof. reflexivity. Qed.

Example emailRegex_dots : emailRegex_test (lit "x.y@mail.example.org") = true.
Proof. reflexivity. Qed.

Example trim_blank : trim (lit "   ") = [] /\ trim (lit " a b ") = lit "a b".
Proof. split; reflexivity. Qed.

(** A string that matches [emailRegex] contains an ['@']. *)
Lemma emailRegex_has_at (s : jsstring) :
  emailRegex_test s = true -> In 64%N s.
Proof.
  unfold emailRegex_test. rewrite matches_lang. unfold emailRegex.
  intro H.
  inversion H as [| | ? ? s1 t1 _ H1 | | | |]; subst.
  inversion H1 as [| | ? ? s2 t2 H2 _ | | | |]; subst.
  inversion H2 as [| p c Hc | | | | |]; subst.
  apply in_or_app. right. apply in_or_app. left.
  unfold isChar in Hc. apply N.eqb_eq in Hc. subst. now left.
Qed.

(* ===================================================================== *)
(** * Redemption: [updateWithdrawal] and [handleRedeem]                   *)
(* ===================================================================== *)

Section Redemption.

Import App Props.

Lemma coinsProp_balance (w : World) (us : UserStats.t) :
  userStats w = Some us -> coinsProp w = UserStats.totalCoins us.
Proof.
  intro H. unfold coinsProp. rewrite H.
  destruct (Z.eqb_spec (UserStats.totalCoins us) 0) as [E | E]; congruence.
Qed.

Lemma update_settles (us : UserStats.t) (a cs : Z) (t : N)
  (rows : list UserStats.t) :
  Forall2 (settled us a cs t) rows
    (map (fun r => if jsstring_eqb (UserStats.id r) (UserStats.id us)
                   then Store.apply_patch
                          (Store.mkPatch
                             (Some (UserStats.totalCoins us - cs)%Z)
                             (Some (UserStats.totalWithdrawn us + a)%Z)
                             (Some t)) r
                   else r) rows).
Proof.
  induction rows as [| r rows IH]; simpl; constructor; auto.
  unfold settled.
  destruct (jsstring_eqb (UserStats.id r) (UserStats.id us)); simpl; auto.
Qed.

(** [updateWithdrawal] when both store calls resolve. *)
Lemma updateWithdrawal_resolved (e : WithdrawEnv) (a cs : Z)
  (em : jsstring) (w : World) (uid wid : jsstring) (us : UserStats.t) :
  user_id w = Some uid ->
  userStats w = Some us ->
  create_id e = Some wid ->
  update_ok e = true ->
  exists w',
    updateWithdrawal e a cs em w = (true, w')
    /\ userStats w'
       = Some (UserStats.mk (UserStats.id us) (UserStats.userId us)
                 (UserStats.totalCoins us - cs) (UserStats.totalWithdrawn us + a)
                 (UserStats.createdAt us) (UserStats.updatedAt us))
    /\ Store.withdrawals (db w')
       = Store.withdrawals (db w) ++ [completed_record e wid uid a cs em]
    /\ Forall2 (settled us a cs (now_updated e))
         (Store.userStats (db w)) (Store.userStats (db w'))
    /\ log w' = log w ++ [Delay 2000].
Proof.
  intros Hu Hs Hc Ho. unfold updateWithdrawal.
  rewrite Hu, Hs, Hc, Ho. eexists. split; [reflexivity |].
  simpl. repeat split. apply update_settles.
Qed.

(** [updateWithdrawal] answers [false] in exactly three situations. *)
Lemma updateWithdrawal_false (e : WithdrawEnv) (a cs : Z) (em : jsstring)
  (w w' : World) :
  updateWithdrawal e a cs em w = (false, w') ->
  (* nobody signed in, or no statistics loaded *)
  ((user_id w = None \/ userStats w = None) /\ w' = w)
  (* [withdrawals.create] rejected *)
  \/ (exists uid us,
        user_id w = Some uid /\ userStats w = Some us /\ create_id e = None
        /\ w' = emit (ConsoleError (lit "Error processing withdrawal:"))
                  (emit (Delay 2000) w))
  (* [withdrawals.create] resolved and [userStats.update] rejected *)
  \/ (exists uid us wid,
        user_id w = Some uid /\ userStats w = Some us
        /\ create_id e = Some wid /\ update_ok e = false
        /\ w' = emit (ConsoleError (lit "Error processing withdrawal:"))
                  (set_db (Store.withdrawals_create (db w)
                             (completed_record e wid uid a cs em))
                          (emit (Delay 2000) w))).
Proof.
  unfold updateWithdrawal.
  destruct (user_id w) as [uid |] eqn:Hu.
  2:{ intro H. injection H as <-. left. auto. }
  destruct (userStats w) as [us |] eqn:Hs.
  2:{ intro H. injection H as <-. left. auto. }
  destruct (create_id e) as [wid |] eqn:Hc.
  2:{ intro H. injection H as <-. right. left. now exists uid, us. }
  destruct (update_ok e) eqn:Ho; intro H; [discriminate |].
  injection H as <-. right. right. now exists uid, us, wid.
Qed.

(** [handleRedeem] stops at the balance check, whatever [onWithdrawal]
    is, when the tier costs more than the [coins] prop. *)
Lemma handleRedeem_insufficient (onWithdrawal : Redeem.OnWithdrawal)
  (coins_ : Z) (c : Redeem.State) (w : World) (t : Redeem.RedeemTier) :
  Redeem.selectedTier c = Some t ->
  (coins_ < Redeem.coins t)%Z ->
  exists title,
    Redeem.handleRedeem coins_ onWithdrawal c w
    = (c, emit (Toast title true) w).
Proof.
  intros Ht Hlt. unfold Redeem.handleRedeem. rewrite Ht.
  destruct (negb (truthy_string (trim (Redeem.paypalEmail c)))).
  - eexists. reflexivity.
  - apply Z.ltb_lt in Hlt. rewrite Hlt. eexists. reflexivity.
Qed.

(** [handleRedeem] stops at the first check when the email is blank. *)
Lemma handleRedeem_blank_email (onWithdrawal : Redeem.OnWithdrawal)
  (coins_ : Z) (c : Redeem.State) (w : World) :
  trim (Redeem.paypalEmail c) = [] ->
  Redeem.handleRedeem coins_ onWithdrawal c w
  = (c, emit (Toast (lit "Missing Information") true) w).
Proof.
  intro Hb. unfold Redeem.handleRedeem. rewrite Hb. simpl.
  destruct (Redeem.selectedTier c); reflexivity.
Qed.

(** C1. From balance [b] and cumulative-withdrawn [w], redeeming a tier
    [t] with [b >= t.coinCost] (signed in, non-blank email, both store
    calls resolving) succeeds: the new balance is [b - t.coinCost], the
    new cumulative-withdrawn is [w + t.dollarAmount], in the page and in
    the store, and exactly one withdrawal record is appended, with status
    ['completed'], [coinsSpent = t.coinCost] and [amount = t.dollarAmount]. *)
Theorem redeem_success (e : WithdrawEnv) (c : Redeem.State) (w : World)
  (uid wid : jsstring) (us : UserStats.t) (t : Redeem.RedeemTier) :
  user_id w = Some uid ->
  userStats w = Some us ->
  Redeem.selectedTier c = Some t ->
  trim (Redeem.paypalEmail c) <> [] ->
  (UserStats.totalCoins us >= Redeem.coins t)%Z ->
  create_id e = Some wid ->
  update_ok e = true ->
  exists c' w' us' r,
    Redeem.redeem e c w = (c', w')
    /\ userStats w' = Some us'
    /\ UserStats.totalCoins us'
       = (UserStats.totalCoins us - Redeem.coins t)%Z
    /\ UserStats.totalWithdrawn us'
       = (UserStats.totalWithdrawn us + Redeem.amount t)%Z
    /\ Forall2 (settled us (Redeem.amount t) (Redeem.coins t) (now_updated e))
         (Store.userStats (db w)) (Store.userStats (db w'))
    /\ Store.withdrawals (db w') = Store.withdrawals (db w) ++ [r]
    /\ Withdrawal.status r = lit "completed"
    /\ Withdrawal.coinsSpent r = Redeem.coins t
    /\ Withdrawal.amount r = Redeem.amount t
    /\ Withdrawal.paypalEmail r = Redeem.paypalEmail c
    /\ Withdrawal.userId r = uid
    /\ In (Toast ([240; 376; 381; 8240]%N ++ lit " Withdrawal Successful!")
                false)
          (log w').
Proof.
  intros Hu Hs Ht He Hge Hc Ho.
  unfold Redeem.redeem, Redeem.handleRedeem. rewrite Ht.
  destruct (trim (Redeem.paypalEmail c)) as [| x xs] eqn:Etrim;
    [congruence |]. cbn [truthy_string negb].
  rewrite (@coinsProp_balance w us Hs).
  assert (Hlt : (UserStats.totalCoins us <? Redeem.coins t)%Z = false)
    by (apply Z.ltb_ge; lia).
  rewrite Hlt.
  assert (Hu1 : user_id (Redeem.toast (lit "Processing Withdrawal...") false w)
                = Some uid) by exact Hu.
  assert (Hs1 : userStats
                  (Redeem.toast (lit "Processing Withdrawal...") false w)
                = Some us) by exact Hs.
  destruct (@updateWithdrawal_resolved e (Redeem.amount t) (Redeem.coins t)
              (Redeem.paypalEmail c) _ uid wid us Hu1 Hs1 Hc Ho)
    as (w' & Hrun & Hst & Hwd & Hrows & Hlog).
  rewrite Hrun.
  eexists _, _, _, _. split; [reflexivity |].
  unfold Redeem.toast at 1. cbn [emit userStats db log].
  split; [exact Hst |].
  split; [reflexivity |]. split; [reflexivity |].
  split; [exact Hrows |]. split; [exact Hwd |].
  repeat (split; [reflexivity |]).
  apply in_or_app. right. now left.
Qed.

(** C2, as amended.  Whenever [updateWithdrawal] reports [false], the
    balance and the cumulative-withdrawn are unchanged, in the page and in
    the store.  No withdrawal record is created when nobody is signed in,
    no statistics are loaded, or [withdrawals.create] rejects; when that
    call resolved and the following [userStats.update] rejected, the one
    ['completed'] record it created stays in the store. *)
Theorem updateWithdrawal_failure (e : WithdrawEnv) (a cs : Z)
  (em : jsstring) (w w' : World) :
  updateWithdrawal e a cs em w = (false, w') ->
  userStats w' = userStats w
  /\ Store.userStats (db w') = Store.userStats (db w)
  /\ ((user_id w = None \/ userStats w = None \/ create_id e = None) ->
      Store.withdrawals (db w') = Store.withdrawals (db w))
  /\ (forall uid us wid,
        user_id w = Some uid -> userStats w = Some us ->
        create_id e = Some wid ->
        update_ok e = false
        /\ Store.withdrawals (db w')
           = Store.withdrawals (db w)
             ++ [completed_record e wid uid a cs em]).
Proof.
  intro H. apply updateWithdrawal_false in H.
  destruct H as [[Hno ->] | [(uid & us & Hu & Hs & Hc & ->)
                            | (uid & us & wid & Hu & Hs & Hc & Ho & ->)]].
  - split; [reflexivity |]. split; [reflexivity |]. split.
    + reflexivity.
    + intros uid us wid Hu Hs Hc. destruct Hno; congruence.
  - split; [reflexivity |]. split; [reflexivity |]. split.
    + reflexivity.
    + intros uid' us' wid' Hu' Hs' Hc'. congruence.
  - split; [reflexivity |]. split; [reflexivity |]. split.
    + intros [Hn | [Hn | Hn]]; congruence.
    + intros uid' us' wid' Hu' Hs' Hc'.
      assert (uid' = uid) by congruence.
      assert (wid' = wid) by congruence. subst. split; [exact Ho |].
      reflexivity.
Qed.

(** C4. With balance [b < t.coinCost], confirming the redemption of tier
    [t] is rejected, whatever the payout callback is: form, balance,
    cumulative-withdrawn and store are unchanged (so no record is created)
    and the only event is one error toast (no pause, no payout). *)
Theorem redeem_insufficient (onWithdrawal : Redeem.OnWithdrawal)
  (c : Redeem.State) (w : World) (us : UserStats.t) (t : Redeem.RedeemTier) :
  userStats w = Some us ->
  Redeem.selectedTier c = Some t ->
  (UserStats.totalCoins us < Redeem.coins t)%Z ->
  exists c' w' title,
    Redeem.handleRedeem (coinsProp w) onWithdrawal c w = (c', w')
    /\ c' = c
    /\ userStats w' = Some us
    /\ db w' = db w
    /\ log w' = log w ++ [Toast title true].
Proof.
  intros Hs Ht Hlt.
  rewrite <- (@coinsProp_balance w us Hs) in Hlt.
  destruct (@handleRedeem_insufficient onWithdrawal _ c w t Ht Hlt)
    as [title Hrun].
  exists c, (emit (Toast title true) w), title.
  rewrite Hrun. repeat split. exact Hs.
Qed.

(** The specification's scenario: balance 10,000, tier (10,000 coins, $5),
    email ["a@b.com"]. *)
Lemma redeem_success_witness :
  exists c' w' us' r,
    Redeem.redeem Examples.store_ok
      (Examples.dialog Examples.tier5 "a@b.com") (Examples.world 10000 0)
    = (c', w')
    /\ userStats w' = Some us'
    /\ UserStats.totalCoins us' = (10000 - 10000)%Z
    /\ UserStats.totalWithdrawn us' = (0 + 5)%Z
    /\ Forall2 (settled (Examples.stats 10000 0) 5 10000 2002)
         [Examples.stats 10000 0] (Store.userStats (db w'))
    /\ Store.withdrawals (db w') = [] ++ [r]
    /\ Withdrawal.status r = lit "completed"
    /\ Withdrawal.coinsSpent r = 10000%Z
    /\ Withdrawal.amount r = 5%Z
    /\ Withdrawal.paypalEmail r = lit "a@b.com"
    /\ Withdrawal.userId r = lit "user_1"
    /\ In (Toast ([240; 376; 381; 8240]%N ++ lit " Withdrawal Successful!")
                false)
          (log w').
Proof.
  apply (@redeem_success Examples.store_ok
           (Examples.dialog Examples.tier5 "a@b.com")
           (Examples.world 10000 0) (lit "user_1") (lit "wd_1")
           (Examples.stats 10000 0) Examples.tier5).
  - reflexivity.
  - reflexivity.
  - reflexivity.
  - vm_compute. discriminate.
  - vm_compute. discriminate.
  - reflexivity.
  - reflexivity.
Defined.

(** C2, the claim as stated fails: [withdrawals.create] resolves, then
    [userStats.update] rejects.  [updateWithdrawal] reports [false] and the
    balance is unchanged, yet the store holds a new ['completed'] record. *)
Lemma updateWithdrawal_failure_counterexample :
  let w := Examples.world 10000 0 in
  let r := updateWithdrawal Examples.update_rejects 5 10000 (lit "a@b.com") w in
  fst r = false
  /\ userStats (snd r) = userStats w
  /\ Store.withdrawals (db w) = []
  /\ Store.withdrawals (db (snd r))
     = [ Withdrawal.mk (lit "wd_1") (lit "user_1") 5 10000 (lit "a@b.com")
           (lit "completed") (lit "DEMO_2000") 2001 ]
  /\ Store.withdrawals (db (snd r)) <> Store.withdrawals (db w).
Proof.
  vm_compute. repeat split; discriminate.
Qed.

Lemma updateWithdrawal_failure_witness :
  let w := Examples.world 10000 0 in
  let w' :=
    snd (updateWithdrawal Examples.update_rejects 5 10000 (lit "a@b.com") w) in
  userStats w' = userStats w
  /\ Store.userStats (db w') = Store.userStats (db w)
  /\ ((user_id w = None \/ userStats w = None
       \/ create_id Examples.update_rejects = None) ->
      Store.withdrawals (db w') = Store.withdrawals (db w))
  /\ (forall uid us wid,
        user_id w = Some uid -> userStats w = Some us ->
        create_id Examples.update_rejects = Some wid ->
        update_ok Examples.update_rejects = false
        /\ Store.withdrawals (db w')
           = Store.withdrawals (db w)
             ++ [completed_record Examples.update_rejects wid uid 5 10000
                   (lit "a@b.com")]).
Proof.
  apply (@updateWithdrawal_failure Examples.update_rejects 5 10000
           (lit "a@b.com") (Examples.world 10000 0)).
  reflexivity.
Defined.

(** C3, the code departs from the claim.  ["notanemail"] does not match
    [emailRegex], yet [handleRedeem], which only tests that the trimmed
    email is non-empty, runs the simulated payout: a ['completed'] record
    for ["notanemail"] is stored and 5,000 coins are deducted. *)
Theorem redeem_accepts_notanemail :
  let w := Examples.world 10000 0 in
  let r := Redeem.redeem Examples.store_ok
             (Examples.dialog Examples.tier1 "notanemail") w in
  emailRegex_test (lit "notanemail") = false
  /\ userStats (snd r)
     = Some (UserStats.mk (lit "stats_1") (lit "user_1") 5000 1 1000 1000)
  /\ Store.userStats (db (snd r))
     = [ UserStats.mk (lit "stats_1") (lit "user_1") 5000 1 1000 2002 ]
  /\ Store.withdrawals (db (snd r))
     = [ Withdrawal.mk (lit "wd_1") (lit "user_1") 1 5000 (lit "notanemail")
           (lit "completed") (lit "DEMO_2000") 2001 ]
  /\ log (snd r)
     = [ Toast (lit "Processing Withdrawal...") false;
         Delay 2000;
         Toast ([240; 376; 381; 8240]%N ++ lit " Withdrawal Successful!")
           false ].
Proof.
  vm_compute. repeat split.
Qed.

(** The specification's scenario: balance 4,000, tier (5,000 coins, $1). *)
Lemma redeem_insufficient_witness :
  exists c' w' title,
    Redeem.redeem Examples.store_ok
      (Examples.dialog Examples.tier1 "a@b.com") (Examples.world 4000 0)
    = (c', w')
    /\ c' = Examples.dialog Examples.tier1 "a@b.com"
    /\ userStats w' = Some (Examples.stats 4000 0)
    /\ db w' = db (Examples.world 4000 0)
    /\ log w' = log (Examples.world 4000 0) ++ [Toast title true].
Proof.
  apply (@redeem_insufficient
           (fun a cs em w' =>
              let (b, w'') := updateWithdrawal Examples.store_ok a cs em w' in
              (Ok b, w''))
           (Examples.dialog Examples.tier1 "a@b.com")
           (Examples.world 4000 0) (Examples.stats 4000 0) Examples.tier1).
  - reflexivity.
  - reflexivity.
  - vm_compute. reflexivity.
Defined.

End Redemption.

(* ===================================================================== *)
(** * The balance never goes negative                                     *)
(* ===================================================================== *)

Lemma In_firstn (A : Type) (n : nat) (l : list A) (x : A) :
  In x (firstn n l) -> In x l.
Proof.
  intro H. rewrite <- (firstn_skipn n l). apply in_or_app. now left.
Qed.

Section Balance.

Import App Page.

Lemma update_rows_nonneg (i : jsstring) (p : Store.StatsPatch)
  (rows : list UserStats.t) :
  (forall n, Store.p_totalCoins p = Some n -> (0 <= n)%Z) ->
  Forall (fun r => (0 <= UserStats.totalCoins r)%Z) rows ->
  Forall (fun r => (0 <= UserStats.totalCoins r)%Z)
    (map (fun r => if jsstring_eqb (UserStats.id r) i
                   then Store.apply_patch p r else r) rows).
Proof.
  intros Hp Hrows. induction Hrows as [| r rows Hr _ IH]; simpl;
    constructor; auto.
  destruct (jsstring_eqb (UserStats.id r) i); auto.
  unfold Store.apply_patch. simpl.
  destruct (Store.p_totalCoins p) as [n |]; auto.
Qed.

Lemma emit_nonneg (ev : Event) (w : World) :
  world_nonneg w -> world_nonneg (emit ev w).
Proof. intros [H1 H2]. split; assumption. Qed.

Lemma onAuthStateChanged_nonneg (u : option User) (l : bool) (w : World) :
  world_nonneg w -> world_nonneg (onAuthStateChanged u l w).
Proof. intros [H1 H2]. split; assumption. Qed.

Lemma loadUserStats_nonneg (e : LoadEnv) (w : World) :
  world_nonneg w -> world_nonneg (loadUserStats e w).
Proof.
  intros Hw. pose proof Hw as [H1 H2]. unfold loadUserStats.
  destruct (user_id w) as [uid |]; [| exact Hw].
  destruct (list_ok e); [| now apply emit_nonneg].
  destruct (Store.userStats_list (db w) uid 1) as [| s0 rest] eqn:El.
  - destruct (created e) as [[i t] |]; [| now apply emit_nonneg].
    split; simpl.
    + intros us E. injection E as <-. simpl. lia.
    + apply Forall_app. split; [assumption |].
      constructor; [simpl; lia | constructor].
  - split; simpl; [| assumption].
    intros us E. injection E as <-.
    assert (Hin : In s0 (Store.userStats_list (db w) uid 1))
      by (rewrite El; now left).
    unfold Store.userStats_list in Hin.
    apply In_firstn in Hin. apply filter_In in Hin as [Hin _].
    rewrite Forall_forall in H2. now apply H2.
Qed.

Lemma updateCoins_nonneg (e : CoinsEnv) (n : Z) (w : World) :
  (0 <= n)%Z -> world_nonneg w -> world_nonneg (updateCoins e n w).
Proof.
  intros Hn Hw. pose proof Hw as [H1 H2]. unfold updateCoins.
  destruct (user_id w) as [uid |]; [| exact Hw].
  destruct (userStats w) as [us |] eqn:Hs; [| exact Hw].
  destruct (coins_update_ok e); [| now apply emit_nonneg].
  split; simpl.
  - intros us' E. injection E as <-. exact Hn.
  - apply update_rows_nonneg; [| assumption].
    simpl. intros m E. injection E as <-. exact Hn.
Qed.

Lemma coinsProp_nonneg (w : World) :
  world_nonneg w -> (0 <= coinsProp w)%Z.
Proof.
  intros [H1 _]. unfold coinsProp.
  destruct (userStats w) as [us |]; [| lia].
  destruct (UserStats.totalCoins us =? 0)%Z; [lia |]. now apply H1.
Qed.

(** [updateWithdrawal] keeps the balances non-negative when it is asked
    for no more coins than the balance holds. *)
Lemma updateWithdrawal_nonneg (e : WithdrawEnv) (a cs : Z) (em : jsstring)
  (w : World) :
  (cs <= coinsProp w)%Z ->
  world_nonneg w -> world_nonneg (snd (updateWithdrawal e a cs em w)).
Proof.
  intros Hcs Hw. pose proof Hw as [H1 H2]. unfold updateWithdrawal.
  destruct (user_id w) as [uid |]; [| exact Hw].
  destruct (userStats w) as [us |] eqn:Hs; [| exact Hw].
  rewrite (@coinsProp_balance w us Hs) in Hcs.
  destruct (create_id e) as [wid |];
    [| simpl; now repeat apply emit_nonneg].
  destruct (update_ok e).
  2:{ simpl. apply emit_nonneg. destruct Hw as [Ha Hb].
      split; [exact Ha | exact Hb]. }
  split; simpl.
  - intros us' E. injection E as <-. simpl. lia.
  - apply update_rows_nonneg; [| assumption].
    simpl. intros m E. injection E as <-. lia.
Qed.

Lemma redeem_nonneg (e : WithdrawEnv) (c : Redeem.State) (w : World) :
  world_nonneg w -> world_nonneg (snd (Redeem.redeem e c w)).
Proof.
  intro Hw. unfold Redeem.redeem, Redeem.handleRedeem.
  destruct (Redeem.selectedTier c) as [t |]; [| now apply emit_nonneg].
  destruct (negb (truthy_string (trim (Redeem.paypalEmail c))));
    [now apply emit_nonneg |].
  destruct (Z.ltb_spec (coinsProp w) (Redeem.coins t)) as [Hlt | Hge];
    [now apply emit_nonneg |].
  pose proof (@updateWithdrawal_nonneg e (Redeem.amount t) (Redeem.coins t)
                (Redeem.paypalEmail c)
                (Redeem.toast (lit "Processing Withdrawal...") false w)
                Hge (emit_nonneg _ Hw)) as Hafter.
  destruct (updateWithdrawal e (Redeem.amount t) (Redeem.coins t)
              (Redeem.paypalEmail c)
              (Redeem.toast (lit "Processing Withdrawal...") false w))
    as [b w2].
  simpl in Hafter. destruct b; simpl; now apply emit_nonneg.
Qed.

Lemma step_nonneg (o : Op) (s : Sys) :
  balance_nonneg s -> balance_nonneg (step o s).
Proof.
  unfold balance_nonneg. intro H.
  destruct o as [u l | e | e | t | em | b | e]; cbn [step world].
  - exact (@onAuthStateChanged_nonneg u l (world s) H).
  - exact (@loadUserStats_nonneg e (world s) H).
  - unfold Tap.handleTap. apply updateCoins_nonneg; [| assumption].
    pose proof (coinsProp_nonneg H). lia.
  - exact H.
  - exact H.
  - exact H.
  - pose proof (@redeem_nonneg e (redeemTab s) (world s) H) as Hr.
    destruct (Redeem.redeem e (redeemTab s) (world s)) as [c w].
    exact Hr.
Qed.

(** A redemption that changes the balance has passed the affordability
    check and subtracts exactly the tier's cost. *)
Lemma redeem_changes_balance (e : WithdrawEnv) (c : Redeem.State)
  (w : World) (us us' : UserStats.t) :
  userStats w = Some us ->
  userStats (snd (Redeem.redeem e c w)) = Some us' ->
  UserStats.totalCoins us' <> UserStats.totalCoins us ->
  exists t,
    Redeem.selectedTier c = Some t
    /\ Redeem.canAfford (UserStats.totalCoins us) (Redeem.coins t) = true
    /\ UserStats.totalCoins us'
       = (UserStats.totalCoins us - Redeem.coins t)%Z.
Proof.
  intros Hs. unfold Redeem.redeem, Redeem.handleRedeem.
  destruct (Redeem.selectedTier c) as [t |];
    [| simpl; intros E Hne; congruence].
  destruct (negb (truthy_string (trim (Redeem.paypalEmail c))));
    [simpl; intros E Hne; congruence |].
  rewrite (@coinsProp_balance w us Hs).
  destruct (Z.ltb_spec (UserStats.totalCoins us) (Redeem.coins t))
    as [Hlt | Hge]; [simpl; intros E Hne; congruence |].
  unfold updateWithdrawal.
  change (user_id (Redeem.toast (lit "Processing Withdrawal...") false w))
    with (user_id w).
  change (userStats (Redeem.toast (lit "Processing Withdrawal...") false w))
    with (userStats w).
  rewrite Hs.
  destruct (user_id w) as [uid |]; [| simpl; intros E Hne; congruence].
  destruct (create_id e) as [wid |]; [| simpl; intros E Hne; congruence].
  destruct (update_ok e); [| simpl; intros E Hne; congruence].
  simpl. intros E Hne. injection E as <-. simpl.
  exists t. split; [reflexivity |]. split; [| reflexivity].
  unfold Redeem.canAfford. apply Z.geb_le. exact Hge.
Qed.

(** C5. Starting from non-negative balances (the one the page holds and
    those in the store), every sequence of operations of the page keeps
    them non-negative.  A tap hands [coins + 100] to [onCoinsUpdate]
    without any condition; a redemption changes the balance only when
    [canAfford] holds for the selected tier, and then subtracts exactly
    the tier's cost. *)
Theorem balance_never_negative (ops : list Op) (s : Sys) :
  balance_nonneg s ->
  balance_nonneg (run ops s)
  /\ (forall coins_ onCoinsUpdate w,
        Tap.handleTap coins_ onCoinsUpdate w
        = onCoinsUpdate (coins_ + 100)%Z w)
  /\ (forall e c w us us',
        userStats w = Some us ->
        userStats (snd (Redeem.redeem e c w)) = Some us' ->
        UserStats.totalCoins us' <> UserStats.totalCoins us ->
        exists t,
          Redeem.selectedTier c = Some t
          /\ Redeem.canAfford (UserStats.totalCoins us) (Redeem.coins t)
             = true
          /\ UserStats.totalCoins us'
             = (UserStats.totalCoins us - Redeem.coins t)%Z).
Proof.
  intro Hs. split; [| split].
  - revert s Hs. unfold run.
    induction ops as [| o ops IH]; simpl; intros s Hs; [exact Hs |].
    apply IH. now apply step_nonneg.
  - reflexivity.
  - intros e c w us us'. apply redeem_changes_balance.
Qed.

(** Forty-nine hundred coins, one tap, then the $1 tier. *)
Lemma balance_never_negative_witness :
  balance_nonneg (run Examples.session Examples.page)
  /\ UserStats.totalCoins (Examples.stats 4900 0) = 4900%Z
  /\ option_map UserStats.totalCoins
       (userStats (world (run Examples.session Examples.page)))
     = Some 0%Z.
Proof.
  split; [| split; reflexivity].
  apply (@balance_never_negative Examples.session Examples.page).
  split.
  - intros us E. injection E as <-. simpl. lia.
  - simpl. repeat constructor. simpl. lia.
Defined.

End Balance.

(* ===================================================================== *)
(** * Affordability and progress                                          *)
(* ===================================================================== *)

Section Progress.

(** The rounding of double arithmetic: monotone, and exact on [100]. *)
Variable rnd : Q -> Q.
Hypothesis rnd_mono : forall x y : Q, x <= y -> rnd x <= rnd y.
Hypothesis rnd_100 : rnd 100 == 100.

Lemma rnd_proper (x y : Q) : x == y -> rnd x == rnd y.
Proof.
  intro E. apply Qle_antisym; apply rnd_mono; rewrite E; apply Qle_refl.
Qed.

Lemma canAfford_spec (b c : Z) :
  Redeem.canAfford b c = true <-> Redeem.spec_affordable b c.
Proof.
  unfold Redeem.canAfford, Redeem.spec_affordable.
  rewrite Z.geb_le. lia.
Qed.

Lemma progress_capped (b c : Z) :
  Redeem.getProgressPercentage rnd b c
  == rnd (Redeem.spec_progress rnd b c * 100).
Proof.
  unfold Redeem.getProgressPercentage, Redeem.spec_progress.
  set (q := rnd (inject_Z b / inject_Z c)).
  destruct (Qlt_le_dec 1 q) as [Hgt | Hle].
  - assert (Hq : 100 <= q * 100).
    { setoid_replace 100 with (1 * 100) at 1 by reflexivity.
      apply Qmult_le_compat_r; [now apply Qlt_le_weak | discriminate]. }
    assert (Hmin : Qmin q 1 == 1) by (apply Q.min_r; now apply Qlt_le_weak).
    rewrite (rnd_proper (x := Qmin q 1 * 100) (y := 100))
      by (rewrite Hmin; reflexivity).
    rewrite rnd_100. apply Q.min_r.
    apply Qle_trans with (rnd 100); [| now apply rnd_mono].
    apply Qle_lteq. right. symmetry. exact rnd_100.
  - assert (Hq : q * 100 <= 100).
    { setoid_replace 100 with (1 * 100) at 2 by reflexivity.
      apply Qmult_le_compat_r; [exact Hle | discriminate]. }
    assert (Hmin : Qmin q 1 == q) by now apply Q.min_l.
    rewrite (rnd_proper (x := Qmin q 1 * 100) (y := q * 100))
      by (rewrite Hmin; reflexivity).
    apply Q.min_l.
    apply Qle_trans with (rnd 100); [now apply rnd_mono |].
    apply Qle_lteq. right. exact rnd_100.
Qed.

(** C6. [canAfford] returns [true] exactly when [b >= c], and for a
    non-zero tier cost [getProgressPercentage] is the specification's
    [min(b / c, 1.0)] expressed as a percentage; it never exceeds 100.
    Both are functions of [b] and [c] alone.  (A zero cost is left out
    because the source then divides by zero, which [Q] does not model.) *)
Theorem affordable_and_progress (b c : Z) :
  c <> 0%Z ->
  (Redeem.canAfford b c = true <-> Redeem.spec_affordable b c)
  /\ Redeem.getProgressPercentage rnd b c
     == rnd (Redeem.spec_progress rnd b c * 100)
  /\ Redeem.getProgressPercentage rnd b c <= 100.
Proof.
  intros _. split; [apply canAfford_spec |]. split; [apply progress_capped |].
  apply Q.le_min_r.
Qed.

End Progress.

(** Exact arithmetic: 2,500 of 5,000 coins is 50 percent, and the tier is
    not affordable. *)
Lemma affordable_and_progress_witness :
  ((Redeem.canAfford 2500 5000 = true <-> Redeem.spec_affordable 2500 5000)
   /\ Redeem.getProgressPercentage (fun x => x) 2500 5000
      == Redeem.spec_progress (fun x => x) 2500 5000 * 100
   /\ Redeem.getProgressPercentage (fun x => x) 2500 5000 <= 100)
  /\ Redeem.getProgressPercentage (fun x => x) 2500 5000 == 50
  /\ Redeem.canAfford 2500 5000 = false.
Proof.
  split; [| split; reflexivity].
  apply (@affordable_and_progress (fun x => x)).
  - intros x y H. exact H.
  - reflexivity.
  - discriminate.
Defined.

(* ===================================================================== *)
(** * The payout function                                                 *)
(* ===================================================================== *)

Section PayoutFunction.

Import Payout.

Variable rt : Runtime.

Lemma post_is_not_options :
  jsstring_eqb (lit "POST") (lit "OPTIONS") = false.
Proof. reflexivity. Qed.

Lemma post_is_post : jsstring_eqb (lit "POST") (lit "POST") = true.
Proof. reflexivity. Qed.

Lemma options_is_options :
  jsstring_eqb (lit "OPTIONS") (lit "OPTIONS") = true.
Proof. reflexivity. Qed.

(** C8, as amended.  Every OPTIONS request is answered, without any
    outbound call or log entry, by a response with an empty body, the
    default status 200 (the handler sets none) and the permissive CORS
    headers, which allow the methods POST and OPTIONS. *)
Theorem options_response (req : Request) :
  method req = lit "OPTIONS" ->
  handle rt req
  = (Ok (mkResponse 200
           [ (lit "Access-Control-Allow-Origin", lit "*");
             (lit "Access-Control-Allow-Methods", lit "POST, OPTIONS");
             (lit "Access-Control-Allow-Headers",
              lit "Content-Type, Authorization") ]
           None),
     St0).
Proof.
  intro Hm. unfold handle, serve. rewrite Hm, options_is_options.
  reflexivity.
Qed.

(** C9. A POST request whose JSON body is an object in which [email],
    [amount], [coins] or [userId] is falsy (absent, [null], [false], [0]
    or [""]) is answered with status 400 and the error ['Missing required
    fields'], before any outbound call. *)
Theorem missing_fields_rejected (req : Request)
  (fields : list (jsstring * jsval)) :
  method req = lit "POST" ->
  json req = Ok (VObj fields) ->
  truthy (lookup (lit "email") fields) = false
  \/ truthy (lookup (lit "amount") fields) = false
  \/ truthy (lookup (lit "coins") fields) = false
  \/ truthy (lookup (lit "userId") fields) = false ->
  handle rt req = (Ok (error_response 400 (lit "Missing required fields")), St0)
  /\ status (error_response 400 (lit "Missing required fields")) = 400%N
  /\ body (error_response 400 (lit "Missing required fields"))
     = Some (VObj [(lit "error", VStr (lit "Missing required fields"))]).
Proof.
  intros Hm Hj Hfalsy. split; [| split; reflexivity].
  unfold handle, serve.
  rewrite Hm, post_is_not_options, post_is_post. cbn [negb].
  unfold try_catch, bind, lift. rewrite Hj. cbn [get].
  assert (Hcond :
            negb (truthy (lookup (lit "email") fields))
            || negb (truthy (lookup (lit "amount") fields))
            || negb (truthy (lookup (lit "coins") fields))
            || negb (truthy (lookup (lit "userId") fields)) = true).
  { destruct Hfalsy as [H | [H | [H | H]]]; rewrite H; cbn [negb];
      rewrite ?orb_true_r; reflexivity. }
  rewrite Hcond. reflexivity.
Qed.

(** The sibling check of the email format: a POST request with all four
    fields present whose email does not match [emailRegex] is answered
    with status 400 and the error ['Invalid email format'], before any
    outbound call. *)
Lemma invalid_email_rejected (req : Request)
  (fields : list (jsstring * jsval)) (subject : jsstring) :
  method req = lit "POST" ->
  json req = Ok (VObj fields) ->
  truthy (lookup (lit "email") fields) = true ->
  truthy (lookup (lit "amount") fields) = true ->
  truthy (lookup (lit "coins") fields) = true ->
  truthy (lookup (lit "userId") fields) = true ->
  ToString rt (lookup (lit "email") fields) = Ok subject ->
  emailRegex_test subject = false ->
  handle rt req = (Ok (error_response 400 (lit "Invalid email format")), St0)
  /\ status (error_response 400 (lit "Invalid email format")) = 400%N
  /\ body (error_response 400 (lit "Invalid email format"))
     = Some (VObj [(lit "error", VStr (lit "Invalid email format"))]).
Proof.
  intros Hm Hj He Ha Hc Hu Hs Hr. split; [| split; reflexivity].
  unfold handle, serve.
  rewrite Hm, post_is_not_options, post_is_post. cbn [negb].
  unfold try_catch, bind, lift. rewrite Hj. cbn [get].
  rewrite He, Ha, Hc, Hu. cbn [negb orb].
  rewrite Hs, Hr. reflexivity.
Qed.

Lemma token_url_is_not_payouts_url : token_url <> payouts_url.
Proof. vm_compute. discriminate. Qed.

(** One step of symbolic execution of the handler inside [E]. *)
Ltac run_handler E :=
  match type of E with
  | context [match ?x with _ => _ end] =>
      lazymatch x with
      | context [match _ with _ => _ end] => fail
      | _ => destruct x eqn:?; cbv beta iota in E
      end
  end.

(** C7, as amended.  Whenever the token endpoint answered with a non-2xx
    status, that call is the only outbound call of the invocation (no
    payout call, no retry), and the function then reads the body of the
    answer: if the read gives a text, the text goes to the console and the
    response is the fixed error ['Failed to authenticate with PayPal'];
    if the read fails, the [catch] block answers ['Internal server error']
    with the message of the read error as details.  Whenever the payouts
    endpoint answered with a non-2xx status, the outbound calls are exactly
    one successful token call and that payout call, and in the same way the
    response is the fixed error ['Failed to process payout'] or the answer
    of the [catch] block.  All three responses have status 500, and none
    contains the upstream body. *)
Theorem gateway_failure (req : Request) (rq : FetchRequest)
  (resp : FetchResponse) :
  In (rq, Ok resp) (calls (snd (handle rt req))) ->
  ok resp = false ->
  (url rq = token_url ->
   calls (snd (handle rt req)) = [(rq, Ok resp)]
   /\ match text resp with
      | Ok errorText =>
          fst (handle rt req)
          = Ok (error_response 500
                  (lit "Failed to authenticate with PayPal"))
          /\ console (snd (handle rt req))
             = [(lit "PayPal token error:", errorText)]
      | Throw message =>
          fst (handle rt req) = Ok (PayoutProps.internal_error message)
          /\ console (snd (handle rt req))
             = [(lit "Payout function error:", message)]
      end)
  /\ (url rq = payouts_url ->
      (exists rq0 resp0,
         calls (snd (handle rt req)) = [(rq0, Ok resp0); (rq, Ok resp)]
         /\ url rq0 = token_url /\ ok resp0 = true)
      /\ match text resp with
         | Ok errorText =>
             fst (handle rt req)
             = Ok (error_response 500 (lit "Failed to process payout"))
             /\ console (snd (handle rt req))
                = [(lit "PayPal payout error:", errorText)]
         | Throw message =>
             fst (handle rt req) = Ok (PayoutProps.internal_error message)
             /\ console (snd (handle rt req))
                = [(lit "Payout function error:", message)]
         end)
  /\ (status (error_response 500 (lit "Failed to authenticate with PayPal"))
      = 500%N
      /\ body (error_response 500 (lit "Failed to authenticate with PayPal"))
         = Some (VObj [(lit "error",
                        VStr (lit "Failed to authenticate with PayPal"))]))
  /\ (status (error_response 500 (lit "Failed to process payout")) = 500%N
      /\ body (error_response 500 (lit "Failed to process payout"))
         = Some (VObj [(lit "error",
                        VStr (lit "Failed to process payout"))]))
  /\ (forall message,
        status (PayoutProps.internal_error message) = 500%N
        /\ body (PayoutProps.internal_error message)
           = Some (VObj [(lit "error", VStr (lit "Internal server error"));
                         (lit "details", VStr message)])).
Proof.
  intros Hin Hok.
  split; [| split; [| repeat split; reflexivity]];
    revert Hin Hok.
  all: destruct (handle rt req) as [r st] eqn:E.
  all: unfold handle, serve in E.
  all: cbv [bind lift ret try_catch do_fetch console_error now St0
            calls console ticks] in E.
  all: repeat run_handler E.
  all: injection E as <- <-.
  all: cbn [fst snd calls console app In].
  all: intros Hin Hok Hurl.
  all: repeat match goal with
              | H : False |- _ => destruct H
              | H : _ \/ _ |- _ => destruct H
              | H : (_, _) = (_, Ok _) |- _ => inversion H; subst; clear H
              end.
  all: try discriminate.
  all: try match goal with
           | H : negb (ok ?f) = false, H' : ok ?f = false |- _ =>
               rewrite H' in H; discriminate H
           end.
  all: cbn [url] in Hurl.
  all: try (exfalso; apply token_url_is_not_payouts_url; congruence).
  all: repeat match goal with
              | H : text ?f = _ |- context [text ?f] => rewrite H
              end.
  all: try (split; [reflexivity |]; split; reflexivity).
  all: split; [| split; reflexivity].
  all: match goal with
       | H : negb (ok ?f) = false |- _ =>
           eexists _, f; split; [reflexivity |]; split; [reflexivity |];
           apply negb_false_iff in H; exact H
       end.
Qed.

End PayoutFunction.

(** A preflight request. *)
Lemma options_response_witness :
  Payout.handle Examples.token_refused Examples.preflight
  = (Ok (Payout.mkResponse 200
           [ (lit "Access-Control-Allow-Origin", lit "*");
             (lit "Access-Control-Allow-Methods", lit "POST, OPTIONS");
             (lit "Access-Control-Allow-Headers",
              lit "Content-Type, Authorization") ]
           None),
     Payout.St0).
Proof.
  apply (@options_response Examples.token_refused Examples.preflight).
  reflexivity.
Defined.

(** C8, the claim as stated fails: the response to an OPTIONS request has
    status 200, not 204. *)
Lemma options_status_counterexample :
  Payout.method Examples.preflight = lit "OPTIONS"
  /\ exists r,
       fst (Payout.handle Examples.token_refused Examples.preflight) = Ok r
       /\ Payout.status r = 200%N
       /\ Payout.status r <> 204%N.
Proof.
  split; [reflexivity |]. eexists. split; [reflexivity |].
  split; [reflexivity |]. discriminate.
Qed.

(** [amount: 0], with every other field in place. *)
Lemma missing_fields_rejected_witness :
  Payout.handle Examples.token_refused
    (Examples.post (Examples.payout_body 0 10000))
  = (Ok (Payout.error_response 400 (lit "Missing required fields")),
     Payout.St0)
  /\ Payout.status (Payout.error_response 400 (lit "Missing required fields"))
     = 400%N
  /\ Payout.body (Payout.error_response 400 (lit "Missing required fields"))
     = Some (Payout.VObj
               [(lit "error", Payout.VStr (lit "Missing required fields"))]).
Proof.
  apply (@missing_fields_rejected Examples.token_refused
           (Examples.post (Examples.payout_body 0 10000))
           [ (lit "email", Payout.VStr (lit "a@b.com"));
             (lit "amount", Payout.VNum 0);
             (lit "coins", Payout.VNum 10000);
             (lit "userId", Payout.VStr (lit "user_1")) ]).
  - reflexivity.
  - reflexivity.
  - right. left. reflexivity.
Defined.

(** A 401 from the token endpoint, and a 422 from the payouts endpoint
    after a 200 from the token endpoint, both with a readable body. *)
Lemma gateway_failure_witness :
  (fst (Payout.handle Examples.token_refused
          (Examples.post (Examples.payout_body 5 10000)))
   = Ok (Payout.error_response 500 (lit "Failed to authenticate with PayPal"))
   /\ List.length
        (Payout.calls
           (snd (Payout.handle Examples.token_refused
                   (Examples.post (Examples.payout_body 5 10000)))))
      = 1%nat)
  /\ (fst (Payout.handle Examples.payout_refused
             (Examples.post (Examples.payout_body 5 10000)))
      = Ok (Payout.error_response 500 (lit "Failed to process payout"))
      /\ List.length
           (Payout.calls
              (snd (Payout.handle Examples.payout_refused
                      (Examples.post (Examples.payout_body 5 10000)))))
         = 2%nat).
Proof.
  split.
  - edestruct (@gateway_failure Examples.token_refused
                 (Examples.post (Examples.payout_body 5 10000)))
      as [Htoken _].
    + vm_compute. left. reflexivity.
    + reflexivity.
    + destruct Htoken as (Hc & Hr & _); [reflexivity |].
      split; [exact Hr | rewrite Hc; reflexivity].
  - edestruct (@gateway_failure Examples.payout_refused
                 (Examples.post (Examples.payout_body 5 10000)))
      as (_ & Hpayout & _).
    + vm_compute. right. left. reflexivity.
    + reflexivity.
    + destruct Hpayout as ((rq0 & resp0 & Hc & _) & Hr & _); [reflexivity |].
      split; [exact Hr | rewrite Hc; reflexivity].
Defined.

(** C7, the claim as stated fails: the token endpoint answers 401 and the
    read of the body of that answer fails.  The function makes no payout
    call, but its response is the one of the [catch] block, with the error
    ['Internal server error'] and the message of the read error as details,
    not the authentication-failure error. *)
Lemma gateway_failure_counterexample :
  let out :=
    Payout.handle MoreExamples.token_unreadable
      (Examples.post (Examples.payout_body 5 10000)) in
  (exists rq resp,
     Payout.calls (snd out) = [(rq, Ok resp)]
     /\ Payout.url rq = Payout.token_url
     /\ Payout.fetch_status resp = 401%N
     /\ Payout.ok resp = false)
  /\ fst out
     = Ok (Payout.mkResponse 500 Payout.json_headers
             (Some (Payout.VObj
                      [ (lit "error",
                         Payout.VStr (lit "Internal server error"));
                        (lit "details",
                         Payout.VStr (lit "body stream closed")) ])))
  /\ fst out
     <> Ok (Payout.error_response 500
              (lit "Failed to authenticate with PayPal")).
Proof.
  split; [| split].
  - eexists _, _. repeat split; reflexivity.
  - reflexivity.
  - vm_compute. discriminate.
Qed.

(* ===================================================================== *)
(** * The withdrawal history                                              *)
(* ===================================================================== *)

Section HistoryTab.

Import Props.

Lemma jsstring_eqb_eq (a b : jsstring) : jsstring_eqb a b = true <-> a = b.
Proof.
  unfold jsstring_eqb. destruct (list_eq_dec N.eq_dec a b); split;
    congruence.
Qed.

Lemma insert_desc_perm (x : Withdrawal.t) (l : list Withdrawal.t) :
  Permutation (Store.insert_desc x l) (x :: l).
Proof.
  induction l as [| y l IH]; simpl; [reflexivity |].
  destruct (Withdrawal.createdAt y <=? Withdrawal.createdAt x)%N;
    [reflexivity |].
  rewrite IH. apply perm_swap.
Qed.

Lemma sort_desc_perm (l : list Withdrawal.t) :
  Permutation (Store.sort_desc l) l.
Proof.
  induction l as [| x l IH]; simpl; [reflexivity |].
  rewrite insert_desc_perm. now constructor.
Qed.

Lemma insert_desc_sorted (x : Withdrawal.t) (l : list Withdrawal.t) :
  StronglySorted newer l -> StronglySorted newer (Store.insert_desc x l).
Proof.
  induction 1 as [| y l Hl IH Hy]; simpl.
  - repeat constructor.
  - destruct (N.leb_spec (Withdrawal.createdAt y) (Withdrawal.createdAt x))
      as [Hle | Hgt].
    + constructor; [now constructor |].
      constructor; [exact Hle |].
      rewrite Forall_forall in Hy |- *. intros z Hz.
      specialize (Hy z Hz). unfold newer in *. lia.
    + constructor; [exact IH |].
      rewrite Forall_forall in Hy |- *. intros z Hz.
      apply (Permutation_in _ (insert_desc_perm x l)) in Hz.
      destruct Hz as [<- | Hz]; [unfold newer; lia | now apply Hy].
Qed.

Lemma sort_desc_sorted (l : list Withdrawal.t) :
  StronglySorted newer (Store.sort_desc l).
Proof.
  induction l as [| x l IH]; simpl;
    [constructor | now apply insert_desc_sorted].
Qed.

Lemma sorted_app (l1 l2 : list Withdrawal.t) :
  StronglySorted newer (l1 ++ l2) ->
  StronglySorted newer l1
  /\ forall x y, In x l1 -> In y l2 -> newer x y.
Proof.
  induction l1 as [| a l1 IH]; simpl; intro H.
  - split; [constructor | intros x y []].
  - inversion H as [| ? ? Hs Ha]; subst.
    destruct (IH Hs) as [Hs1 Hcross]. split.
    + constructor; [exact Hs1 |].
      rewrite Forall_forall in Ha |- *. intros z Hz. apply Ha.
      apply in_or_app. now left.
    + intros x y [<- | Hx] Hy.
      * rewrite Forall_forall in Ha. apply Ha. apply in_or_app. now right.
      * now apply Hcross.
Qed.

(** C10. [loadWithdrawals] asks the store for the user's records, newest
    first, with limit 50.  What the tab then holds are records of that
    user, ordered by creation time descending; there are
    [min 50 n] of them when the user has [n], hence at most 50 and exactly
    50 when the user has more; every record of the user that is left out
    is no newer than any record shown, and shown and left-out records
    together are the user's records.  A failed load leaves the list as it
    was, so the displayed count stays at most 50. *)
Theorem history_shows_latest_50 (d : Store.DB) (u : jsstring)
  (st : History.State) :
  let shown := History.withdrawals (History.loadWithdrawals true d u st) in
  let left_out := skipn 50 (Store.sort_desc (of_user u d)) in
  shown = Store.withdrawals_list d u 50
  /\ History.displayedCount (History.loadWithdrawals true d u st)
     = Nat.min 50 (List.length (of_user u d))
  /\ (History.displayedCount (History.loadWithdrawals true d u st) <= 50)%nat
  /\ (50 < List.length (of_user u d) ->
      History.displayedCount (History.loadWithdrawals true d u st) = 50)%nat
  /\ Forall (fun r => Withdrawal.userId r = u /\ In r (Store.withdrawals d))
       shown
  /\ StronglySorted newer shown
  /\ (forall x y, In x shown -> In y left_out -> newer x y)
  /\ Permutation (shown ++ left_out) (of_user u d)
  /\ History.withdrawals (History.loadWithdrawals false d u st)
     = History.withdrawals st
  /\ (forall list_ok,
        (History.displayedCount st <= 50)%nat ->
        (History.displayedCount (History.loadWithdrawals list_ok d u st)
         <= 50)%nat).
Proof.
  cbv zeta. unfold History.displayedCount, History.loadWithdrawals.
  cbn [History.withdrawals]. unfold Store.withdrawals_list.
  fold (of_user u d).
  set (sorted := Store.sort_desc (of_user u d)).
  assert (Hsorted : StronglySorted newer (firstn 50 sorted ++ skipn 50 sorted))
    by (rewrite firstn_skipn; apply sort_desc_sorted).
  apply sorted_app in Hsorted as [Hs Hcross].
  assert (Hlen : List.length sorted = List.length (of_user u d))
    by (apply Permutation_length, sort_desc_perm).
  split; [reflexivity |].
  split; [rewrite length_firstn, Hlen; reflexivity |].
  split; [apply firstn_le_length |].
  split; [intro Hmore; rewrite length_firstn, Hlen; lia |].
  split.
  { rewrite Forall_forall. intros r Hr. apply In_firstn in Hr.
    apply (Permutation_in _ (sort_desc_perm (of_user u d))) in Hr.
    unfold of_user in Hr. apply filter_In in Hr as [Hin Hu].
    split; [now apply jsstring_eqb_eq | exact Hin]. }
  split; [exact Hs |].
  split; [exact Hcross |].
  split; [rewrite firstn_skipn; apply sort_desc_perm |].
  split; [reflexivity |].
  intros [|] Hst; cbn [History.withdrawals];
    [apply firstn_le_length | exact Hst].
Qed.

End HistoryTab.

(** Alice has fifty-one withdrawals: fifty are shown, from the newest
    (created at 50) down to the one created at 1. *)
Lemma history_shows_latest_50_witness :
  History.displayedCount
    (History.loadWithdrawals true Examples.busy_store (lit "user_1")
       History.initial)
  = 50%nat
  /\ map Withdrawal.createdAt
       (History.withdrawals
          (History.loadWithdrawals true Examples.busy_store (lit "user_1")
             History.initial))
     = map N.of_nat (rev (seq 1 50)).
Proof.
  pose proof (@history_shows_latest_50 Examples.busy_store (lit "user_1")
                History.initial) as H.
  cbv zeta in H. destruct H as (_ & _ & _ & Hcap & _).
  split; [apply Hcap; vm_compute; lia | vm_compute; reflexivity].
Defined.

(* ===================================================================== *)
(** * The shape of an accepted email, and blank input                     *)
(* ===================================================================== *)

Section EmailShape.

Lemma class_lang (p : N -> bool) (u : jsstring) :
  lang (Class p) u <-> exists c, u = [c] /\ p c = true.
Proof.
  split.
  - intro H. inversion H; subst. eauto.
  - intros (c & -> & Hc). now constructor.
Qed.

Lemma star_class_lang (p : N -> bool) (s : jsstring) :
  lang (Star (Class p)) s <-> Forall (fun c => p c = true) s.
Proof.
  split.
  - intro H. remember (Star (Class p)) as r eqn:Er.
    induction H as [| | | | | a | a c u t Hu _ Ht IH]; try discriminate.
    + constructor.
    + injection Er as ->. inversion Hu; subst. simpl.
      constructor; [assumption | now apply IH].
  - induction 1 as [| c s Hc _ IH]; [constructor |].
    change (c :: s) with (c :: [] ++ s).
    apply lang_star_cons; [now constructor | exact IH].
Qed.

Lemma plus_class_lang (p : N -> bool) (s : jsstring) :
  lang (Plus (Class p)) s <-> s <> [] /\ Forall (fun c => p c = true) s.
Proof.
  unfold Plus. split.
  - intro H. inversion H as [| | a b u t Hu Ht | | | |]; subst.
    apply class_lang in Hu as (c & -> & Hc).
    apply star_class_lang in Ht. split; [discriminate |].
    now constructor.
  - intros [Hne Hall]. destruct s as [| c s]; [congruence |].
    inversion Hall; subst.
    change (c :: s) with ([c] ++ s). constructor.
    + now constructor.
    + now apply star_class_lang.
Qed.

Lemma isChar_lang (k : N) (u : jsstring) :
  lang (Class (isChar k)) u <-> u = [k].
Proof.
  rewrite class_lang. unfold isChar. split.
  - intros (c & -> & Hc). apply N.eqb_eq in Hc. now subst.
  - intros ->. exists k. split; [reflexivity | apply N.eqb_refl].
Qed.

(** The parts of a string that [emailRegex] accepts. *)
Lemma emailRegex_parts (s : jsstring) :
  emailRegex_test s = true ->
  exists local domain tld,
    s = local ++ 64%N :: domain ++ 46%N :: tld
    /\ local <> [] /\ domain <> [] /\ tld <> []
    /\ Forall (fun c => notSpaceAt c = true) (local ++ domain ++ tld).
Proof.
  unfold emailRegex_test. rewrite matches_lang. unfold emailRegex.
  intro H.
  inversion H as [| | ? ? l r1 Hl H1 | | | |]; subst.
  inversion H1 as [| | ? ? a r2 Ha H2 | | | |]; subst.
  inversion H2 as [| | ? ? d r3 Hd H3 | | | |]; subst.
  inversion H3 as [| | ? ? dot t Hdot Ht | | | |]; subst.
  apply plus_class_lang in Hl as [Hl1 Hl2].
  apply plus_class_lang in Hd as [Hd1 Hd2].
  apply plus_class_lang in Ht as [Ht1 Ht2].
  apply isChar_lang in Ha. apply isChar_lang in Hdot. subst.
  exists l, d, t. repeat split; auto.
  apply Forall_app; split; [assumption |].
  apply Forall_app; split; assumption.
Qed.

(** [emailRegex] accepts exactly the strings [local@domain.tld] whose
    three parts are non-empty and free of white space and of ['@'] (the
    domain and the tld may contain dots). *)
Theorem emailRegex_shape (s : jsstring) :
  emailRegex_test s = true
  <-> exists local domain tld,
        s = local ++ 64%N :: domain ++ 46%N :: tld
        /\ local <> [] /\ domain <> [] /\ tld <> []
        /\ Forall (fun c => notSpaceAt c = true) (local ++ domain ++ tld).
Proof.
  split; [apply emailRegex_parts |].
  unfold emailRegex_test. rewrite matches_lang. unfold emailRegex.
  intros (l & d & t & -> & Hl & Hd & Ht & Hall).
  apply Forall_app in Hall as [Hal Hall].
  apply Forall_app in Hall as [Had Hat].
  constructor; [now apply plus_class_lang |].
  change (64%N :: d ++ 46%N :: t) with ([64%N] ++ d ++ [46%N] ++ t).
  constructor; [now apply isChar_lang |].
  constructor; [now apply plus_class_lang |].
  constructor; [now apply isChar_lang | now apply plus_class_lang].
Qed.

Lemma trimStart_blank (s : jsstring) :
  trimStart s = [] <-> Forall (fun c => isWhiteSpace c = true) s.
Proof.
  induction s as [| c s IH]; simpl.
  - split; [constructor | reflexivity].
  - destruct (isWhiteSpace c) eqn:E.
    + rewrite IH. split; [now constructor | now inversion 1].
    + split; [discriminate |]. inversion 1; congruence.
Qed.

Lemma trimStart_head (s : jsstring) (c : N) (r : jsstring) :
  trimStart s = c :: r -> isWhiteSpace c = false.
Proof.
  induction s as [| a s IH]; simpl; [discriminate |].
  destruct (isWhiteSpace a) eqn:E; [exact IH |].
  intro H. injection H as <- _. exact E.
Qed.

Lemma trimStart_keeps (s : jsstring) :
  exists pre, s = pre ++ trimStart s
              /\ Forall (fun c => isWhiteSpace c = true) pre.
Proof.
  induction s as [| a s (pre & Hs & Hpre)]; simpl.
  - exists []. split; [reflexivity | constructor].
  - destruct (isWhiteSpace a) eqn:E.
    + exists (a :: pre). split; [simpl; congruence | now constructor].
    + exists []. split; [reflexivity | constructor].
Qed.

(** [trim] gives the empty string exactly on strings of white space. *)
Lemma trim_blank_iff (s : jsstring) :
  trim s = [] <-> Forall (fun c => isWhiteSpace c = true) s.
Proof.
  unfold trim, trimEnd. split.
  - intro H.
    assert (H1 : trimStart (rev (trimStart s)) = []).
    { rewrite <- (rev_involutive (trimStart (rev (trimStart s)))).
      rewrite H. reflexivity. }
    apply trimStart_blank in H1.
    destruct (trimStart s) as [| c r] eqn:E.
    + now apply trimStart_blank.
    + exfalso. pose proof (trimStart_head s E) as Hc.
      rewrite Forall_forall in H1.
      assert (Hin : In c (rev (c :: r))) by (apply in_rev; rewrite rev_involutive; now left).
      specialize (H1 c Hin). congruence.
  - intro H. apply trimStart_blank in H. rewrite H. reflexivity.
Qed.

Lemma trimStart_fixed (s : jsstring) :
  Forall (fun c => isWhiteSpace c = false) s -> trimStart s = s.
Proof.
  destruct 1 as [| c s Hc _]; simpl; [reflexivity |]. now rewrite Hc.
Qed.

Lemma notSpaceAt_inv (c : N) :
  notSpaceAt c = true -> isWhiteSpace c = false /\ c <> 64%N.
Proof.
  unfold notSpaceAt. intro H. apply andb_true_iff in H as [H1 H2].
  apply negb_true_iff in H1. apply negb_true_iff in H2.
  apply N.eqb_neq in H2. now split.
Qed.

Lemma count_at_free (l : jsstring) :
  Forall (fun c => notSpaceAt c = true) l -> count_occ N.eq_dec l 64%N = 0%nat.
Proof.
  intro H. apply count_occ_not_In. intro Hin.
  rewrite Forall_forall in H. apply H, notSpaceAt_inv in Hin. tauto.
Qed.

(** What every accepted email has: exactly one ['@'], no white space (so
    [trim] leaves it as it is and the page's blank check passes), and at
    least five code units. *)
Theorem accepted_email_facts (s : jsstring) :
  emailRegex_test s = true ->
  count_occ N.eq_dec s 64%N = 1%nat
  /\ Forall (fun c => isWhiteSpace c = false) s
  /\ trim s = s
  /\ truthy_string (trim s) = true
  /\ (5 <= List.length s)%nat.
Proof.
  intro H. apply emailRegex_parts in H
    as (l & d & t & -> & Hl & Hd & Ht & Hall).
  apply Forall_app in Hall as [Hal Hall].
  apply Forall_app in Hall as [Had Hat].
  assert (Hws : Forall (fun c => isWhiteSpace c = false)
                  (l ++ 64%N :: d ++ 46%N :: t)).
  { apply Forall_app. split.
    - eapply Forall_impl; [| exact Hal]. intros c Hc.
      now apply notSpaceAt_inv in Hc.
    - constructor; [reflexivity |]. apply Forall_app. split.
      + eapply Forall_impl; [| exact Had]. intros c Hc.
        now apply notSpaceAt_inv in Hc.
      + constructor; [reflexivity |].
        eapply Forall_impl; [| exact Hat]. intros c Hc.
        now apply notSpaceAt_inv in Hc. }
  assert (Htrim : trim (l ++ 64%N :: d ++ 46%N :: t)
                  = l ++ 64%N :: d ++ 46%N :: t).
  { unfold trim, trimEnd. rewrite (trimStart_fixed Hws).
    rewrite trimStart_fixed; [apply rev_involutive |].
    apply Forall_rev. exact Hws. }
  split; [| split; [exact Hws | split; [exact Htrim | split]]].
  - rewrite count_occ_app, (count_at_free Hal). simpl.
    rewrite count_occ_app, (count_at_free Had). simpl.
    now rewrite (count_at_free Hat).
  - rewrite Htrim. destruct l; [congruence | reflexivity].
  - rewrite length_app. simpl. rewrite length_app. simpl.
    destruct l; [congruence |]. destruct d; [congruence |].
    destruct t; [congruence |]. simpl. lia.
Qed.

End EmailShape.

(* ===================================================================== *)
(** * The redemption dialog                                               *)
(* ===================================================================== *)

Section Dialog.

Import App Props.

(** The only world [updateWithdrawal] can be entered with by [redeem]. *)
Lemma redeem_unfold (e : WithdrawEnv) (c : Redeem.State) (w : World)
  (t : Redeem.RedeemTier) :
  Redeem.selectedTier c = Some t ->
  truthy_string (trim (Redeem.paypalEmail c)) = true ->
  (coinsProp w <? Redeem.coins t)%Z = false ->
  Redeem.redeem e c w
  = let (b, w2) :=
      updateWithdrawal e (Redeem.amount t) (Redeem.coins t)
        (Redeem.paypalEmail c)
        (Redeem.toast (lit "Processing Withdrawal...") false w) in
    if b
    then (Redeem.mkState None [] false false,
          Redeem.toast
            ([240; 376; 381; 8240]%N ++ lit " Withdrawal Successful!")
            false w2)
    else (Redeem.mkState (Redeem.selectedTier c) (Redeem.paypalEmail c)
            false (Redeem.isDialogOpen c),
          Redeem.toast (lit "Withdrawal Failed") true w2).
Proof.
  intros Ht He Hc. unfold Redeem.redeem, Redeem.handleRedeem.
  rewrite Ht, He, Hc. cbn [negb].
  destruct (updateWithdrawal e (Redeem.amount t) (Redeem.coins t)
              (Redeem.paypalEmail c)
              (Redeem.toast (lit "Processing Withdrawal...") false w))
    as [[|] w2]; unfold Redeem.setIsProcessing; simpl; rewrite ?Ht;
    reflexivity.
Qed.

Lemma updateWithdrawal_log (e : WithdrawEnv) (a cs : Z) (em : jsstring)
  (w : World) :
  exists more,
    log (snd (updateWithdrawal e a cs em w)) = log w ++ more.
Proof.
  unfold updateWithdrawal.
  destruct (user_id w); [| exists []; now rewrite app_nil_r].
  destruct (userStats w); [| exists []; now rewrite app_nil_r].
  destruct (create_id e).
  - destruct (update_ok e); simpl.
    + eexists. reflexivity.
    + eexists. rewrite <- app_assoc. reflexivity.
  - simpl. eexists. rewrite <- app_assoc. reflexivity.
Qed.

(** The only causes of the lone toast 'Missing Information'. *)
Lemma missing_information_cause (e : WithdrawEnv) (c : Redeem.State)
  (w : World) :
  log (snd (Redeem.redeem e c w))
  = log w ++ [Toast (lit "Missing Information") true] ->
  Redeem.selectedTier c = None
  \/ Forall (fun ch => isWhiteSpace ch = true) (Redeem.paypalEmail c).
Proof.
  intro H.
  destruct (Redeem.selectedTier c) as [t |] eqn:Ht; [| now left].
  right. apply trim_blank_iff.
  destruct (trim (Redeem.paypalEmail c)) as [| x xs] eqn:Etrim;
    [reflexivity | exfalso].
  destruct (coinsProp w <? Redeem.coins t)%Z eqn:Hc.
  - unfold Redeem.redeem, Redeem.handleRedeem in H.
    rewrite Ht, Etrim, Hc in H. simpl in H.
    apply app_inv_head in H. discriminate H.
  - rewrite (@redeem_unfold e c w t Ht) in H;
      [| rewrite Etrim; reflexivity | exact Hc].
    destruct (updateWithdrawal_log e (Redeem.amount t) (Redeem.coins t)
                (Redeem.paypalEmail c)
                (Redeem.toast (lit "Processing Withdrawal...") false w))
      as [more Hlog].
    destruct (updateWithdrawal e (Redeem.amount t) (Redeem.coins t)
                (Redeem.paypalEmail c)
                (Redeem.toast (lit "Processing Withdrawal...") false w))
      as [b w2].
    simpl in Hlog.
    assert (Hfinal : exists last,
               log w ++ [Toast (lit "Missing Information") true]
               = log w ++ (Toast (lit "Processing Withdrawal...") false
                             :: more ++ [last])).
    { destruct b; simpl in H; rewrite Hlog in H; rewrite <- H;
        eexists; unfold Redeem.toast; simpl;
        rewrite <- !app_assoc; simpl; reflexivity. }
    destruct Hfinal as [last Hfinal].
    apply app_inv_head in Hfinal. discriminate Hfinal.
Qed.

(** [redeem] answers with the single toast 'Missing Information' exactly
    when no tier is selected or the email is made of white space only
    (the empty email included). *)
Theorem missing_information_iff (e : WithdrawEnv) (c : Redeem.State)
  (w : World) :
  log (snd (Redeem.redeem e c w))
  = log w ++ [Toast (lit "Missing Information") true]
  <-> Redeem.selectedTier c = None
      \/ Forall (fun ch => isWhiteSpace ch = true) (Redeem.paypalEmail c).
Proof.
  split; [apply missing_information_cause |].
  intros [Hn | Hb].
  - unfold Redeem.redeem, Redeem.handleRedeem. rewrite Hn. reflexivity.
  - apply trim_blank_iff in Hb.
    unfold Redeem.redeem.
    rewrite handleRedeem_blank_email by exact Hb. reflexivity.
Qed.

(** While the dialog of a tier is open and its confirm button is enabled,
    a tier is selected and the email is not blank, so that [redeem] never
    answers 'Missing Information'. *)
Theorem confirm_enabled_passes_first_check (e : WithdrawEnv)
  (c : Redeem.State) (w : World) (tier : Redeem.RedeemTier) :
  RedeemView.dialogOpen c tier = true ->
  RedeemView.confirmDisabled c = false ->
  (exists s, Redeem.selectedTier c = Some s
             /\ Redeem.coins s = Redeem.coins tier)
  /\ Redeem.isProcessing c = false
  /\ trim (Redeem.paypalEmail c) <> []
  /\ log (snd (Redeem.redeem e c w))
     <> log w ++ [Toast (lit "Missing Information") true].
Proof.
  unfold RedeemView.dialogOpen, RedeemView.confirmDisabled.
  intros Hd Hc.
  apply andb_true_iff in Hd as [_ Hsel].
  apply orb_false_iff in Hc as [Hp He].
  apply negb_false_iff in He.
  destruct (Redeem.selectedTier c) as [s |] eqn:Hs; [| discriminate].
  apply Z.eqb_eq in Hsel.
  assert (Hne : trim (Redeem.paypalEmail c) <> [])
    by (destruct (trim (Redeem.paypalEmail c)); [discriminate | congruence]).
  split; [now exists s |]. split; [exact Hp |]. split; [exact Hne |].
  intro H. apply missing_information_cause in H.
  destruct H as [H | H]; [congruence |].
  apply trim_blank_iff in H. congruence.
Qed.

(** [handleRedeem] does not leave the form locked: either a check
    rejected the call, and the form is exactly as before, or
    [isProcessing] is [false] afterwards, whatever the payout callback did
    (resolve to either boolean, or reject). *)
Theorem isProcessing_released (onWithdrawal : Redeem.OnWithdrawal)
  (coins_ : Z) (c : Redeem.State) (w : World) :
  (fst (Redeem.handleRedeem coins_ onWithdrawal c w) = c
   /\ exists title,
        snd (Redeem.handleRedeem coins_ onWithdrawal c w)
        = emit (Toast title true) w)
  \/ Redeem.isProcessing (fst (Redeem.handleRedeem coins_ onWithdrawal c w))
     = false.
Proof.
  unfold Redeem.handleRedeem.
  destruct (Redeem.selectedTier c) as [t |];
    [| left; split; [reflexivity | eexists; reflexivity]].
  destruct (negb (truthy_string (trim (Redeem.paypalEmail c))));
    [left; split; [reflexivity | eexists; reflexivity] |].
  destruct (coins_ <? Redeem.coins t)%Z;
    [left; split; [reflexivity | eexists; reflexivity] |].
  right.
  destruct (onWithdrawal (Redeem.amount t) (Redeem.coins t)
              (Redeem.paypalEmail c)
              (Redeem.toast (lit "Processing Withdrawal...") false w))
    as [[[|] | msg] w2]; reflexivity.
Qed.

(** The final toast of [redeem] tells what happened.  An error toast
    means that the balance and cumulative-withdrawn are untouched, in the
    page and in the store, and that the form is kept for another try; the
    success toast means that the tier's coins were deducted, its amount
    added to cumulative-withdrawn, one record appended and the form
    reset. *)
Theorem final_toast_tells_outcome (e : WithdrawEnv) (c : Redeem.State)
  (w : World) :
  exists earlier title destructive,
    log (snd (Redeem.redeem e c w))
    = log w ++ earlier ++ [Toast title destructive]
    /\ (destructive = true ->
        userStats (snd (Redeem.redeem e c w)) = userStats w
        /\ Store.userStats (db (snd (Redeem.redeem e c w)))
           = Store.userStats (db w)
        /\ Redeem.selectedTier (fst (Redeem.redeem e c w))
           = Redeem.selectedTier c
        /\ Redeem.paypalEmail (fst (Redeem.redeem e c w))
           = Redeem.paypalEmail c
        /\ Redeem.isDialogOpen (fst (Redeem.redeem e c w))
           = Redeem.isDialogOpen c)
    /\ (destructive = false ->
        exists t us r,
          Redeem.selectedTier c = Some t
          /\ userStats w = Some us
          /\ option_map UserStats.totalCoins
               (userStats (snd (Redeem.redeem e c w)))
             = Some (UserStats.totalCoins us - Redeem.coins t)%Z
          /\ option_map UserStats.totalWithdrawn
               (userStats (snd (Redeem.redeem e c w)))
             = Some (UserStats.totalWithdrawn us + Redeem.amount t)%Z
          /\ Store.withdrawals (db (snd (Redeem.redeem e c w)))
             = Store.withdrawals (db w) ++ [r]
          /\ fst (Redeem.redeem e c w) = Redeem.mkState None [] false false).
Proof.
  destruct (Redeem.selectedTier c) as [t |] eqn:Ht.
  2:{ unfold Redeem.redeem, Redeem.handleRedeem. rewrite Ht.
      exists [], (lit "Missing Information"), true. simpl.
      split; [reflexivity |]. split; [auto | discriminate]. }
  destruct (truthy_string (trim (Redeem.paypalEmail c))) eqn:He.
  2:{ unfold Redeem.redeem, Redeem.handleRedeem. rewrite Ht, He.
      exists [], (lit "Missing Information"), true. simpl.
      split; [reflexivity |]. split; [auto | discriminate]. }
  destruct (coinsProp w <? Redeem.coins t)%Z eqn:Hc.
  { unfold Redeem.redeem, Redeem.handleRedeem. rewrite Ht, He, Hc.
    exists [], (lit "Insufficient Coins"), true. simpl.
    split; [reflexivity |]. split; [auto | discriminate]. }
  rewrite (@redeem_unfold e c w t Ht He Hc).
  unfold updateWithdrawal.
  change (user_id (Redeem.toast (lit "Processing Withdrawal...") false w))
    with (user_id w).
  change (userStats (Redeem.toast (lit "Processing Withdrawal...") false w))
    with (userStats w).
  destruct (user_id w) as [uid |] eqn:Hu.
  2:{ exists [Toast (lit "Processing Withdrawal...") false],
        (lit "Withdrawal Failed"), true. simpl.
      split; [now rewrite <- app_assoc |]. split; [auto | discriminate]. }
  destruct (userStats w) as [us |] eqn:Hs.
  2:{ exists [Toast (lit "Processing Withdrawal...") false],
        (lit "Withdrawal Failed"), true. simpl.
      split; [now rewrite <- app_assoc |]. split; [auto | discriminate]. }
  destruct (create_id e) as [wid |] eqn:Hcr.
  2:{ eexists [Toast (lit "Processing Withdrawal...") false; Delay 2000;
               ConsoleError _], (lit "Withdrawal Failed"), true. simpl.
      split; [rewrite <- !app_assoc; reflexivity |].
      split; [auto | discriminate]. }
  destruct (update_ok e) eqn:Ho.
  - exists [Toast (lit "Processing Withdrawal...") false; Delay 2000],
      ([240; 376; 381; 8240]%N ++ lit " Withdrawal Successful!"), false. simpl.
    split; [rewrite <- !app_assoc; reflexivity |].
    split; [discriminate |]. intros _.
    eexists t, us, _. repeat split.
  - eexists [Toast (lit "Processing Withdrawal...") false; Delay 2000;
             ConsoleError _], (lit "Withdrawal Failed"), true. simpl.
    split; [rewrite <- !app_assoc; reflexivity |].
    split; [auto | discriminate].
Qed.

(** At most one of the four tier dialogs is open, whatever the state. *)
Theorem at_most_one_dialog (c : Redeem.State) :
  (List.length (filter (RedeemView.dialogOpen c) Redeem.redeemTiers) <= 1)%nat.
Proof.
  unfold RedeemView.dialogOpen, Redeem.redeemTiers.
  destruct (Redeem.isDialogOpen c); [| simpl; lia].
  destruct (Redeem.selectedTier c) as [s |]; [| simpl; lia].
  cbn [filter andb Redeem.coins].
  destruct (Z.eqb_spec (Redeem.coins s) 5000);
    destruct (Z.eqb_spec (Redeem.coins s) 10000);
    destruct (Z.eqb_spec (Redeem.coins s) 100000);
    destruct (Z.eqb_spec (Redeem.coins s) 1000000);
    simpl; lia.
Qed.

End Dialog.

(* ===================================================================== *)
(** * Statistics records: loading, and the store behind the page          *)
(* ===================================================================== *)

Section Statistics.

Import App Page Props MoreProps.

Lemma jsstring_eqb_refl (a : jsstring) : jsstring_eqb a a = true.
Proof. unfold jsstring_eqb. destruct (list_eq_dec N.eq_dec a a); congruence. Qed.

Lemma firstn_1_nil (A : Type) (l : list A) : firstn 1 l = [] -> l = [].
Proof. destruct l; [reflexivity | discriminate]. Qed.

Lemma loadUserStats_creates (e : LoadEnv) (w : World) (uid i : jsstring)
  (t : N) :
  user_id w = Some uid -> list_ok e = true -> created e = Some (i, t) ->
  stats_of uid (db w) = [] ->
  loadUserStats e w
  = set_userStats (Some (UserStats.mk i uid 0 0 t t))
      (set_db (Store.userStats_create (db w) (UserStats.mk i uid 0 0 t t)) w).
Proof.
  intros Hu Hl Hc Hs. unfold loadUserStats, Store.userStats_list.
  rewrite Hu, Hl. fold (stats_of uid (db w)). now rewrite Hs, Hc.
Qed.

Lemma loadUserStats_finds (e : LoadEnv) (w : World) (uid : jsstring)
  (s0 : UserStats.t) (rest : list UserStats.t) :
  user_id w = Some uid -> list_ok e = true ->
  stats_of uid (db w) = s0 :: rest ->
  loadUserStats e w = set_userStats (Some s0) w.
Proof.
  intros Hu Hl Hs. unfold loadUserStats.
  rewrite Hu, Hl. unfold Store.userStats_list.
  fold (stats_of uid (db w)). now rewrite Hs.
Qed.

(** The first load of a signed-in user without a record creates one with
    zero coins and zero withdrawn, and appends it to the store; a load
    that finds a record takes the first one and leaves the store alone.
    Either way the page then holds a stored record of that user, and
    loading again changes nothing. *)
Theorem loadUserStats_lazy_once (e e' : LoadEnv) (w : World)
  (uid i : jsstring) (t : N) :
  user_id w = Some uid ->
  list_ok e = true ->
  (stats_of uid (db w) = [] -> created e = Some (i, t)) ->
  list_ok e' = true ->
  exists us,
    userStats (loadUserStats e w) = Some us
    /\ UserStats.userId us = uid
    /\ In us (Store.userStats (db (loadUserStats e w)))
    /\ (stats_of uid (db w) = [] ->
        us = UserStats.mk i uid 0 0 t t
        /\ Store.userStats (db (loadUserStats e w))
           = Store.userStats (db w) ++ [us])
    /\ (stats_of uid (db w) <> [] ->
        db (loadUserStats e w) = db w
        /\ hd_error (stats_of uid (db w)) = Some us)
    /\ Store.withdrawals (db (loadUserStats e w))
       = Store.withdrawals (db w)
    /\ loadUserStats e' (loadUserStats e w) = loadUserStats e w.
Proof.
  intros Hu Hl Hc Hl'.
  destruct (stats_of uid (db w)) as [| s0 rest] eqn:Es.
  - rewrite (loadUserStats_creates e w Hu Hl (Hc eq_refl) Es).
    exists (UserStats.mk i uid 0 0 t t).
    split; [reflexivity |]. split; [reflexivity |].
    split; [simpl; apply in_or_app; right; now left |].
    split; [intros _; split; reflexivity |].
    split; [congruence |]. split; [reflexivity |].
    rewrite (@loadUserStats_finds e' _ uid (UserStats.mk i uid 0 0 t t) []);
      [reflexivity | exact Hu | exact Hl' |].
    unfold stats_of. simpl. rewrite filter_app.
    fold (stats_of uid (db w)). rewrite Es. simpl.
    now rewrite jsstring_eqb_refl.
  - rewrite (loadUserStats_finds e w Hu Hl Es).
    assert (Hin : In s0 (stats_of uid (db w))) by (rewrite Es; now left).
    unfold stats_of in Hin. apply filter_In in Hin as [Hin Hid].
    apply jsstring_eqb_eq in Hid.
    exists s0.
    split; [reflexivity |]. split; [exact Hid |]. split; [exact Hin |].
    split; [discriminate |].
    split; [intros _; split; reflexivity |]. split; [reflexivity |].
    rewrite (@loadUserStats_finds e' _ uid s0 rest);
      [reflexivity | exact Hu | exact Hl' | exact Es].
Qed.

Lemma stats_of_update (u : jsstring) (d : Store.DB) (i : jsstring)
  (p : Store.StatsPatch) :
  List.length (stats_of u (Store.userStats_update d i p))
  = List.length (stats_of u d).
Proof.
  unfold stats_of, Store.userStats_update. simpl.
  induction (Store.userStats d) as [| r rows IH]; simpl; [reflexivity |].
  assert (Hsame :
            UserStats.userId
              (if jsstring_eqb (UserStats.id r) i
               then Store.apply_patch p r else r)
            = UserStats.userId r)
    by (destruct (jsstring_eqb (UserStats.id r) i); reflexivity).
  rewrite Hsame.
  destruct (jsstring_eqb (UserStats.userId r) u); simpl; now rewrite IH.
Qed.

Lemma one_per_user_update (d : Store.DB) (i : jsstring)
  (p : Store.StatsPatch) :
  one_per_user d -> one_per_user (Store.userStats_update d i p).
Proof. intros H u. rewrite stats_of_update. apply H. Qed.

End Statistics.

(* ===================================================================== *)
(** * The page and the store along a run                                *)
(* ===================================================================== *)

Section Ledger.

Import App Page Props MoreProps.

Lemma redeem_withdrawals (e : WithdrawEnv) (c : Redeem.State) (w : World) :
  Store.withdrawals (db (snd (Redeem.redeem e c w)))
  = Store.withdrawals (db w)
  \/ exists r,
       Store.withdrawals (db (snd (Redeem.redeem e c w)))
       = Store.withdrawals (db w) ++ [r]
       /\ Withdrawal.status r = lit "completed".
Proof.
  unfold Redeem.redeem, Redeem.handleRedeem.
  destruct (Redeem.selectedTier c) as [t |]; [| now left].
  destruct (negb (truthy_string (trim (Redeem.paypalEmail c))));
    [now left |].
  destruct (coinsProp w <? Redeem.coins t)%Z; [now left |].
  unfold updateWithdrawal.
  destruct (user_id (Redeem.toast (lit "Processing Withdrawal...") false w));
    [| now left].
  destruct (userStats (Redeem.toast (lit "Processing Withdrawal...") false w));
    [| now left].
  destruct (create_id e); [| now left].
  right. destruct (update_ok e); eexists; split; reflexivity.
Qed.

(** Withdrawal records are append-only: along every run the records that
    were in the store stay, in order, followed by new ones; every new
    record has status 'completed', and there is at most one per confirmed
    redemption. *)
Theorem withdrawals_append_only (ops : list Op) (s : Sys) :
  exists added,
    Store.withdrawals (db (world (run ops s)))
    = Store.withdrawals (db (world s)) ++ added
    /\ Forall (fun r => Withdrawal.status r = lit "completed") added
    /\ (List.length added <= List.length (filter is_confirm ops))%nat.
Proof.
  revert s. unfold run.
  induction ops as [| o ops IH]; intro s.
  - exists []. simpl. rewrite app_nil_r. repeat split; [constructor | lia].
  - cbn [fold_left].
    destruct (IH (step o s)) as (added & Hrun & Hall & Hlen).
    assert (Hstep :
              (Store.withdrawals (db (world (step o s)))
               = Store.withdrawals (db (world s)))
              \/ (is_confirm o = true
                  /\ exists r,
                       Store.withdrawals (db (world (step o s)))
                       = Store.withdrawals (db (world s)) ++ [r]
                       /\ Withdrawal.status r = lit "completed")).
    { destruct o as [u l | e | e | t | em | b | e]; cbn [step world];
        try (left; reflexivity).
      - left. unfold loadUserStats.
        destruct (user_id (world s)) as [uid |]; [| reflexivity].
        destruct (list_ok e); [| reflexivity].
        destruct (Store.userStats_list (db (world s)) uid 1); [| reflexivity].
        destruct (created e) as [[i t] |]; reflexivity.
      - left. unfold Tap.handleTap, updateCoins.
        destruct (user_id (world s)); [| reflexivity].
        destruct (userStats (world s)); [| reflexivity].
        destruct (coins_update_ok e); reflexivity.
      - pose proof (redeem_withdrawals e (redeemTab s) (world s)) as Hr.
        destruct (Redeem.redeem e (redeemTab s) (world s)) as [c w].
        simpl in *. destruct Hr as [Hr | Hr]; [now left | right].
        split; [reflexivity | exact Hr]. }
    destruct Hstep as [Hsame | (Hc & r & Happ & Hst)].
    + exists added. rewrite Hrun, Hsame. split; [reflexivity |].
      split; [exact Hall |]. simpl. destruct (is_confirm o); simpl; lia.
    + exists (r :: added). rewrite Hrun, Happ, <- app_assoc.
      split; [reflexivity |]. split; [now constructor |].
      simpl. rewrite Hc. simpl. lia.
Qed.

End Ledger.

(* ===================================================================== *)
(** * Handlers that overlap                                             *)
(* ===================================================================== *)

Section Interleaving.

Import App MoreProps Async AsyncProps.

(** ** Lists of tasks *)

Lemma nth_error_last (l : list Task) (t : Task) :
  nth_error (l ++ [t]) (List.length l) = Some t.
Proof.
  rewrite nth_error_app2 by lia. now rewrite Nat.sub_diag.
Qed.

Lemma nth_error_before (l : list Task) (t x : Task) (i : nat) :
  nth_error l i = Some x -> nth_error (l ++ [t]) i = Some x.
Proof.
  intro H. rewrite nth_error_app1; [exact H |].
  apply nth_error_Some. congruence.
Qed.

Lemma replace_split (l1 l2 : list Task) (t t' : Task) :
  replace (List.length l1) t' (l1 ++ t :: l2) = l1 ++ t' :: l2.
Proof. induction l1 as [| x l1 IH]; simpl; [reflexivity | now rewrite IH]. Qed.

Lemma replace_last (l : list Task) (t t' : Task) :
  replace (List.length l) t' (l ++ [t]) = l ++ [t'].
Proof. apply replace_split. Qed.

Lemma replace_same (l : list Task) (i : nat) (t : Task) :
  nth_error l i = Some t -> replace i t l = l.
Proof.
  revert i. induction l as [| x l IH]; intros [| i] H; simpl in *;
    try discriminate; [congruence | now rewrite IH].
Qed.

Lemma Forall_replace (P : Task -> Prop) (l : list Task) (i : nat)
  (t : Task) :
  Forall P l -> P t -> Forall P (replace i t l).
Proof.
  intros Hl Ht. revert i.
  induction Hl as [| x l Hx Hl IH]; intros [| i]; simpl;
    constructor; auto.
Qed.

Lemma set_db_same (w : World) : set_db (db w) w = w.
Proof. now destruct w. Qed.

(** The one task that [p] counts: all the others are not counted. *)
Lemma the_one (p : Task -> bool) (l : list Task) (i : nat) (t : Task) :
  (List.length (filter p l) <= 1)%nat ->
  nth_error l i = Some t ->
  p t = true ->
  exists l1 l2,
    l = l1 ++ t :: l2 /\ List.length l1 = i
    /\ Forall (fun x => p x = false) l1
    /\ Forall (fun x => p x = false) l2.
Proof.
  intros Hc Hn Hp.
  destruct (nth_error_split l i Hn) as (l1 & l2 & -> & Hlen).
  exists l1, l2. split; [reflexivity |]. split; [exact Hlen |].
  rewrite filter_app, length_app in Hc. cbn [filter] in Hc.
  rewrite Hp in Hc. cbn [List.length] in Hc.
  assert (H0 : forall l0, List.length (filter p l0) = 0%nat ->
                          Forall (fun x => p x = false) l0).
  { induction l0 as [| x l0 IH]; intro H; [constructor |].
    cbn [filter] in H. destruct (p x) eqn:E; [discriminate |].
    constructor; auto. }
  split; apply H0; lia.
Qed.

Lemma nth_error_end (l : list Task) : nth_error l (List.length l) = None.
Proof. apply nth_error_None. lia. Qed.

Lemma nth_error_first_of_two (l : list Task) (a b : Task) :
  nth_error ((l ++ [a]) ++ [b]) (List.length l) = Some a.
Proof. apply nth_error_before, nth_error_last. Qed.

Lemma nth_error_second_of_two (l : list Task) (a b : Task) :
  nth_error ((l ++ [a]) ++ [b]) (S (List.length l)) = Some b.
Proof.
  replace (S (List.length l)) with (List.length (l ++ [a]))
    by (rewrite length_app; simpl; lia).
  apply nth_error_last.
Qed.

Lemma replace_first_of_two (l : list Task) (a a' b : Task) :
  replace (List.length l) a' ((l ++ [a]) ++ [b]) = (l ++ [a']) ++ [b].
Proof. rewrite <- !app_assoc. apply replace_split. Qed.

Lemma replace_second_of_two (l : list Task) (a b b' : Task) :
  replace (S (List.length l)) b' ((l ++ [a]) ++ [b]) = (l ++ [a]) ++ [b'].
Proof.
  replace (S (List.length l)) with (List.length (l ++ [a]))
    by (rewrite length_app; simpl; lia).
  apply replace_last.
Qed.

(** ** A handler that runs alone *)

Lemma run_cons (o : Op) (ops : list Op) (s : Sys) :
  run (o :: ops) s = run ops (step o s).
Proof. reflexivity. Qed.

Lemma run_nil (s : Sys) : run [] s = s.
Proof. reflexivity. Qed.

(** Execution of a run from a known state, one step at a time. *)
Ltac exec_op :=
  rewrite run_cons;
  cbn [step world pending spawn];
  rewrite ?nth_error_last, ?nth_error_end,
    ?nth_error_first_of_two, ?nth_error_second_of_two;
  cbn [execute resume elapse world pending db userStats set_db set_userStats
       emit user loading log];
  rewrite ?replace_last, ?replace_first_of_two, ?replace_second_of_two.

Ltac alone := repeat exec_op; rewrite ?run_nil.

Lemma coins_alone_run (e : CoinsEnv) (n : Z) (s : Sys) :
  run (coins_alone e n (List.length (pending s))) s
  = mkSys (App.updateCoins e n (world s))
      (match user_id (world s), userStats (world s) with
       | Some _, Some _ => pending s ++ [Finished]
       | _, _ => pending s
       end).
Proof.
  destruct s as [w l]. unfold coins_alone, App.updateCoins.
  rewrite run_cons. cbn [step]. unfold Async.updateCoins.
  cbn [world pending].
  destruct (user_id w) as [uid |]; [| alone; reflexivity].
  destruct (userStats w) as [us |]; [| alone; reflexivity].
  destruct (coins_update_ok e); alone; [reflexivity |].
  now rewrite set_db_same.
Qed.

Lemma tap_alone_run (e : CoinsEnv) (s : Sys) :
  run (tap_alone e (List.length (pending s))) s
  = run (coins_alone e (coinsProp (world s) + 100) (List.length (pending s)))
      s.
Proof. reflexivity. Qed.

Lemma load_alone_run (e : LoadEnv) (s : Sys) :
  run (load_alone e (List.length (pending s))) s
  = mkSys (App.loadUserStats e (world s))
      (match user_id (world s) with
       | Some _ => pending s ++ [Finished]
       | None => pending s
       end).
Proof.
  destruct s as [w l]. unfold load_alone, App.loadUserStats.
  rewrite run_cons. cbn [step]. unfold Async.loadUserStats.
  cbn [world pending].
  destruct (user_id w) as [uid |]; [| alone; reflexivity].
  destruct (list_ok e);
    destruct (Store.userStats_list (db w) uid 1) as [| s0 rest] eqn:El;
    destruct (created e) as [[i t] |];
    exec_op; rewrite ?El; alone; rewrite ?set_db_same; reflexivity.
Qed.

Lemma withdrawal_alone_run (e : WithdrawEnv) (a cs : Z) (em : jsstring)
  (s : Sys) :
  run (withdrawal_alone e a cs em (List.length (pending s))) s
  = mkSys (snd (App.updateWithdrawal e a cs em (world s)))
      (match user_id (world s), userStats (world s) with
       | Some _, Some _ => pending s ++ [Finished]
       | _, _ => pending s
       end).
Proof.
  destruct s as [w l]. unfold withdrawal_alone, App.updateWithdrawal.
  rewrite run_cons. cbn [step]. unfold Async.updateWithdrawal.
  cbn [world pending].
  destruct (user_id w) as [uid |]; [| alone; reflexivity].
  destruct (userStats w) as [us |]; [| alone; reflexivity].
  destruct (create_id e) as [wid |]; destruct (update_ok e); alone;
    cbn [snd]; destruct w; reflexivity.
Qed.

Lemma in_flight_Finished (w w' : World) (l : list Task) :
  in_flight (mkSys w' (l ++ [Finished])) = in_flight (mkSys w l).
Proof.
  unfold in_flight. cbn [pending]. rewrite filter_app, length_app.
  cbn. lia.
Qed.

(** A handler that runs alone, from its call to its end with nothing in
    between, does to the page and the store what the functions of module
    [App] do in one step; it has returned at the end, so that as many
    handlers are in flight as before. *)
Theorem alone_as_atomic (s : Sys) :
  let k := List.length (pending s) in
  (forall e,
     world (run (load_alone e k) s) = App.loadUserStats e (world s)
     /\ in_flight (run (load_alone e k) s) = in_flight s)
  /\ (forall e n,
        world (run (coins_alone e n k) s) = App.updateCoins e n (world s)
        /\ in_flight (run (coins_alone e n k) s) = in_flight s)
  /\ (forall e,
        world (run (tap_alone e k) s)
        = Tap.handleTap (coinsProp (world s)) (App.updateCoins e) (world s)
        /\ in_flight (run (tap_alone e k) s) = in_flight s)
  /\ (forall e a cs em,
        world (run (withdrawal_alone e a cs em k) s)
        = snd (App.updateWithdrawal e a cs em (world s))
        /\ in_flight (run (withdrawal_alone e a cs em k) s) = in_flight s).
Proof.
  intro k. subst k.
  assert (Hf : forall w' (l' : list Task),
             l' = pending s ++ [Finished] \/ l' = pending s ->
             in_flight (mkSys w' l') = in_flight s).
  { intros w' l' [-> | ->]; destruct s as [w l]; cbn [pending].
    - apply in_flight_Finished.
    - reflexivity. }
  split; [| split; [| split]].
  - intro e. rewrite load_alone_run. split; [reflexivity |].
    apply Hf. destruct (user_id (world s)); auto.
  - intros e n. rewrite coins_alone_run. split; [reflexivity |].
    apply Hf. destruct (user_id (world s)), (userStats (world s)); auto.
  - intro e. rewrite tap_alone_run, coins_alone_run. split; [reflexivity |].
    apply Hf. destruct (user_id (world s)), (userStats (world s)); auto.
  - intros e a cs em. rewrite withdrawal_alone_run. split; [reflexivity |].
    apply Hf. destruct (user_id (world s)), (userStats (world s)); auto.
Qed.

(** ** One record per user *)

Lemma load_inv_same_count (d d' : Store.DB) (t : Task) :
  (forall u, List.length (stats_of u d') = List.length (stats_of u d)) ->
  load_inv d t -> load_inv d' t.
Proof.
  intros Hc. unfold load_inv.
  destruct t as [uid [[[| s0 l] |] |] | uid [[r |] |] | | | | |];
    try (intros _; exact I); intro H; apply length_zero_iff_nil;
    rewrite Hc, H; reflexivity.
Qed.

Lemma loads_sound_same_count (w : World) (l : list Task) (d : Store.DB) :
  (forall u, List.length (stats_of u d) = List.length (stats_of u (db w))) ->
  one_per_user (db w) ->
  Forall (load_inv (db w)) l ->
  one_per_user d /\ Forall (load_inv d) l.
Proof.
  intros Hc H1 Hl. split.
  - intro u. rewrite Hc. apply H1.
  - eapply Forall_impl; [| exact Hl].
    intros t. now apply load_inv_same_count.
Qed.

Lemma load_inv_not_load (d : Store.DB) (t : Task) :
  is_load t = false -> load_inv d t.
Proof. destruct t; try discriminate; intros _; exact I. Qed.

Lemma execute_loads_sound (r : Reaction) (s : Sys) (i : nat) (t : Task) :
  loads_sound s ->
  (loads_in_flight s <= 1)%nat ->
  nth_error (pending s) i = Some t ->
  loads_sound
    (mkSys (set_db (fst (execute r t (db (world s)))) (world s))
       (replace i (snd (execute r t (db (world s)))) (pending s))).
Proof.
  intros [H1 Hl] Hc Hn. unfold loads_sound. cbn [world pending set_db db].
  assert (Ht : load_inv (db (world s)) t).
  { rewrite Forall_forall in Hl. apply Hl. eapply nth_error_In; eauto. }
  assert (Hsame :
            forall t',
              load_inv (db (world s)) t' ->
              one_per_user (db (world s))
              /\ Forall (load_inv (db (world s))) (replace i t' (pending s))).
  { intros t' Ht'. split; [exact H1 | now apply Forall_replace]. }
  assert (Hupd :
            forall t' j p,
              load_inv (db (world s)) t' ->
              one_per_user (Store.userStats_update (db (world s)) j p)
              /\ Forall (load_inv (Store.userStats_update (db (world s)) j p))
                   (replace i t' (pending s))).
  { intros t' j p Ht'.
    apply (@loads_sound_same_count (world s));
      [intro u; apply stats_of_update | exact H1
      | now apply Forall_replace]. }
  destruct t as [uid [a |] | uid [a |] | us n u [a |] | uid us am cs em
                | uid us am cs em b c [a |] | us nc nw u [a |] |];
    destruct r as [| | j ts]; cbn [execute fst snd];
    try (apply Hsame; exact Ht); try (apply Hsame; exact I);
    try (apply Hupd; exact I).
  - (* list answered *)
    apply Hsame. unfold load_inv.
    destruct (Store.userStats_list (db (world s)) uid 1) eqn:El; [| exact I].
    unfold Store.userStats_list in El. now apply firstn_1_nil in El.
  - (* create executed: the only load in flight *)
    destruct (@the_one is_load (pending s) i (StatsCreate uid None) Hc Hn
                eq_refl) as (l1 & l2 & Hp & Hlen & Hl1 & Hl2).
    rewrite Hp, <- Hlen, replace_split. split.
    + intro v. unfold stats_of, Store.userStats_create. cbn.
      rewrite filter_app, length_app. cbn.
      destruct (jsstring_eqb uid v) eqn:E.
      * apply jsstring_eqb_eq in E. subst v.
        fold (stats_of uid (db (world s))). cbn in Ht. rewrite Ht.
        cbn. lia.
      * cbn. rewrite Nat.add_0_r. apply H1.
    + apply Forall_app. split; [| constructor; [exact I |]].
      * eapply Forall_impl; [| exact Hl1].
        intros x. apply load_inv_not_load.
      * eapply Forall_impl; [| exact Hl2].
        intros x. apply load_inv_not_load.
Qed.

Lemma step_loads_sound (o : Op) (s : Sys) :
  loads_sound s ->
  (loads_in_flight s <= 1)%nat ->
  loads_sound (step o s).
Proof.
  intros Hs Hc. pose proof Hs as [H1 Hl].
  destruct o as [u l | | n now | now | a cs em | i r | i b c | i now];
    cbn [step].
  - exact Hs.
  - unfold Async.loadUserStats. destruct (user_id (world s)); [| exact Hs].
    split; [exact H1 |]. cbn. apply Forall_app. split; [exact Hl |].
    constructor; [exact I | constructor].
  - unfold Async.updateCoins. destruct (user_id (world s)); [| exact Hs].
    destruct (userStats (world s)); [| exact Hs].
    split; [exact H1 |]. cbn. apply Forall_app. split; [exact Hl |].
    constructor; [exact I | constructor].
  - unfold Async.handleTap, Async.updateCoins.
    destruct (user_id (world s)); [| exact Hs].
    destruct (userStats (world s)); [| exact Hs].
    split; [exact H1 |]. cbn. apply Forall_app. split; [exact Hl |].
    constructor; [exact I | constructor].
  - unfold Async.updateWithdrawal. destruct (user_id (world s)); [| exact Hs].
    destruct (userStats (world s)); [| exact Hs].
    split; [exact H1 |]. cbn. apply Forall_app. split; [exact Hl |].
    constructor; [exact I | constructor].
  - destruct (nth_error (pending s) i) as [t |] eqn:Hn; [| exact Hs].
    pose proof (@execute_loads_sound r s i t Hs Hc Hn) as H.
    destruct (execute r t (db (world s))) as [d t']. exact H.
  - destruct (nth_error (pending s) i) as [t |] eqn:Hn; [| exact Hs].
    assert (Ht : load_inv (db (world s)) t).
    { rewrite Forall_forall in Hl. apply Hl. eapply nth_error_In; eauto. }
    split; [exact H1 |]. cbn. apply Forall_replace; [exact Hl |].
    destruct t; try exact Ht; exact I.
  - destruct (nth_error (pending s) i) as [t |] eqn:Hn; [| exact Hs].
    assert (Ht : load_inv (db (world s)) t).
    { rewrite Forall_forall in Hl. apply Hl. eapply nth_error_In; eauto. }
    destruct t as [uid [[[| s0 l] |] |] | uid [[r |] |] | us n u [[|] |]
                  | uid us am cs em
                  | uid us am cs em b c [[|] |] | us nc nw u [[|] |] |];
      cbn [resume]; (split; [exact H1 |]); cbn;
      apply Forall_replace; try exact Hl; try exact I; exact Ht.
Qed.

Lemma run_loads_sound (ops : list Op) (s : Sys) :
  loads_sound s ->
  always (fun s' => (loads_in_flight s' <=? 1)%nat) ops s = true ->
  loads_sound (run ops s).
Proof.
  revert s. unfold run.
  induction ops as [| o ops IH]; intros s Hs Ha; [exact Hs |].
  cbn [always] in Ha. apply andb_true_iff in Ha as [Hc Ha].
  apply Nat.leb_le in Hc. cbn [fold_left].
  apply IH; [now apply step_loads_sound | exact Ha].
Qed.

(** From a store in which no user has two statistics records, and with
    no call of [loadUserStats] in flight: as long as at most one such call
    is in flight at any moment, no user gets a second record, whatever
    else the page does and however taps and withdrawals overlap. *)
Theorem one_record_per_user (ops : list Op) (s : Sys) :
  one_per_user (db (world s)) ->
  loads_in_flight s = 0%nat ->
  always (fun s' => (loads_in_flight s' <=? 1)%nat) ops s = true ->
  one_per_user (db (world (run ops s))).
Proof.
  intros H1 H0 Ha. apply run_loads_sound; [| exact Ha].
  split; [exact H1 |].
  assert (Hnone : forall l, List.length (filter is_load l) = 0%nat ->
                            Forall (load_inv (db (world s))) l).
  { induction l as [| x l IH]; intro H; [constructor |].
    cbn [filter] in H. destruct (is_load x) eqn:E; [discriminate |].
    constructor; [now apply load_inv_not_load | auto]. }
  apply Hnone. exact H0.
Qed.


(** ** The page and the store *)

Lemma backed_same (w w' : World) :
  userStats w' = userStats w ->
  Store.userStats (db w') = Store.userStats (db w) ->
  backed w -> backed w'.
Proof.
  intros Hs Hd Hb us E. rewrite Hs in E.
  destruct (Hb us E) as (r & Hin & Hrest). exists r. rewrite Hd. now split.
Qed.

Lemma backed_more (w w' : World) :
  userStats w' = userStats w ->
  (forall r, In r (Store.userStats (db w)) -> In r (Store.userStats (db w'))) ->
  backed w -> backed w'.
Proof.
  intros Hs Hd Hb us E. rewrite Hs in E.
  destruct (Hb us E) as (r & Hin & Hrest). exists r. split; auto.
Qed.

Lemma backed_set (w : World) (r : UserStats.t) :
  In r (Store.userStats (db w)) -> backed (set_userStats (Some r) w).
Proof.
  intros Hin us E. cbn in E. injection E as <-. exists r. cbn. tauto.
Qed.

Lemma backed_stored (w : World) (us : UserStats.t) (n wd : Z) :
  stored (db w) (UserStats.id us) n wd ->
  backed
    (set_userStats
       (Some (UserStats.mk (UserStats.id us) (UserStats.userId us) n wd
                (UserStats.createdAt us) (UserStats.updatedAt us)))
       w).
Proof.
  intros (r & Hin & Hid & Hc & Hw) us' E. cbn in E. injection E as <-.
  exists r. cbn. tauto.
Qed.

Lemma stored_after_update (w : World) (us : UserStats.t) (n wd : Z)
  (p : Store.StatsPatch) :
  backed w -> userStats w = Some us ->
  Store.p_totalCoins p = Some n ->
  (Store.p_totalWithdrawn p = Some wd
   \/ (Store.p_totalWithdrawn p = None
       /\ wd = UserStats.totalWithdrawn us)) ->
  stored (Store.userStats_update (db w) (UserStats.id us) p)
    (UserStats.id us) n wd.
Proof.
  intros Hb Hs Hn Hw. destruct (Hb us Hs) as (r & Hin & Hid & Hc & Hwd).
  exists (Store.apply_patch p r). split.
  - cbn. apply in_map_iff. exists r. split; [| exact Hin].
    now rewrite Hid, jsstring_eqb_refl.
  - unfold Store.apply_patch. cbn. rewrite Hn. split; [exact Hid |].
    split; [reflexivity |].
    destruct Hw as [Hw | [Hw ->]]; rewrite Hw; [reflexivity | exact Hwd].
Qed.

Lemma task_inv_same (w w' : World) (t : Task) :
  userStats w' = userStats w ->
  Store.userStats (db w') = Store.userStats (db w) ->
  task_inv w t -> task_inv w' t.
Proof.
  intros Hs Hd.
  assert (Hb : backed w -> backed w') by now apply backed_same.
  unfold task_inv, stored. rewrite Hs, Hd.
  destruct t as [uid [[l |] |] | uid [[r |] |] | us n u [[|] |]
                | uid us am cs em
                | uid us am cs em b c a | us nc nw u [[|] |] |];
    tauto.
Qed.

Lemma quiet_backed_same (s : Sys) (w' : World) :
  userStats w' = userStats (world s) ->
  Store.userStats (db w') = Store.userStats (db (world s)) ->
  quiet_backed s -> quiet_backed (mkSys w' (pending s)).
Proof.
  intros Hs Hd [Hq Hl]. split.
  - intro H0. apply (@backed_same (world s)); auto.
  - cbn. eapply Forall_impl; [| exact Hl].
    intros t. now apply task_inv_same.
Qed.

Lemma finished_is_Finished (t : Task) :
  negb (finished t) = false -> t = Finished.
Proof. destruct t; try discriminate; reflexivity. Qed.

Lemma quiet_backed_one (w' : World) (l1 l2 : list Task) (t' : Task) :
  Forall (fun x => negb (finished x) = false) l1 ->
  Forall (fun x => negb (finished x) = false) l2 ->
  task_inv w' t' ->
  (finished t' = true -> backed w') ->
  quiet_backed (mkSys w' (l1 ++ t' :: l2)).
Proof.
  intros H1 H2 Ht Hf. split.
  - unfold in_flight. cbn [pending world]. intro H0. apply Hf.
    rewrite filter_app, length_app in H0. cbn [filter] in H0.
    destruct (finished t'); [reflexivity |]. cbn in H0. lia.
  - cbn [pending world].
    assert (Hall : forall l, Forall (fun x => negb (finished x) = false) l ->
                             Forall (task_inv w') l).
    { intros l Hl. eapply Forall_impl; [| exact Hl].
      intros x Hx. apply finished_is_Finished in Hx. subst x. exact I. }
    apply Forall_app. split; [now apply Hall |].
    constructor; [exact Ht | now apply Hall].
Qed.

Lemma quiet_backed_spawn (s : Sys) (w' : World) (t : Task) :
  userStats w' = userStats (world s) ->
  Store.userStats (db w') = Store.userStats (db (world s)) ->
  finished t = false ->
  (in_flight (mkSys w' (pending s ++ [t])) <= 1)%nat ->
  (backed (world s) -> task_inv w' t) ->
  quiet_backed s ->
  quiet_backed (mkSys w' (pending s ++ [t])).
Proof.
  intros Hs Hd Hf Hc Ht [Hq Hl].
  unfold in_flight in Hc, Hq. cbn [pending] in Hc.
  rewrite filter_app, length_app in Hc. cbn [filter] in Hc.
  rewrite Hf in Hc. cbn in Hc.
  split.
  - unfold in_flight. cbn [pending]. rewrite filter_app, length_app.
    cbn [filter]. rewrite Hf. cbn. lia.
  - cbn [pending world]. apply Forall_app. split.
    + eapply Forall_impl; [| exact Hl]. intros x. now apply task_inv_same.
    + constructor; [| constructor]. apply Ht, Hq. lia.
Qed.

Lemma userStats_list_In (d : Store.DB) (uid : jsstring) (s0 : UserStats.t) :
  hd_error (Store.userStats_list d uid 1) = Some s0 ->
  In s0 (Store.userStats d).
Proof.
  intro H.
  assert (Hin : In s0 (Store.userStats_list d uid 1)).
  { destruct (Store.userStats_list d uid 1); [discriminate |].
    injection H as ->. now left. }
  unfold Store.userStats_list in Hin. apply In_firstn in Hin.
  now apply filter_In in Hin.
Qed.

Lemma step_quiet_backed (o : Op) (s : Sys) :
  quiet_backed s ->
  (in_flight s <= 1)%nat ->
  (in_flight (step o s) <= 1)%nat ->
  quiet_backed (step o s).
Proof.
  intros Hs Hc Hc'. pose proof Hs as [Hq Hl].
  destruct o as [u l | | n now | now | a cs em | i r | i b c | i now];
    cbn [step] in *.
  - now apply quiet_backed_same.
  - unfold Async.loadUserStats in *.
    destruct (user_id (world s)); [| exact Hs].
    apply quiet_backed_spawn; auto.
  - unfold Async.updateCoins in *.
    destruct (user_id (world s)); [| exact Hs].
    destruct (userStats (world s)) eqn:E; [| exact Hs].
    apply quiet_backed_spawn; auto. intro Hb. cbn. now split.
  - unfold Async.handleTap, Async.updateCoins in *.
    destruct (user_id (world s)); [| exact Hs].
    destruct (userStats (world s)) eqn:E; [| exact Hs].
    apply quiet_backed_spawn; auto. intro Hb. cbn. now split.
  - unfold Async.updateWithdrawal in *.
    destruct (user_id (world s)); [| exact Hs].
    destruct (userStats (world s)) eqn:E; [| exact Hs].
    apply quiet_backed_spawn; auto. intro Hb. cbn.
    split; [| exact E]. now apply (@backed_same (world s)).
  - destruct (nth_error (pending s) i) as [t |] eqn:Hn; [| exact Hs].
    clear Hc'.
    assert (Ht : task_inv (world s) t).
    { rewrite Forall_forall in Hl. apply Hl. eapply nth_error_In; eauto. }
    assert (Hidle :
              quiet_backed
                (mkSys (set_db (db (world s)) (world s))
                   (replace i t (pending s)))).
    { rewrite (replace_same _ _ Hn). now apply quiet_backed_same. }
    destruct t as [uid [ans |] | uid [ans |] | us n u [ans |]
                  | uid us am cs em
                  | uid us am cs em b c [ans |] | us nc nw u [ans |] |];
      destruct r as [| | j ts]; cbn [execute]; try exact Hidle.
    all: match type of Hn with
         | nth_error _ _ = Some ?t =>
             destruct (@the_one (fun x => negb (finished x)) (pending s) i t
                         Hc Hn eq_refl) as (l1 & l2 & Hp & Hlen & Hl1 & Hl2)
         end.
    all: rewrite Hp, <- Hlen, replace_split.
    all: apply quiet_backed_one; auto; try discriminate.
    all: cbn [task_inv] in *.
    all: first
           [ now apply (@backed_same (world s))
           | split;
             [ now apply (@backed_same (world s))
             | intros s0 H0; cbn; now apply userStats_list_In in H0 ]
           | split;
             [ apply (@backed_more (world s)); auto;
               intros x Hx; cbn; apply in_or_app; now left
             | cbn; apply in_or_app; right; now left ]
           | destruct Ht as [Hb Hu]; split;
             [ now apply (@backed_same (world s)) | exact Hu ]
           | destruct Ht as [Hb Hu]; cbn [set_db db];
             apply stored_after_update;
             [ exact Hb | exact Hu | reflexivity
             | first [ left; reflexivity | right; split; reflexivity ] ] ].
  - destruct (nth_error (pending s) i) as [t |] eqn:Hn; [| exact Hs].
    assert (Ht : task_inv (world s) t).
    { rewrite Forall_forall in Hl. apply Hl. eapply nth_error_In; eauto. }
    destruct t as [uid ans | uid ans | us n u ans | uid us am cs em
                  | uid us am cs em b0 c0 ans | us nc nw u ans |];
      cbn [elapse];
      try (rewrite (replace_same _ _ Hn); destruct s; exact Hs).
    apply Forall_replace with (i := i)
                              (t := RecordCreate uid us am cs em b c None)
      in Hl; [| exact Ht].
    split; [| exact Hl].
    intro H0. exfalso. clear - H0 Hn.
    unfold in_flight in H0. cbn [pending] in H0.
    destruct (nth_error_split _ _ Hn) as (l1 & l2 & Hp & Hlen).
    rewrite Hp, <- Hlen, replace_split, filter_app, length_app in H0.
    cbn in H0. lia.
  - destruct (nth_error (pending s) i) as [t |] eqn:Hn; [| exact Hs].
    clear Hc'.
    assert (Ht : task_inv (world s) t).
    { rewrite Forall_forall in Hl. apply Hl. eapply nth_error_In; eauto. }
    assert (Hidle : quiet_backed (mkSys (world s) (replace i t (pending s)))).
    { rewrite (replace_same _ _ Hn). destruct s. exact Hs. }
    destruct t as [uid [[[| s0 l] |] |] | uid [[r |] |] | us n u [[|] |]
                  | uid us am cs em
                  | uid us am cs em b c [[|] |] | us nc nw u [[|] |] |];
      cbn [resume]; try exact Hidle.
    all: match type of Hn with
         | nth_error _ _ = Some ?t =>
             destruct (@the_one (fun x => negb (finished x)) (pending s) i t
                         Hc Hn eq_refl) as (l1 & l2 & Hp & Hlen & Hl1 & Hl2)
         end.
    all: rewrite Hp, <- Hlen, replace_split.
    all: apply quiet_backed_one; auto; try discriminate.
    all: cbn [task_inv] in Ht |- *.
    all: first
           [ exact I
           | exact Ht
           | exact (proj1 Ht)
           | intros _; apply (@backed_same (world s));
             [ reflexivity | reflexivity
             | first [ exact Ht | exact (proj1 Ht) ] ]
           | intros _; apply backed_set;
             first [ exact (proj2 Ht) | apply (proj2 Ht); reflexivity ]
           | intros _; now apply backed_stored ].
Qed.

Lemma run_quiet_backed (ops : list Op) (s : Sys) :
  quiet_backed s ->
  always (fun s' => (in_flight s' <=? 1)%nat) ops s = true ->
  quiet_backed (run ops s).
Proof.
  revert s. unfold run.
  induction ops as [| o ops IH]; intros s Hs Ha; [exact Hs |].
  cbn [always] in Ha. apply andb_true_iff in Ha as [Hc Ha].
  apply Nat.leb_le in Hc. cbn [fold_left].
  apply IH; [| exact Ha]. apply step_quiet_backed; auto.
  destruct ops; cbn [always] in Ha;
    [| apply andb_true_iff in Ha as [Ha _]]; now apply Nat.leb_le in Ha.
Qed.

(** From a page whose figures are those of a stored record, and with no
    handler in flight: as long as at most one handler is in flight at any
    moment, the figures of the page are again those of a stored record
    with the same id whenever no handler is in flight. *)
Theorem page_figures_are_stored (ops : list Op) (s : Sys) :
  backed (world s) ->
  in_flight s = 0%nat ->
  always (fun s' => (in_flight s' <=? 1)%nat) ops s = true ->
  in_flight (run ops s) = 0%nat ->
  backed (world (run ops s)).
Proof.
  intros Hb H0 Ha Hend.
  assert (Hs : quiet_backed s).
  { split; [intros _; exact Hb |].
    assert (Hall : forall l,
               List.length (filter (fun t => negb (finished t)) l) = 0%nat ->
               Forall (task_inv (world s)) l).
    { induction l as [| x l IH]; intro H; [constructor |].
      cbn [filter] in H. destruct (negb (finished x)) eqn:E;
        [discriminate |].
      constructor; [| auto]. apply finished_is_Finished in E. now subst x. }
    apply Hall. exact H0. }
  destruct (@run_quiet_backed ops s Hs Ha) as [Hq _]. now apply Hq.
Qed.

(** ** Taps *)

Lemma stored_taps_cons (e : CoinsEnv) (envs : list CoinsEnv) :
  stored_taps (e :: envs)
  = ((if coins_update_ok e then 1 else 0) + stored_taps envs)%Z.
Proof.
  unfold stored_taps. cbn [filter].
  destruct (coins_update_ok e); cbn [List.length];
    rewrite ?Nat2Z.inj_succ; lia.
Qed.

Lemma run_app (ops ops' : list Op) (s : Sys) :
  run (ops ++ ops') s = run ops' (run ops s).
Proof. unfold run. apply fold_left_app. Qed.

Lemma with_coins_eq (n m : Z) (us : UserStats.t) :
  n = m -> Some (with_coins n us) = Some (with_coins m us).
Proof. now intros ->. Qed.

Lemma with_coins_same (us : UserStats.t) (n : Z) :
  n = UserStats.totalCoins us -> Some us = Some (with_coins n us).
Proof. intros ->. now destruct us. Qed.

Lemma tap_alone_step (e : CoinsEnv) (s : Sys) (uid : jsstring)
  (us : UserStats.t) :
  user_id (world s) = Some uid ->
  userStats (world s) = Some us ->
  exists w',
    run (tap_alone e (List.length (pending s))) s
    = mkSys w' (pending s ++ [Finished])
    /\ user_id w' = Some uid
    /\ userStats w'
       = Some (with_coins
                 (UserStats.totalCoins us
                  + 100 * (if coins_update_ok e then 1 else 0))
                 us)
    /\ Store.withdrawals (db w') = Store.withdrawals (db (world s)).
Proof.
  intros Hu Hs. rewrite tap_alone_run, coins_alone_run, Hu, Hs.
  eexists. split; [reflexivity |].
  unfold App.updateCoins. rewrite Hu, Hs, (@coinsProp_balance (world s) us Hs).
  destruct (coins_update_ok e).
  - split; [exact Hu |]. split; [| reflexivity].
    cbn. apply with_coins_eq. lia.
  - split; [exact Hu |]. split; [| reflexivity].
    cbn. rewrite Hs. apply with_coins_same. lia.
Qed.

(** Taps made in turn add up: when each tap of a signed-in user with
    loaded statistics is answered before the next is made, the balance
    grows by 100 for each tap whose store update resolved (a tap whose
    update rejected is lost); cumulative-withdrawn and the withdrawal
    records stay as they are, and no handler is left in flight. *)
Theorem taps_add_up (envs : list CoinsEnv) (s : Sys) (uid : jsstring)
  (us : UserStats.t) :
  user_id (world s) = Some uid ->
  userStats (world s) = Some us ->
  let s' := run (taps_in_turn envs (List.length (pending s))) s in
  userStats (world s')
  = Some (with_coins (UserStats.totalCoins us + 100 * stored_taps envs) us)
  /\ Store.withdrawals (db (world s')) = Store.withdrawals (db (world s))
  /\ in_flight s' = in_flight s.
Proof.
  revert s us.
  induction envs as [| e envs IH]; intros s us Hu Hs s'; subst s'.
  - cbn [taps_in_turn]. rewrite run_nil, Hs. unfold stored_taps. cbn.
    split; [| split; reflexivity].
    apply with_coins_same. lia.
  - cbn [taps_in_turn]. rewrite run_app, stored_taps_cons.
    destruct (@tap_alone_step e s uid us Hu Hs)
      as (w' & Hrun & Hu' & Hs' & Hw').
    rewrite Hrun.
    pose proof (IH (mkSys w' (pending s ++ [Finished])) _ Hu' Hs')
      as (H1 & H2 & H3).
    cbn [world pending] in H1, H2, H3.
    rewrite length_app in H1, H2, H3. cbn [List.length] in H1, H2, H3.
    rewrite Nat.add_1_r in H1, H2, H3.
    rewrite H1, H2, H3, Hw'. split; [| split; [reflexivity |]].
    + change (with_coins ?n (with_coins ?m us)) with (with_coins n us).
      apply with_coins_eq. unfold with_coins. cbn [UserStats.totalCoins]. lia.
    + destruct s as [w l]. apply in_flight_Finished.
Qed.

Lemma update_row (d : Store.DB) (i : jsstring) (p : Store.StatsPatch)
  (r' : UserStats.t) :
  In r' (Store.userStats (Store.userStats_update d i p)) ->
  UserStats.id r' = i ->
  exists r,
    In r (Store.userStats d) /\ UserStats.id r = i
    /\ r' = Store.apply_patch p r.
Proof.
  cbn. intros Hin Hid. apply in_map_iff in Hin as (r & Hr & Hin).
  destruct (jsstring_eqb (UserStats.id r) i) eqn:E.
  - apply jsstring_eqb_eq in E. exists r. now split.
  - exfalso. subst r'. unfold jsstring_eqb in E.
    destruct (list_eq_dec N.eq_dec (UserStats.id r) i); [discriminate |].
    contradiction.
Qed.

(** Two taps made from the same render do not add up: both send
    [coins + 100] with the [coins] of that render, so when both updates
    have resolved the page and every stored record with that id hold 100
    coins more, not 200. *)
Theorem taps_from_one_render (s : Sys) (uid : jsstring) (us : UserStats.t)
  (n1 n2 : N) :
  user_id (world s) = Some uid ->
  userStats (world s) = Some us ->
  let k := List.length (pending s) in
  let s' :=
    run [ Call_handleTap n1; Call_handleTap n2;
          Served k Resolves; Served (S k) Resolves;
          Resumed k 0; Resumed (S k) 0 ] s in
  userStats (world s')
  = Some (with_coins (UserStats.totalCoins us + 100) us)
  /\ (forall r,
        In r (Store.userStats (db (world s'))) ->
        UserStats.id r = UserStats.id us ->
        UserStats.totalCoins r = (UserStats.totalCoins us + 100)%Z)
  /\ pending s' = (pending s ++ [Finished]) ++ [Finished].
Proof.
  intros Hu Hs k s'. subst k. destruct s as [w l]. cbn [world pending] in *.
  eassert (Hrun : s' = _).
  { subst s'.
    rewrite run_cons. cbn [step]. unfold Async.handleTap, Async.updateCoins.
    cbn [world pending spawn]. rewrite Hu, Hs.
    rewrite run_cons. cbn [step]. unfold Async.handleTap, Async.updateCoins.
    cbn [world pending spawn]. rewrite Hu, Hs. cbn [spawn world pending].
    alone. reflexivity. }
  rewrite Hrun, (@coinsProp_balance w us Hs).
  cbn [world pending db userStats set_userStats set_db].
  split; [reflexivity |]. split; [| reflexivity].
  intros r Hin Hid.
  apply update_row in Hin as (r0 & _ & _ & ->); [reflexivity | exact Hid].
Qed.

(** A tap made while a withdrawal awaits its statistics update: the
    withdrawal record is stored and the store's cumulative-withdrawn
    grows, but the tap, which is answered after the withdrawal, writes the
    balance of its render plus 100 to the store and to the page, so the
    coins spent are deducted nowhere, and the page keeps the
    cumulative-withdrawn of before. *)
Theorem tap_during_redemption (s : Sys) (uid : jsstring) (us : UserStats.t)
  (a cs : Z) (em wid : jsstring) (b c u n : N) :
  user_id (world s) = Some uid ->
  userStats (world s) = Some us ->
  let k := List.length (pending s) in
  let s' :=
    run [ Call_updateWithdrawal a cs em;
          TimerFires k b c; Served k (Creates wid c); Resumed k u;
          Call_handleTap n;
          Served k Resolves; Resumed k 0;
          Served (S k) Resolves; Resumed (S k) 0 ] s in
  userStats (world s')
  = Some (with_coins (UserStats.totalCoins us + 100) us)
  /\ Store.withdrawals (db (world s'))
     = Store.withdrawals (db (world s))
       ++ [Withdrawal.mk wid uid a cs em (lit "completed")
             (lit "DEMO_" ++ decimal b) c]
  /\ (forall r,
        In r (Store.userStats (db (world s'))) ->
        UserStats.id r = UserStats.id us ->
        UserStats.totalCoins r = (UserStats.totalCoins us + 100)%Z
        /\ UserStats.totalWithdrawn r
           = (UserStats.totalWithdrawn us + a)%Z)
  /\ (a <> 0%Z -> ~ backed (world s'))
  /\ pending s' = (pending s ++ [Finished]) ++ [Finished].
Proof.
  intros Hu Hs k s'. subst k. destruct s as [w l]. cbn [world pending] in *.
  eassert (Hrun : s' = _).
  { subst s'.
    rewrite run_cons. cbn [step]. unfold Async.updateWithdrawal.
    cbn [world pending spawn]. rewrite Hu, Hs.
    do 3 exec_op.
    rewrite run_cons. cbn [step]. unfold Async.handleTap, Async.updateCoins.
    cbn [world pending spawn].
    repeat match goal with
           | |- context [user_id ?x] =>
               progress change (user_id x) with (user_id w)
           | |- context [userStats ?x] =>
               progress change (userStats x) with (userStats w)
           | |- context [coinsProp ?x] =>
               progress change (coinsProp x) with (coinsProp w)
           end.
    rewrite Hu, Hs. cbn [spawn world pending].
    alone. reflexivity. }
  assert (Hrows :
            forall r,
              In r (Store.userStats (db (world s'))) ->
              UserStats.id r = UserStats.id us ->
              UserStats.totalCoins r = (UserStats.totalCoins us + 100)%Z
              /\ UserStats.totalWithdrawn r
                 = (UserStats.totalWithdrawn us + a)%Z).
  { rewrite Hrun. cbn [world pending db userStats set_userStats set_db].
    intros r Hin Hid.
    apply update_row in Hin as (r0 & Hin0 & Hid0 & ->); [| exact Hid].
    apply update_row in Hin0 as (r1 & _ & _ & ->); [| exact Hid0].
    split; [| reflexivity].
    cbn. unfold coinsProp. cbn. rewrite Hs.
    destruct (Z.eqb_spec (UserStats.totalCoins us) 0) as [E | E];
      [rewrite E |]; reflexivity. }
  split; [| split; [| split; [exact Hrows | split]]].
  - rewrite Hrun. cbn [world userStats set_userStats].
    apply with_coins_eq. unfold coinsProp. cbn. rewrite Hs.
    destruct (Z.eqb_spec (UserStats.totalCoins us) 0) as [E | E];
      [rewrite E |]; reflexivity.
  - rewrite Hrun. reflexivity.
  - intros Ha Hb.
    assert (Hpage : userStats (world s')
                    = Some (with_coins (coinsProp w + 100) us))
      by (rewrite Hrun; reflexivity).
    destruct (Hb _ Hpage) as (r & Hin & Hid & _ & Hwd).
    destruct (Hrows r Hin Hid) as [_ Hwd']. rewrite Hwd' in Hwd.
    cbn in Hwd. lia.
  - rewrite Hrun. reflexivity.
Qed.

End Interleaving.
(* ===================================================================== *)
(** * The payout function: traces of outbound calls                     *)
(* ===================================================================== *)

Section PayoutTraces.

Import Payout PayoutProps.

Variable rt : Runtime.

Lemma jsstring_eqb_neq (a b : jsstring) : jsstring_eqb a b = false <-> a <> b.
Proof.
  unfold jsstring_eqb. destruct (list_eq_dec N.eq_dec a b); split;
    congruence.
Qed.

(** Symbolic execution of the handler in [E : handle rt req = (r, st)]:
    one goal per path, with the branch conditions as hypotheses. *)
Ltac exec_step E :=
  match type of E with
  | context [match ?x with _ => _ end] =>
      lazymatch x with
      | context [match _ with _ => _ end] => fail
      | _ => destruct x eqn:?; cbv beta iota in E
      end
  end.

Ltac exec_handler E :=
  unfold handle, serve in E;
  cbv [bind lift ret try_catch do_fetch console_error now St0
       calls console ticks] in E;
  repeat exec_step E;
  injection E as <- <-.

Ltac method_facts :=
  repeat match goal with
         | H : jsstring_eqb _ _ = true |- _ => apply jsstring_eqb_eq in H
         | H : jsstring_eqb _ _ = false |- _ => apply jsstring_eqb_neq in H
         | H : negb _ = true |- _ => apply negb_true_iff in H
         | H : negb _ = false |- _ => apply negb_false_iff in H
         end.

(** The handler always answers: no exception escapes it.  The status is
    200, 400, 405 or 500, every response carries
    [Access-Control-Allow-Origin: *], and the status is 405 exactly when
    the method is neither OPTIONS nor POST. *)
Theorem always_responds (req : Request) :
  exists resp,
    fst (handle rt req) = Ok resp
    /\ In (status resp) [200%N; 400%N; 405%N; 500%N]
    /\ In (lit "Access-Control-Allow-Origin", lit "*") (headers resp)
    /\ (status resp = 405%N
        <-> method req <> lit "OPTIONS" /\ method req <> lit "POST").
Proof.
  destruct (handle rt req) as [r st] eqn:E.
  exec_handler E.
  all: method_facts.
  all: eexists; split; [reflexivity |].
  all: cbn [status headers error_response new_Response json_headers In].
  all: split; [tauto |]; split; [tauto |].
  all: split; [intro H; try discriminate H; now split
              | intros [H1 H2]; try reflexivity; congruence].
Qed.

Ltac split_orb :=
  repeat match goal with
         | H : _ || _ = false |- _ =>
             apply orb_false_iff in H; destruct H
         end.

Lemma truthy_string_nonempty (s : jsstring) :
  truthy_string s = true -> s <> [].
Proof. destruct s; [discriminate | discriminate]. Qed.

(** The gateway is contacted only for a validated request: if the handler
    made any outbound call, the request was a POST whose body has truthy
    [email], [amount], [coins] and [userId], whose email matches
    [emailRegex], and both credentials were configured and non-empty. *)
Theorem gateway_only_after_validation (req : Request) :
  calls (snd (handle rt req)) <> [] ->
  exists f, validated rt req f.
Proof.
  destruct (handle rt req) as [r st] eqn:E.
  exec_handler E.
  all: cbn [snd calls]; intro Hne.
  all: try (exfalso; apply Hne; reflexivity).
  all: split_orb; method_facts.
  all: eexists (mkFields _ _ _ _); unfold validated, has_fields;
    cbn [f_email f_amount f_coins f_userId].
  all: split; [assumption |].
  all: split; [eexists; split; [eassumption |];
               repeat split; eassumption |].
  all: repeat (split; [assumption |]).
  all: split; [eexists; split; eassumption |].
  all: split; eexists; (split; [eassumption |]);
    apply truthy_string_nonempty; assumption.
Qed.

Lemma token_call_intro (clientId clientSecret basic : jsstring)
  (h : list (jsstring * jsstring)) :
  env_get rt (lit "PAYPAL_CLIENT_ID") = Some clientId ->
  env_get rt (lit "PAYPAL_CLIENT_SECRET") = Some clientSecret ->
  btoa rt (clientId ++ lit ":" ++ clientSecret) = Ok basic ->
  In (lit "Authorization", lit "Basic " ++ basic) h ->
  token_call rt
    (mkFetch token_url (lit "POST") h
       (TextBody (lit "grant_type=client_credentials"))).
Proof.
  intros H1 H2 H3 H4. unfold token_call.
  repeat (split; [reflexivity |]). now exists clientId, clientSecret, basic.
Qed.

Lemma payout_call_intro (r0 : FetchResponse)
  (tokenData access_token : jsval) (bearer : jsstring) (b : FetchBody) :
  response_json rt r0 = Ok tokenData ->
  get rt tokenData (lit "access_token") = Ok access_token ->
  ToString rt access_token = Ok bearer ->
  payout_call rt r0
    (mkFetch payouts_url (lit "POST")
       [ (lit "Content-Type", lit "application/json");
         (lit "Authorization", lit "Bearer " ++ bearer) ] b).
Proof.
  intros H1 H2 H3. unfold payout_call.
  repeat (split; [reflexivity |]).
  now exists tokenData, access_token, bearer.
Qed.

(** The handler makes at most two outbound calls and never repeats one.
    The first is the token call, and only it carries the client
    credentials; a second call is made only after a 2xx token answer, goes
    to the payouts endpoint, and carries the bearer token of that
    answer. *)
Theorem call_discipline (req : Request) :
  calls (snd (handle rt req)) = []
  \/ (exists rq a,
        calls (snd (handle rt req)) = [(rq, a)] /\ token_call rt rq)
  \/ (exists rq0 r0 rq1 a1,
        calls (snd (handle rt req)) = [(rq0, Ok r0); (rq1, a1)]
        /\ token_call rt rq0 /\ ok r0 = true /\ payout_call rt r0 rq1).
Proof.
  destruct (handle rt req) as [r st] eqn:E.
  exec_handler E.
  all: cbn [snd calls app].
  all: try (left; reflexivity).
  all: split_orb; method_facts.
  all: match goal with
       | |- _ \/ (exists rq a, [_] = [(rq, a)] /\ _) \/ _ =>
           right; left; eexists _, _; split; [reflexivity |];
           eapply token_call_intro;
           [eassumption | eassumption | eassumption | cbn [In]; tauto]
       | |- _ =>
           right; right; eexists _, _, _, _; split; [reflexivity |];
           split; [eapply token_call_intro;
                   [eassumption | eassumption | eassumption
                   | cbn [In]; tauto] |];
           split; [assumption |];
           eapply payout_call_intro; eassumption
       end.
Qed.

(** A POST is answered with status 200 only after the gateway confirmed
    the payout: both outbound calls were answered with a 2xx status,
    nothing was logged, and [batchId] and [status] of the response are the
    gateway's [payout_batch_id] and [batch_status], as they came. *)
Theorem success_only_when_confirmed (req : Request) (resp : Response) :
  fst (handle rt req) = Ok resp ->
  method req = lit "POST" ->
  status resp = 200%N ->
  exists rq0 r0 rq1 r1 bodyText result header batchId batchStatus message,
    calls (snd (handle rt req)) = [(rq0, Ok r0); (rq1, Ok r1)]
    /\ ok r0 = true /\ ok r1 = true
    /\ console (snd (handle rt req)) = []
    /\ text r1 = Ok bodyText
    /\ JSON_parse rt bodyText = Ok result
    /\ get rt result (lit "batch_header") = Ok header
    /\ get rt header (lit "payout_batch_id") = Ok batchId
    /\ get rt header (lit "batch_status") = Ok batchStatus
    /\ body resp
       = Some (VObj [ (lit "success", VBool true);
                      (lit "batchId", batchId);
                      (lit "status", batchStatus);
                      (lit "message", VStr message) ]).
Proof.
  destruct (handle rt req) as [r st] eqn:E.
  exec_handler E.
  all: cbn [fst snd calls console app].
  all: intros Hr Hm Hs; injection Hr as <-.
  all: try discriminate Hs.
  all: try match goal with
           | H : jsstring_eqb _ (lit "OPTIONS") = true |- _ =>
               rewrite Hm in H; vm_compute in H; discriminate H
           end.
  all: method_facts.
  all: repeat match goal with
              | H : response_json _ ?f = Ok _ |- _ =>
                  unfold response_json in H;
                  destruct (text f) eqn:?; [| discriminate H]
              end.
  all: eexists _, _, _, _, _, _, _, _, _, _.
  all: split; [reflexivity |].
  all: repeat (split; [eassumption || reflexivity |]).
  all: reflexivity.
Qed.

(** Every call to the payouts endpoint carries a batch of exactly one
    item: recipient type EMAIL, currency USD, the receiver is the [email]
    field of the (validated) request as it came, and the value is
    [amount.toString()]. *)
Theorem payout_has_one_item (req : Request) (rq : FetchRequest)
  (a : Attempt FetchResponse) :
  In (rq, a) (calls (snd (handle rt req))) ->
  url rq = payouts_url ->
  exists f value header note itemId,
    validated rt req f
    /\ toString_method rt (f_amount f) = Ok value
    /\ fetch_body rq
       = JsonBody
           (VObj [ (lit "sender_batch_header", header);
                   (lit "items",
                    VArr [payout_item (f_email f) value note itemId]) ]).
Proof.
  destruct (handle rt req) as [r st] eqn:E.
  exec_handler E.
  all: cbn [snd calls app In].
  all: intros Hin Hurl.
  all: repeat match goal with
              | H : False |- _ => destruct H
              | H : _ \/ _ |- _ => destruct H
              | H : (_, _) = (_, _) |- _ => injection H as <- <-
              end.
  all: try (exfalso; apply token_url_is_not_payouts_url;
            cbn [url] in Hurl; congruence).
  all: split_orb; method_facts.
  all: eexists (mkFields _ _ _ _), _, _, _, _.
  all: unfold validated, has_fields;
    cbn [f_email f_amount f_coins f_userId fetch_body].
  all: split;
    [split; [assumption |];
     split; [eexists; split; [eassumption |];
             repeat split; eassumption |];
     repeat (split; [assumption |]);
     split; [eexists; split; eassumption |];
     split; eexists; (split; [eassumption |]);
     apply truthy_string_nonempty; assumption |].
  all: split; [eassumption |].
  all: unfold payout_item; reflexivity.
Qed.

(** A network failure is not retried: when a [fetch] throws, it was the
    last outbound call, the error is logged, and the answer is status 500
    with 'Internal server error' and the error's message as details. *)
Theorem network_error_reported (req : Request) (rq : FetchRequest)
  (message : jsstring) :
  In (rq, Throw message) (calls (snd (handle rt req))) ->
  fst (handle rt req) = Ok (internal_error message)
  /\ (exists earlier,
        calls (snd (handle rt req)) = earlier ++ [(rq, Throw message)]
        /\ (List.length earlier <= 1)%nat
        /\ forall rq' a, In (rq', a) earlier -> exists r0, a = Ok r0)
  /\ console (snd (handle rt req))
     = [(lit "Payout function error:", message)].
Proof.
  destruct (handle rt req) as [r st] eqn:E.
  exec_handler E.
  all: cbn [fst snd calls console app In].
  all: intros Hin.
  all: repeat match goal with
              | H : False |- _ => destruct H
              | H : _ \/ _ |- _ => destruct H
              | H : (_, _) = (_, Throw _) |- _ =>
                  inversion H; subst; clear H
              end.
  all: split; [reflexivity |].
  all: split; [| reflexivity].
  all: first
         [ exists []; split; [reflexivity |]; split; [simpl; lia |];
           intros rq' a' []
         | eexists [_]; split; [reflexivity |]; split; [simpl; lia |];
           intros rq' a' [Hq | []]; injection Hq as _ <-;
           eexists; reflexivity ].
Qed.

(** A body that cannot be read as JSON, and the body [null], end in the
    [catch] block: status 500 with the error's message as details, logged,
    no outbound call.  A body that is a JSON boolean, number, string or
    array has none of the four fields and is answered with status 400. *)
Theorem body_that_is_no_object (req : Request) :
  method req = lit "POST" ->
  (forall message,
     json req = Throw message ->
     handle rt req
     = (Ok (internal_error message),
        mkSt [] [(lit "Payout function error:", message)] 0))
  /\ (json req = Ok VNull ->
      handle rt req
      = (Ok (internal_error (type_error rt)),
         mkSt [] [(lit "Payout function error:", type_error rt)] 0))
  /\ (forall v,
        json req = Ok v -> not_an_object v ->
        handle rt req
        = (Ok (error_response 400 (lit "Missing required fields")), St0)).
Proof.
  intro Hm.
  split; [| split].
  - intros message Hj. unfold handle, serve.
    rewrite Hm, post_is_not_options, post_is_post. cbn [negb].
    unfold try_catch, bind, lift. rewrite Hj. reflexivity.
  - intro Hj. unfold handle, serve.
    rewrite Hm, post_is_not_options, post_is_post. cbn [negb].
    unfold try_catch, bind, lift. rewrite Hj. reflexivity.
  - intros v Hj Hv. unfold handle, serve.
    rewrite Hm, post_is_not_options, post_is_post. cbn [negb].
    unfold try_catch, bind, lift. rewrite Hj.
    destruct v; try contradiction; reflexivity.
Qed.

(** A request that passes the checks of its body is still refused when a
    credential is missing or empty: status 500 with the error ['PayPal
    credentials not configured'], and no outbound call. *)
Theorem credentials_required (req : Request) (parsed : jsval) (f : Fields)
  (subject : jsstring) :
  method req = lit "POST" ->
  json req = Ok parsed ->
  has_fields rt parsed f ->
  truthy (f_email f) = true -> truthy (f_amount f) = true ->
  truthy (f_coins f) = true -> truthy (f_userId f) = true ->
  ToString rt (f_email f) = Ok subject ->
  emailRegex_test subject = true ->
  ~ (configured rt (lit "PAYPAL_CLIENT_ID")
     /\ configured rt (lit "PAYPAL_CLIENT_SECRET")) ->
  handle rt req
  = (Ok (error_response 500 (lit "PayPal credentials not configured")), St0)
  /\ status (error_response 500 (lit "PayPal credentials not configured"))
     = 500%N
  /\ body (error_response 500 (lit "PayPal credentials not configured"))
     = Some (VObj [(lit "error",
                    VStr (lit "PayPal credentials not configured"))]).
Proof.
  intros Hm Hj (He & Ha & Hc & Hu) Te Ta Tc Tu Hs Hr Hno.
  split; [| split; reflexivity].
  unfold handle, serve.
  rewrite Hm, post_is_not_options, post_is_post. cbn [negb].
  unfold try_catch, bind, lift. rewrite Hj, He, Ha, Hc, Hu.
  rewrite Te, Ta, Tc, Tu. cbn [negb orb]. rewrite Hs, Hr. cbn [negb].
  destruct (env_get rt (lit "PAYPAL_CLIENT_ID")) as [cid |] eqn:Ei;
    [| reflexivity].
  destruct (env_get rt (lit "PAYPAL_CLIENT_SECRET")) as [cs |] eqn:Es;
    [| reflexivity].
  destruct cid as [| c1 cid]; [reflexivity |].
  destruct cs as [| c2 cs]; [reflexivity |].
  exfalso. apply Hno. split; eexists; (split; [eassumption | discriminate]).
Qed.

End PayoutTraces.

(* ===================================================================== *)
(** * The tap animation                                                   *)
(* ===================================================================== *)

Section TapAnimation.

Import TapView.

Variable rnd : Q -> Q.

Lemma fire_not_tap (cb : Callback) (e : TapEnv) (rest : list Op) :
  In (Fire cb) (DoTap e :: rest) -> In (Fire cb) rest.
Proof. intros [H | H]; [discriminate | exact H]. Qed.

(** A state all of whose coins, rings and pressed flag are waited for by
    a timer of [ops] is back to the initial state after [ops]. *)
Lemma run_clears (ops : list Op) :
  forall st,
    timers_fire rnd ops ->
    (forall c, In c (floatingCoins st) ->
               exists batch,
                 In (Fire (CleanUpCoins batch)) ops
                 /\ existsb (fun nc => (id nc =? id c)%N) batch = true) ->
    (forall i, In i (pulseRings st) -> In (Fire (CleanUpRing i)) ops) ->
    (isPressed st = true -> In (Fire Release) ops) ->
    run rnd ops st = initial.
Proof.
  unfold run. induction ops as [| o ops IH]; intros st Ht Hc Hr Hp.
  - destruct st as [p cs rs]. simpl in *.
    destruct cs as [| c cs];
      [| destruct (Hc c (or_introl eq_refl)) as (? & [] & _)].
    destruct rs as [| i rs]; [| destruct (Hr i (or_introl eq_refl))].
    destruct p; [destruct (Hp eq_refl) | reflexivity].
  - cbn [fold_left]. apply IH.
    + destruct o; [apply Ht | exact Ht].
    + destruct o as [e | cb]; cbn [step].
      * destruct Ht as [Hfire _]. cbn [handleTap_view view floatingCoins].
        intros c Hin. apply in_app_or in Hin as [Hin | Hin].
        -- destruct (Hc c Hin) as (batch & Hb & Hcov).
           exists batch. split; [now apply fire_not_tap in Hb | exact Hcov].
        -- exists (newFloatingCoins rnd e). split.
           ++ apply (Hfire 1000%N). cbn. tauto.
           ++ apply existsb_exists. exists c.
              split; [exact Hin | apply N.eqb_refl].
      * destruct cb as [| batch | ringId]; cbn [fire floatingCoins];
          intros c Hin.
        -- destruct (Hc c Hin) as (b & [Hb | Hb] & Hcov);
             [discriminate | now exists b].
        -- apply filter_In in Hin as [Hin Hnot].
           apply negb_true_iff in Hnot.
           destruct (Hc c Hin) as (b & [Hb | Hb] & Hcov);
             [injection Hb as ->; congruence | now exists b].
        -- destruct (Hc c Hin) as (b & [Hb | Hb] & Hcov);
             [discriminate | now exists b].
    + destruct o as [e | cb]; cbn [step].
      * destruct Ht as [Hfire _]. cbn [handleTap_view view pulseRings].
        intros i Hin. apply in_app_or in Hin as [Hin | [<- | []]].
        -- now apply fire_not_tap with (e := e), Hr.
        -- apply (Hfire 600%N). cbn. tauto.
      * destruct cb as [| batch | ringId]; cbn [fire pulseRings];
          intros i Hin.
        -- destruct (Hr i Hin) as [Hb | Hb]; [discriminate | exact Hb].
        -- destruct (Hr i Hin) as [Hb | Hb]; [discriminate | exact Hb].
        -- apply filter_In in Hin as [Hin Hnot].
           apply negb_true_iff, N.eqb_neq in Hnot.
           destruct (Hr i Hin) as [Hb | Hb];
             [injection Hb as ->; congruence | exact Hb].
    + destruct o as [e | cb]; cbn [step].
      * destruct Ht as [Hfire _]. intros _. apply (Hfire 150%N). cbn. tauto.
      * destruct cb as [| batch | ringId]; cbn [fire isPressed]; intro Hpr.
        -- discriminate.
        -- destruct (Hp Hpr) as [Hb | Hb]; [discriminate | exact Hb].
        -- destruct (Hp Hpr) as [Hb | Hb]; [discriminate | exact Hb].
Qed.

(** The animation leaves nothing behind: after any sequence of taps and
    timer callbacks in which every timer of every tap fires some time
    after its tap, in any order, no floating coin and no pulse ring is
    left and the button is released, even when taps share a time stamp
    and hence ids. *)
Theorem animation_leaves_nothing (ops : list Op) :
  timers_fire rnd ops -> run rnd ops initial = initial.
Proof.
  intro Ht. apply run_clears; [exact Ht | | |]; cbn.
  - intros c [].
  - intros i [].
  - discriminate.
Qed.

End TapAnimation.

(* ===================================================================== *)
(** * Double arithmetic in the views                                    *)
(* ===================================================================== *)

Section Doubles.

(** The rounding of double arithmetic: monotone, and exact on the small
    integers that occur as constants. *)
Variable rnd : Q -> Q.
Hypothesis rnd_mono : forall x y : Q, x <= y -> rnd x <= rnd y.
Hypothesis rnd_int :
  forall z : Z, (Z.abs z <= 200)%Z -> rnd (inject_Z z) == inject_Z z.

Lemma rnd_ge (z : Z) (x : Q) :
  (Z.abs z <= 200)%Z -> inject_Z z <= x -> inject_Z z <= rnd x.
Proof.
  intros Hz H. apply Qle_trans with (rnd (inject_Z z)).
  - apply Qle_lteq. right. symmetry. now apply rnd_int.
  - now apply rnd_mono.
Qed.

Lemma rnd_le (z : Z) (x : Q) :
  (Z.abs z <= 200)%Z -> x <= inject_Z z -> rnd x <= inject_Z z.
Proof.
  intros Hz H. apply Qle_trans with (rnd (inject_Z z)).
  - now apply rnd_mono.
  - apply Qle_lteq. right. now apply rnd_int.
Qed.

Lemma rnd_between (lo hi : Z) (x : Q) :
  (Z.abs lo <= 200)%Z -> (Z.abs hi <= 200)%Z ->
  inject_Z lo <= x -> x <= inject_Z hi ->
  inject_Z lo <= rnd x /\ rnd x <= inject_Z hi.
Proof.
  intros Hlo Hhi H1 H2. split; [now apply rnd_ge | now apply rnd_le].
Qed.

Lemma spread_bounds (r : Q) (width half : Z) :
  (0 <= half)%Z -> (width = 2 * half)%Z -> (width <= 200)%Z ->
  0 <= r -> r < 1 ->
  inject_Z (- half) <= rnd (rnd (r * inject_Z width) - inject_Z half)
  /\ rnd (rnd (r * inject_Z width) - inject_Z half) <= inject_Z half.
Proof.
  intros Hh Hw Hmax H0 H1.
  assert (Hwq : 0 <= inject_Z width).
  { change 0 with (inject_Z 0). rewrite <- Zle_Qle. lia. }
  assert (Hin : inject_Z 0 <= rnd (r * inject_Z width)
                /\ rnd (r * inject_Z width) <= inject_Z width).
  { apply rnd_between; try lia.
    - change (inject_Z 0) with 0. now apply Qmult_le_0_compat.
    - setoid_replace (inject_Z width) with (1 * inject_Z width) at 2
        by ring.
      apply Qmult_le_compat_r; [now apply Qlt_le_weak | exact Hwq]. }
  destruct Hin as [Ha Hb].
  apply rnd_between; try lia.
  - rewrite inject_Z_opp.
    setoid_replace (- inject_Z half) with (inject_Z 0 - inject_Z half)
      by (change (inject_Z 0) with 0; ring).
    unfold Qminus. now apply Qplus_le_compat; [| apply Qle_refl].
  - setoid_replace (inject_Z half) with (inject_Z width - inject_Z half) at 2
      by (subst width; rewrite inject_Z_mult; change (inject_Z 2) with 2;
          ring).
    unfold Qminus. now apply Qplus_le_compat; [| apply Qle_refl].
Qed.

(** A tap spawns five floating coins, each within 100 pixels to the left
    or right and 25 pixels above or below the centre of the button; the
    i-th coin has id [Date.now() + i]. *)
Theorem floating_coins_near_button (e : TapView.TapEnv) :
  (forall n, 0 <= TapView.Math_random e n /\ TapView.Math_random e n < 1) ->
  List.length (TapView.newFloatingCoins rnd e) = 5%nat
  /\ map TapView.id (TapView.newFloatingCoins rnd e)
     = map (fun i => (TapView.Date_now e i + N.of_nat i)%N) (seq 0 5)
  /\ Forall (fun c => -100 <= TapView.x c /\ TapView.x c <= 100
                      /\ -25 <= TapView.y c /\ TapView.y c <= 25)
            (TapView.newFloatingCoins rnd e).
Proof.
  intro Hr. unfold TapView.newFloatingCoins.
  split; [reflexivity |]. split; [reflexivity |].
  apply Forall_forall. intros c Hc. apply in_map_iff in Hc as (i & <- & _).
  cbn [TapView.x TapView.y].
  destruct (Hr (2 * i)%nat) as [Hx0 Hx1].
  destruct (Hr (2 * i + 1)%nat) as [Hy0 Hy1].
  destruct (@spread_bounds (TapView.Math_random e (2 * i)) 200 100)
    as [Hxa Hxb]; try lia; try assumption.
  destruct (@spread_bounds (TapView.Math_random e (2 * i + 1)) 50 25)
    as [Hya Hyb]; try lia; try assumption.
  repeat split; assumption.
Qed.

Lemma ratio_mono (b1 b2 c : Z) :
  (0 < c)%Z -> (b1 <= b2)%Z ->
  inject_Z b1 / inject_Z c <= inject_Z b2 / inject_Z c.
Proof.
  intros Hc Hb. unfold Qdiv. apply Qmult_le_compat_r.
  - now rewrite <- Zle_Qle.
  - apply Qinv_le_0_compat. change 0 with (inject_Z 0).
    rewrite <- Zle_Qle. lia.
Qed.

Lemma ratio_self (c : Z) : (0 < c)%Z -> inject_Z c / inject_Z c == 1.
Proof.
  intro Hc. apply Qmult_inv_r. intro H.
  unfold Qeq in H. simpl in H. lia.
Qed.

Lemma progress_mono (b1 b2 c : Z) :
  (0 < c)%Z -> (b1 <= b2)%Z ->
  Redeem.getProgressPercentage rnd b1 c
  <= Redeem.getProgressPercentage rnd b2 c.
Proof.
  intros Hc Hb. unfold Redeem.getProgressPercentage.
  apply Q.min_le_compat_r. apply rnd_mono.
  apply Qmult_le_compat_r; [| discriminate].
  apply rnd_mono. now apply ratio_mono.
Qed.

Lemma progress_full (b c : Z) :
  (0 < c)%Z -> (c <= b)%Z ->
  Redeem.getProgressPercentage rnd b c == 100.
Proof.
  intros Hc Hb. unfold Redeem.getProgressPercentage.
  apply Q.min_r.
  assert (H1 : 1 <= rnd (inject_Z b / inject_Z c)).
  { apply (@rnd_ge 1%Z); [simpl; lia |].
    apply Qle_trans with (inject_Z c / inject_Z c);
      [| now apply ratio_mono].
    apply Qle_lteq. right. symmetry. now apply ratio_self. }
  apply (@rnd_ge 100%Z); [simpl; lia |].
  change (inject_Z 100) with (1 * 100).
  apply Qmult_le_compat_r; [exact H1 | discriminate].
Qed.

(** What a tier card shows, for a tier of positive cost.  The progress
    lies between 0 and 100 for a non-negative balance and never drops
    when the balance grows.  An affordable tier shows a full bar and
    'Ready to redeem!', and its button is enabled. *)
Theorem tier_card_is_consistent (b b' : Z) (t : Redeem.RedeemTier) :
  (0 < Redeem.coins t)%Z ->
  ((0 <= b)%Z -> 0 <= Redeem.getProgressPercentage rnd b (Redeem.coins t))
  /\ Redeem.getProgressPercentage rnd b (Redeem.coins t) <= 100
  /\ ((b <= b')%Z ->
      Redeem.getProgressPercentage rnd b (Redeem.coins t)
      <= Redeem.getProgressPercentage rnd b' (Redeem.coins t))
  /\ (Redeem.canAfford b (Redeem.coins t) = true ->
      Redeem.getProgressPercentage rnd b (Redeem.coins t) == 100
      /\ RedeemView.readyToRedeem rnd b t = true
      /\ RedeemView.tierDisabled b t = false).
Proof.
  intro Hc. split; [| split; [| split]].
  - intro Hb. unfold Redeem.getProgressPercentage.
    apply Q.min_glb; [| discriminate].
    apply (@rnd_ge 0%Z); [simpl; lia |]. change (inject_Z 0) with 0.
    apply Qmult_le_0_compat; [| discriminate].
    apply (@rnd_ge 0%Z); [simpl; lia |]. change (inject_Z 0) with 0.
    unfold Qdiv. apply Qmult_le_0_compat.
    + change 0 with (inject_Z 0). now rewrite <- Zle_Qle.
    + apply Qinv_le_0_compat. change 0 with (inject_Z 0).
      rewrite <- Zle_Qle. lia.
  - apply Q.le_min_r.
  - now apply progress_mono.
  - intro Ha. unfold Redeem.canAfford in Ha. apply Z.geb_le in Ha.
    pose proof (progress_full Hc Ha) as Hfull.
    split; [exact Hfull |]. split.
    + unfold RedeemView.readyToRedeem. apply Qle_bool_iff.
      rewrite Hfull. apply Qle_refl.
    + unfold RedeemView.tierDisabled, Redeem.canAfford.
      apply negb_false_iff. now apply Z.geb_le.
Qed.

End Doubles.

(* ===================================================================== *)
(** * A redemption in the history                                         *)
(* ===================================================================== *)

Section RedemptionInHistory.

Import App Props.

Lemma sort_desc_newest (x : Withdrawal.t) (l : list Withdrawal.t) :
  Forall (fun r => (Withdrawal.createdAt r < Withdrawal.createdAt x)%N) l ->
  Store.sort_desc (l ++ [x]) = x :: Store.sort_desc l.
Proof.
  induction 1 as [| r l Hr _ IH]; simpl; [reflexivity |].
  rewrite IH. simpl.
  destruct (N.leb_spec (Withdrawal.createdAt x) (Withdrawal.createdAt r));
    [lia | reflexivity].
Qed.

(** A redemption shows up in the history: after a successful redemption
    whose record is newer than every earlier record of the user, loading
    the history of that user puts the new record first, followed by the
    earlier ones, newest first, up to fifty records in all. *)
Theorem redemption_tops_history (e : WithdrawEnv) (c : Redeem.State)
  (w : World) (uid wid : jsstring) (us : UserStats.t)
  (t : Redeem.RedeemTier) (st : History.State) :
  user_id w = Some uid ->
  userStats w = Some us ->
  Redeem.selectedTier c = Some t ->
  trim (Redeem.paypalEmail c) <> [] ->
  (UserStats.totalCoins us >= Redeem.coins t)%Z ->
  create_id e = Some wid ->
  update_ok e = true ->
  Forall (fun r => (Withdrawal.createdAt r < now_created e)%N)
         (of_user uid (db w)) ->
  let record :=
    completed_record e wid uid (Redeem.amount t) (Redeem.coins t)
      (Redeem.paypalEmail c) in
  History.withdrawals
    (History.loadWithdrawals true (db (snd (Redeem.redeem e c w))) uid st)
  = record :: firstn 49 (Store.sort_desc (of_user uid (db w)))
  /\ History.displayedCount
       (History.loadWithdrawals true (db (snd (Redeem.redeem e c w))) uid st)
     = Nat.min 50 (S (List.length (of_user uid (db w)))).
Proof.
  intros Hu Hs Ht He Hge Hc Ho Hnew record.
  assert (Etrim : truthy_string (trim (Redeem.paypalEmail c)) = true)
    by (destruct (trim (Redeem.paypalEmail c)); [congruence | reflexivity]).
  assert (Hlt : (coinsProp w <? Redeem.coins t)%Z = false)
    by (rewrite (@coinsProp_balance w us Hs); apply Z.ltb_ge; lia).
  rewrite (@redeem_unfold e c w t Ht Etrim Hlt).
  assert (Hu1 : user_id (Redeem.toast (lit "Processing Withdrawal...") false w)
                = Some uid) by exact Hu.
  assert (Hs1 : userStats
                  (Redeem.toast (lit "Processing Withdrawal...") false w)
                = Some us) by exact Hs.
  destruct (@updateWithdrawal_resolved e (Redeem.amount t) (Redeem.coins t)
              (Redeem.paypalEmail c) _ uid wid us Hu1 Hs1 Hc Ho)
    as (w' & Hrun & _ & Hwd & _ & _).
  rewrite Hrun. cbn [snd Redeem.toast emit db].
  assert (Hlist :
            Store.withdrawals_list (db w') uid 50
            = record :: firstn 49 (Store.sort_desc (of_user uid (db w)))).
  { unfold Store.withdrawals_list. rewrite Hwd.
    change (db (Redeem.toast (lit "Processing Withdrawal...") false w))
      with (db w).
    rewrite filter_app. fold (of_user uid (db w)).
    cbn [filter]. fold record.
    change (Withdrawal.userId record) with uid.
    rewrite jsstring_eqb_refl.
    rewrite sort_desc_newest by exact Hnew. reflexivity. }
  unfold History.displayedCount, History.loadWithdrawals.
  cbn [History.withdrawals]. rewrite Hlist. split; [reflexivity |].
  cbn [List.length]. rewrite length_firstn.
  rewrite (Permutation_length (sort_desc_perm (of_user uid (db w)))).
  lia.
Qed.

End RedemptionInHistory.

(* ===================================================================== *)
(** * Instances                                                         *)
(* ===================================================================== *)

Import MoreProps PayoutProps.

Lemma accepted_email_facts_witness :
  count_occ N.eq_dec (lit "a@b.com") 64%N = 1%nat
  /\ Forall (fun c => isWhiteSpace c = false) (lit "a@b.com")
  /\ trim (lit "a@b.com") = lit "a@b.com"
  /\ truthy_string (trim (lit "a@b.com")) = true
  /\ (5 <= List.length (lit "a@b.com"))%nat.
Proof.
  apply (@accepted_email_facts (lit "a@b.com")). reflexivity.
Defined.

Lemma confirm_enabled_passes_first_check_witness :
  (exists s, Redeem.selectedTier (Examples.dialog Examples.tier1 "a@b.com")
             = Some s
             /\ Redeem.coins s = Redeem.coins Examples.tier1)
  /\ Redeem.isProcessing (Examples.dialog Examples.tier1 "a@b.com") = false
  /\ trim (Redeem.paypalEmail (Examples.dialog Examples.tier1 "a@b.com"))
     <> []
  /\ App.log (snd (Redeem.redeem Examples.store_ok
                     (Examples.dialog Examples.tier1 "a@b.com")
                     (Examples.world 10000 0)))
     <> App.log (Examples.world 10000 0)
        ++ [App.Toast (lit "Missing Information") true].
Proof.
  apply (@confirm_enabled_passes_first_check Examples.store_ok
           (Examples.dialog Examples.tier1 "a@b.com")
           (Examples.world 10000 0) Examples.tier1).
  - reflexivity.
  - reflexivity.
Defined.

Lemma loadUserStats_lazy_once_witness :
  exists us,
    App.userStats (App.loadUserStats MoreExamples.first_load
                     MoreExamples.newcomer) = Some us
    /\ UserStats.totalCoins us = 0%Z
    /\ App.loadUserStats MoreExamples.first_load
         (App.loadUserStats MoreExamples.first_load MoreExamples.newcomer)
       = App.loadUserStats MoreExamples.first_load MoreExamples.newcomer.
Proof.
  destruct (@loadUserStats_lazy_once MoreExamples.first_load
              MoreExamples.first_load MoreExamples.newcomer
              (lit "user_1") (lit "stats_1") 3000%N)
    as (us & Hus & _ & _ & Hnew & _ & _ & Hagain);
    [reflexivity | reflexivity | reflexivity | reflexivity |].
  exists us. split; [exact Hus |]. split; [| exact Hagain].
  destruct (Hnew eq_refl) as [-> _]. reflexivity.
Defined.

Lemma one_record_per_user_witness :
  one_per_user
    (App.db
       (Async.world
          (Async.run MoreExamples.first_visit
             (Async.mkSys MoreExamples.newcomer [])))).
Proof.
  apply (@one_record_per_user MoreExamples.first_visit
           (Async.mkSys MoreExamples.newcomer [])).
  - intro u. simpl. lia.
  - reflexivity.
  - vm_compute. reflexivity.
Defined.


Lemma page_figures_are_stored_witness :
  backed
    (Async.world
       (Async.run MoreExamples.in_turn
          (Async.mkSys (Examples.world 4900 0) []))).
Proof.
  apply (@page_figures_are_stored MoreExamples.in_turn
           (Async.mkSys (Examples.world 4900 0) [])).
  - intros us E. injection E as <-.
    exists (Examples.stats 4900 0). simpl. tauto.
  - reflexivity.
  - vm_compute. reflexivity.
  - vm_compute. reflexivity.
Defined.

Lemma taps_add_up_witness :
  App.userStats
    (Async.world
       (Async.run (Async.taps_in_turn MoreExamples.three_taps 0)
          (Async.mkSys (Examples.world 4900 0) [])))
  = Some (AsyncProps.with_coins (4900 + 100 * 2) (Examples.stats 4900 0)).
Proof.
  apply (@taps_add_up MoreExamples.three_taps
           (Async.mkSys (Examples.world 4900 0) []) (lit "user_1")
           (Examples.stats 4900 0)).
  - reflexivity.
  - reflexivity.
Defined.

Lemma taps_from_one_render_witness :
  App.userStats
    (Async.world
       (Async.run
          [ Async.Call_handleTap 1500; Async.Call_handleTap 1501;
            Async.Served 0 Async.Resolves; Async.Served 1 Async.Resolves;
            Async.Resumed 0 0; Async.Resumed 1 0 ]
          (Async.mkSys (Examples.world 4900 0) [])))
  = Some (AsyncProps.with_coins (4900 + 100) (Examples.stats 4900 0)).
Proof.
  apply (@taps_from_one_render (Async.mkSys (Examples.world 4900 0) [])
           (lit "user_1") (Examples.stats 4900 0) 1500 1501).
  - reflexivity.
  - reflexivity.
Defined.

Lemma tap_during_redemption_witness :
  App.userStats
    (Async.world
       (Async.run
          [ Async.Call_updateWithdrawal 1 5000 (lit "a@b.com");
            Async.TimerFires 0 2000 2001;
            Async.Served 0 (Async.Creates (lit "wd_1") 2001);
            Async.Resumed 0 2002;
            Async.Call_handleTap 2003;
            Async.Served 0 Async.Resolves; Async.Resumed 0 0;
            Async.Served 1 Async.Resolves; Async.Resumed 1 0 ]
          (Async.mkSys (Examples.world 5000 0) [])))
  = Some (AsyncProps.with_coins (5000 + 100) (Examples.stats 5000 0)).
Proof.
  apply (@tap_during_redemption (Async.mkSys (Examples.world 5000 0) [])
           (lit "user_1") (Examples.stats 5000 0) 1 5000 (lit "a@b.com")
           (lit "wd_1") 2000 2001 2002 2003).
  - reflexivity.
  - reflexivity.
Defined.

Lemma gateway_only_after_validation_witness :
  exists f,
    validated Examples.token_refused
      (Examples.post (Examples.payout_body 5 10000)) f.
Proof.
  apply (@gateway_only_after_validation Examples.token_refused
           (Examples.post (Examples.payout_body 5 10000))).
  vm_compute. discriminate.
Defined.

Lemma success_only_when_confirmed_witness :
  exists resp,
    fst (Payout.handle MoreExamples.paid
           (Examples.post (Examples.payout_body 5 10000))) = Ok resp
    /\ exists rq0 r0 rq1 r1 bodyText result header batchId batchStatus
               message,
         Payout.calls
           (snd (Payout.handle MoreExamples.paid
                   (Examples.post (Examples.payout_body 5 10000))))
         = [(rq0, Ok r0); (rq1, Ok r1)]
         /\ Payout.ok r0 = true /\ Payout.ok r1 = true
         /\ Payout.console
              (snd (Payout.handle MoreExamples.paid
                      (Examples.post (Examples.payout_body 5 10000)))) = []
         /\ Payout.text r1 = Ok bodyText
         /\ Payout.JSON_parse MoreExamples.paid bodyText = Ok result
         /\ Payout.get MoreExamples.paid result (lit "batch_header")
            = Ok header
         /\ Payout.get MoreExamples.paid header (lit "payout_batch_id")
            = Ok batchId
         /\ Payout.get MoreExamples.paid header (lit "batch_status")
            = Ok batchStatus
         /\ Payout.body resp
            = Some (Payout.VObj
                      [ (lit "success", Payout.VBool true);
                        (lit "batchId", batchId);
                        (lit "status", batchStatus);
                        (lit "message", Payout.VStr message) ]).
Proof.
  eexists. split; [vm_compute; reflexivity |].
  eapply (@success_only_when_confirmed MoreExamples.paid
            (Examples.post (Examples.payout_body 5 10000))).
  - vm_compute. reflexivity.
  - reflexivity.
  - reflexivity.
Defined.

Lemma payout_has_one_item_witness :
  exists rq f value header note itemId,
    validated Examples.payout_refused
      (Examples.post (Examples.payout_body 5 10000)) f
    /\ Payout.toString_method Examples.payout_refused (f_amount f) = Ok value
    /\ Payout.fetch_body rq
       = Payout.JsonBody
           (Payout.VObj
              [ (lit "sender_batch_header", header);
                (lit "items",
                 Payout.VArr [payout_item (f_email f) value note itemId]) ]).
Proof.
  eexists.
  eapply (@payout_has_one_item Examples.payout_refused
            (Examples.post (Examples.payout_body 5 10000))).
  - vm_compute. right. left. reflexivity.
  - reflexivity.
Defined.

Lemma network_error_reported_witness :
  fst (Payout.handle MoreExamples.offline
         (Examples.post (Examples.payout_body 5 10000)))
  = Ok (internal_error (lit "connection refused"))
  /\ Payout.console
       (snd (Payout.handle MoreExamples.offline
               (Examples.post (Examples.payout_body 5 10000))))
     = [(lit "Payout function error:", lit "connection refused")].
Proof.
  edestruct (@network_error_reported MoreExamples.offline
               (Examples.post (Examples.payout_body 5 10000)))
    as (Hr & _ & Hc).
  - vm_compute. left. reflexivity.
  - split; [exact Hr | exact Hc].
Defined.

Lemma body_that_is_no_object_witness :
  Payout.handle Examples.token_refused (Examples.post Payout.VNull)
  = (Ok (internal_error (lit "Cannot read properties of null")),
     Payout.mkSt []
       [(lit "Payout function error:", lit "Cannot read properties of null")]
       0)
  /\ Payout.handle Examples.token_refused
       (Examples.post (Payout.VArr []))
     = (Ok (Payout.error_response 400 (lit "Missing required fields")),
        Payout.St0).
Proof.
  split.
  - apply (proj1 (proj2 (@body_that_is_no_object Examples.token_refused
                           (Examples.post Payout.VNull) eq_refl))).
    reflexivity.
  - exact (proj2 (proj2 (@body_that_is_no_object Examples.token_refused
                           (Examples.post (Payout.VArr [])) eq_refl))
             (Payout.VArr []) eq_refl I).
Defined.

Lemma credentials_required_witness :
  Payout.handle MoreExamples.unconfigured
    (Examples.post (Examples.payout_body 5 10000))
  = (Ok (Payout.error_response 500
           (lit "PayPal credentials not configured")),
     Payout.St0)
  /\ Payout.status
       (Payout.error_response 500 (lit "PayPal credentials not configured"))
     = 500%N
  /\ Payout.body
       (Payout.error_response 500 (lit "PayPal credentials not configured"))
     = Some (Payout.VObj
               [(lit "error",
                 Payout.VStr (lit "PayPal credentials not configured"))]).
Proof.
  apply (@credentials_required MoreExamples.unconfigured
           (Examples.post (Examples.payout_body 5 10000))
           (Examples.payout_body 5 10000) MoreExamples.payout_fields
           (lit "a@b.com")).
  - reflexivity.
  - reflexivity.
  - repeat split.
  - reflexivity.
  - reflexivity.
  - reflexivity.
  - reflexivity.
  - reflexivity.
  - reflexivity.
  - intros [(value & H & _) _]. discriminate H.
Defined.

Lemma invalid_email_rejected_witness :
  Payout.handle Examples.token_refused
    (Examples.post (Payout.VObj MoreExamples.notanemail_fields))
  = (Ok (Payout.error_response 400 (lit "Invalid email format")), Payout.St0)
  /\ Payout.status (Payout.error_response 400 (lit "Invalid email format"))
     = 400%N
  /\ Payout.body (Payout.error_response 400 (lit "Invalid email format"))
     = Some (Payout.VObj
               [(lit "error", Payout.VStr (lit "Invalid email format"))]).
Proof.
  apply (@invalid_email_rejected Examples.token_refused
           (Examples.post (Payout.VObj MoreExamples.notanemail_fields))
           MoreExamples.notanemail_fields (lit "notanemail")).
  - reflexivity.
  - reflexivity.
  - reflexivity.
  - reflexivity.
  - reflexivity.
  - reflexivity.
  - reflexivity.
  - reflexivity.
Defined.

Lemma animation_leaves_nothing_witness :
  TapView.run (fun q => q) MoreExamples.double_tap TapView.initial
  = TapView.initial.
Proof.
  apply (@animation_leaves_nothing (fun q => q) MoreExamples.double_tap).
  unfold MoreExamples.double_tap. cbn [TapView.timers_fire].
  split; [| split; [| exact I]].
  - intros d cb H. cbn in H.
    destruct H as [H | [H | [H | []]]]; injection H as <- <-; cbn; tauto.
  - intros d cb H. cbn in H.
    destruct H as [H | [H | [H | []]]]; injection H as <- <-; cbn; tauto.
Defined.

Lemma floating_coins_near_button_witness :
  List.length
    (TapView.newFloatingCoins (fun q => q) (MoreExamples.tap_at 7)) = 5%nat
  /\ map TapView.id
       (TapView.newFloatingCoins (fun q => q) (MoreExamples.tap_at 7))
     = [7; 8; 9; 10; 11]%N
  /\ Forall (fun c => -100 <= TapView.x c /\ TapView.x c <= 100
                      /\ -25 <= TapView.y c /\ TapView.y c <= 25)
            (TapView.newFloatingCoins (fun q => q) (MoreExamples.tap_at 7)).
Proof.
  apply (@floating_coins_near_button (fun q => q)).
  - intros x y H. exact H.
  - intros z _. reflexivity.
  - intro n. split; [discriminate | reflexivity].
Defined.

Lemma tier_card_is_consistent_witness :
  Redeem.getProgressPercentage (fun q => q) 12000 10000 == 100
  /\ RedeemView.readyToRedeem (fun q => q) 12000 Examples.tier5 = true
  /\ RedeemView.tierDisabled 12000 Examples.tier5 = false.
Proof.
  destruct (@tier_card_is_consistent (fun q => q)
              (fun x y H => H) (fun z _ => Qeq_refl (inject_Z z))
              12000 12000 Examples.tier5)
    as (_ & _ & _ & H); [reflexivity |].
  apply H. reflexivity.
Defined.

Lemma redemption_tops_history_witness :
  History.withdrawals
    (History.loadWithdrawals true
       (App.db (snd (Redeem.redeem Examples.store_ok
                       (Examples.dialog Examples.tier5 "a@b.com")
                       MoreExamples.returning)))
       (lit "user_1") History.initial)
  = [ Props.completed_record Examples.store_ok (lit "wd_1") (lit "user_1")
        5 10000 (lit "a@b.com");
      Examples.withdrawal 7 ]
  /\ History.displayedCount
       (History.loadWithdrawals true
          (App.db (snd (Redeem.redeem Examples.store_ok
                          (Examples.dialog Examples.tier5 "a@b.com")
                          MoreExamples.returning)))
          (lit "user_1") History.initial)
     = 2%nat.
Proof.
  apply (@redemption_tops_history Examples.store_ok
           (Examples.dialog Examples.tier5 "a@b.com")
           MoreExamples.returning (lit "user_1") (lit "wd_1")
           (Examples.stats 10000 1) Examples.tier5 History.initial).
  - reflexivity.
  - reflexivity.
  - reflexivity.
  - vm_compute. discriminate.
  - vm_compute. discriminate.
  - reflexivity.
  - reflexivity.
  - repeat constructor.
Defined.
